(** * Narrative engine of the bot: a shallow embedding of
    [mybot/narrative/narrative_service.py] (class [NarrativeService]).

    The service is a sequence of reads and writes on an SQLAlchemy session,
    interleaved with calls to collaborators.  It is embedded as a small
    state-and-exception monad over a [World] that holds the committed rows,
    the objects of the session (with their pending changes), and a log of
    the commits and collaborator calls in the order they happen. *)

From Stdlib Require Import ZArith QArith Lia Ascii String.
From stdpp Require Import base option list gmap strings pretty.

Local Open Scope Z_scope.
Local Open Scope string_scope.
Local Open Scope list_scope.

(** ** Data model *)

(** Values of the free-form [story_flags] dictionary. *)
Inductive FlagVal :=
| FBool (b : bool)
| FInt (z : Z)
| FStr (s : string)
| FList (l : list string).

(** Values of a requirements dictionary (kind -> threshold or value). *)
Inductive ReqVal :=
| RInt (z : Z)
| RList (l : list string)
| RFlags (l : list (string * FlagVal)).

(** A requirements dictionary, in declaration order. *)
Definition Requirements := list (string * ReqVal).

(** The [effects] dictionary of a choice: each key may be absent. *)
Record Effects := {
  eff_relationships : option (list (string * Z));
  eff_story_flags : option (list (string * FlagVal));
  eff_items : option (list string);
  eff_points : option Z
}.

(** The rewards object of a fragment; [hasattr] is an [option] per field. *)
Record Rewards := {
  rw_points : option Z;
  rw_achievements : option (list string);
  rw_lore_pieces : option (list string);
  rw_unlock_fragments : option (list string)
}.

(** [ChoiceSchema]. *)
Record Choice := {
  ch_id : string;
  ch_text : string;
  ch_next_fragment : string;
  ch_requirements : option Requirements;
  ch_effects : option Effects
}.

(** [FragmentSchema]; [frag_type] is the string the code compares with
    ["checkpoint"] and ["ending"]. *)
Record Fragment := {
  frag_id : string;
  frag_chapter : Z;
  frag_type : string;
  frag_title : option string;
  frag_next_fragment : option string;
  frag_requirements : option Requirements;
  frag_rewards : option Rewards
}.

Record Story := {
  title : string;
  requires_vip : bool
}.

(** [database.models.User], the columns the service reads. *)
Record User := {
  role : string;
  level : Z;
  points : Z
}.

(** [UserNarrativeState], one row per user. *)
Record UserNarrativeState := {
  user_id : Z;
  active_story : option string;
  current_fragment_id : option string;
  current_chapter : Z;
  fragments_visited : list string;
  story_flags : gmap string FlagVal;
  relationship_scores : gmap string Z;
  total_decisions_made : Z;
  story_completion_percent : Q;
  started_at : Z;
  last_interaction_at : Z;
  vip_story_unlocked : bool
}.

(** [UserDecision], the append-only log of choices. *)
Record UserDecision := {
  dec_user_id : Z;
  dec_fragment_id : option string;
  dec_choice_id : string;
  dec_choice_text : string;
  dec_chapter : Z;
  dec_points_gained : Z;
  dec_items_gained : list string
}.

(** The dictionary built by [_get_user_data_for_requirements]. *)
Record UserData := {
  ud_level : Z;
  ud_points : Z;
  ud_items : list string;
  ud_achievements : list string;
  ud_story_flags : gmap string FlagVal
}.

(** The result triple [(success, message, fragment)] of an operation. *)
Definition Result : Type := bool * string * option Fragment.

(** [self.story_manager]: the catalogue of stories.  [story_manager.py] is
    not among the sources, so the service is verified for every catalogue.
    Identifiers read from a state row may be [None], hence the [option]
    arguments. *)
Record StoryManager := {
  get_story : string -> option Story;
  get_starting_fragment : string -> option Fragment;
  get_fragment : option string -> option string -> option Fragment;
  validate_choice : option string -> option string -> string -> option Choice;
  check_requirements : Requirements -> UserData -> bool * list string;
  calculate_completion_percent : option string -> list string -> Q
}.

(** ** The world: database, session and call log *)

(** Commits and collaborator calls, as they are attempted. *)
Inductive Event :=
| EvCommit
| EvGivePoints (uid : Z) (amount : Z)
| EvFragmentVisit (fid : string)
| EvChoiceMetric (fid : option string) (cid : string)
| EvCheckpoint (uid : Z) (st : UserNarrativeState)
| EvAward (uid : Z) (achievement_id : string)
| EvUnlockLore (uid : Z) (lore_code : string).

Record World := {
  users : gmap Z User;
  user_achievements : list (Z * string);
  db_states : gmap Z UserNarrativeState;
  db_decisions : list UserDecision;
  objects : gmap Z UserNarrativeState;
  pending : list UserDecision;
  clock : Z;
  calls : list Event
}.

(** Exceptions the modelled code can raise. *)
Inductive PyExn := AttributeError | ValueError | IndexError.

Inductive Outcome (A : Type) :=
| Ret (a : A)
| Raise (e : PyExn).
Arguments Ret {A} a.
Arguments Raise {A} e.

(** A computation runs on a world and leaves a world behind, also when it
    raises: what was committed before the exception stays committed. *)
Definition M (A : Type) : Type := World -> World * Outcome A.

#[export] Instance M_ret : MRet M := fun A a w => (w, Ret a).
#[export] Instance M_bind : MBind M := fun A B f c w =>
  match c w with
  | (w', Ret a) => f a w'
  | (w', Raise e) => (w', Raise e)
  end.

Definition raise {A} (e : PyExn) : M A := fun w => (w, Raise e).
Definition gets {A} (f : World -> A) : M A := fun w => (w, Ret (f w)).
Definition modify (f : World -> World) : M unit := fun w => (f w, Ret tt).


(** ** Record updates *)

Definition set_active_story (v : option string) (s : UserNarrativeState) : UserNarrativeState :=
  {| user_id := user_id s; active_story := v;
     current_fragment_id := current_fragment_id s; current_chapter := current_chapter s;
     fragments_visited := fragments_visited s; story_flags := story_flags s;
     relationship_scores := relationship_scores s;
     total_decisions_made := total_decisions_made s;
     story_completion_percent := story_completion_percent s;
     started_at := started_at s; last_interaction_at := last_interaction_at s;
     vip_story_unlocked := vip_story_unlocked s |}.

Definition set_current_fragment_id (v : option string) (s : UserNarrativeState) : UserNarrativeState :=
  {| user_id := user_id s; active_story := active_story s;
     current_fragment_id := v; current_chapter := current_chapter s;
     fragments_visited := fragments_visited s; story_flags := story_flags s;
     relationship_scores := relationship_scores s;
     total_decisions_made := total_decisions_made s;
     story_completion_percent := story_completion_percent s;
     started_at := started_at s; last_interaction_at := last_interaction_at s;
     vip_story_unlocked := vip_story_unlocked s |}.

Definition set_current_chapter (v : Z) (s : UserNarrativeState) : UserNarrativeState :=
  {| user_id := user_id s; active_story := active_story s;
     current_fragment_id := current_fragment_id s; current_chapter := v;
     fragments_visited := fragments_visited s; story_flags := story_flags s;
     relationship_scores := relationship_scores s;
     total_decisions_made := total_decisions_made s;
     story_completion_percent := story_completion_percent s;
     started_at := started_at s; last_interaction_at := last_interaction_at s;
     vip_story_unlocked := vip_story_unlocked s |}.

Definition set_fragments_visited (v : list string) (s : UserNarrativeState) : UserNarrativeState :=
  {| user_id := user_id s; active_story := active_story s;
     current_fragment_id := current_fragment_id s; current_chapter := current_chapter s;
     fragments_visited := v; story_flags := story_flags s;
     relationship_scores := relationship_scores s;
     total_decisions_made := total_decisions_made s;
     story_completion_percent := story_completion_percent s;
     started_at := started_at s; last_interaction_at := last_interaction_at s;
     vip_story_unlocked := vip_story_unlocked s |}.

Definition set_story_flags (v : gmap string FlagVal) (s : UserNarrativeState) : UserNarrativeState :=
  {| user_id := user_id s; active_story := active_story s;
     current_fragment_id := current_fragment_id s; current_chapter := current_chapter s;
     fragments_visited := fragments_visited s; story_flags := v;
     relationship_scores := relationship_scores s;
     total_decisions_made := total_decisions_made s;
     story_completion_percent := story_completion_percent s;
     started_at := started_at s; last_interaction_at := last_interaction_at s;
     vip_story_unlocked := vip_story_unlocked s |}.

Definition set_relationship_scores (v : gmap string Z) (s : UserNarrativeState) : UserNarrativeState :=
  {| user_id := user_id s; active_story := active_story s;
     current_fragment_id := current_fragment_id s; current_chapter := current_chapter s;
     fragments_visited := fragments_visited s; story_flags := story_flags s;
     relationship_scores := v;
     total_decisions_made := total_decisions_made s;
     story_completion_percent := story_completion_percent s;
     started_at := started_at s; last_interaction_at := last_interaction_at s;
     vip_story_unlocked := vip_story_unlocked s |}.

Definition set_total_decisions_made (v : Z) (s : UserNarrativeState) : UserNarrativeState :=
  {| user_id := user_id s; active_story := active_story s;
     current_fragment_id := current_fragment_id s; current_chapter := current_chapter s;
     fragments_visited := fragments_visited s; story_flags := story_flags s;
     relationship_scores := relationship_scores s;
     total_decisions_made := v;
     story_completion_percent := story_completion_percent s;
     started_at := started_at s; last_interaction_at := last_interaction_at s;
     vip_story_unlocked := vip_story_unlocked s |}.

Definition set_story_completion_percent (v : Q) (s : UserNarrativeState) : UserNarrativeState :=
  {| user_id := user_id s; active_story := active_story s;
     current_fragment_id := current_fragment_id s; current_chapter := current_chapter s;
     fragments_visited := fragments_visited s; story_flags := story_flags s;
     relationship_scores := relationship_scores s;
     total_decisions_made := total_decisions_made s;
     story_completion_percent := v;
     started_at := started_at s; last_interaction_at := last_interaction_at s;
     vip_story_unlocked := vip_story_unlocked s |}.

Definition set_last_interaction_at (v : Z) (s : UserNarrativeState) : UserNarrativeState :=
  {| user_id := user_id s; active_story := active_story s;
     current_fragment_id := current_fragment_id s; current_chapter := current_chapter s;
     fragments_visited := fragments_visited s; story_flags := story_flags s;
     relationship_scores := relationship_scores s;
     total_decisions_made := total_decisions_made s;
     story_completion_percent := story_completion_percent s;
     started_at := started_at s; last_interaction_at := v;
     vip_story_unlocked := vip_story_unlocked s |}.

Definition set_vip_story_unlocked (v : bool) (s : UserNarrativeState) : UserNarrativeState :=
  {| user_id := user_id s; active_story := active_story s;
     current_fragment_id := current_fragment_id s; current_chapter := current_chapter s;
     fragments_visited := fragments_visited s; story_flags := story_flags s;
     relationship_scores := relationship_scores s;
     total_decisions_made := total_decisions_made s;
     story_completion_percent := story_completion_percent s;
     started_at := started_at s; last_interaction_at := last_interaction_at s;
     vip_story_unlocked := v |}.

Definition set_items_gained (v : list string) (d : UserDecision) : UserDecision :=
  {| dec_user_id := dec_user_id d; dec_fragment_id := dec_fragment_id d;
     dec_choice_id := dec_choice_id d; dec_choice_text := dec_choice_text d;
     dec_chapter := dec_chapter d; dec_points_gained := dec_points_gained d;
     dec_items_gained := v |}.

Definition set_points_gained (v : Z) (d : UserDecision) : UserDecision :=
  {| dec_user_id := dec_user_id d; dec_fragment_id := dec_fragment_id d;
     dec_choice_id := dec_choice_id d; dec_choice_text := dec_choice_text d;
     dec_chapter := dec_chapter d; dec_points_gained := v;
     dec_items_gained := dec_items_gained d |}.

Definition with_objects (v : gmap Z UserNarrativeState) (w : World) : World :=
  {| users := users w; user_achievements := user_achievements w;
     db_states := db_states w; db_decisions := db_decisions w;
     objects := v; pending := pending w; clock := clock w; calls := calls w |}.

Definition with_pending (v : list UserDecision) (w : World) : World :=
  {| users := users w; user_achievements := user_achievements w;
     db_states := db_states w; db_decisions := db_decisions w;
     objects := objects w; pending := v; clock := clock w; calls := calls w |}.

Definition with_calls (v : list Event) (w : World) : World :=
  {| users := users w; user_achievements := user_achievements w;
     db_states := db_states w; db_decisions := db_decisions w;
     objects := objects w; pending := pending w; clock := clock w; calls := v |}.

(** ** The session *)

(** What [session.get(UserNarrativeState, user_id)] yields: the object the
    session already holds for that key, else the committed row. *)
Definition lookup_state (w : World) (uid : Z) : option UserNarrativeState :=
  match objects w !! uid with
  | Some s => Some s
  | None => db_states w !! uid
  end.

(** Every decision record the session knows: committed, then pending. *)
Definition all_decisions (w : World) : list UserDecision :=
  db_decisions w ++ pending w.

(** [session.get(User, user_id)]. *)
Definition session_get_user (uid : Z) : M (option User) :=
  gets (fun w => users w !! uid).

(** [session.add(state)]. *)
Definition session_add_state (s : UserNarrativeState) : M unit :=
  modify (fun w => with_objects (<[user_id s := s]> (objects w)) w).

(** [session.add(decision)]. *)
Definition session_add_decision (d : UserDecision) : M unit :=
  modify (fun w => with_pending (pending w ++ [d]) w).

(** [session.commit()]: the objects of the session and the added records
    become rows; the commit is logged. *)
Definition commit_world (w : World) : World :=
  {| users := users w; user_achievements := user_achievements w;
     db_states := objects w ∪ db_states w;
     db_decisions := db_decisions w ++ pending w;
     objects := objects w; pending := [];
     clock := clock w; calls := calls w ++ [EvCommit] |}.

Definition commit : M unit := modify commit_world.

(** Reading an attribute of the state object of [uid].  The variable
    [state] of the source is a reference to the object the session holds,
    so every read sees the assignments made so far, whoever made them. *)
Definition getattr {A} (uid : Z) (f : UserNarrativeState -> A) : M A :=
  fun w =>
    match lookup_state w uid with
    | Some s => (w, Ret (f s))
    | None => (w, Raise AttributeError)
    end.

(** Assigning to the state object of [uid]: [f] maps the object before the
    assignment to the object after it. *)
Definition setattr (uid : Z) (f : UserNarrativeState -> UserNarrativeState) : M unit :=
  fun w =>
    match lookup_state w uid with
    | Some s => (with_objects (<[uid := f s]> (objects w)) w, Ret tt)
    | None => (w, Raise AttributeError)
    end.

(** [datetime.utcnow()]. *)
Definition utcnow : M Z := gets clock.

(** A collaborator call is logged when it is attempted. *)
Definition call (e : Event) : M unit :=
  modify (fun w => with_calls (calls w ++ [e]) w).

(** [for x in l: body(x)]. *)
Fixpoint for_each {A} (l : list A) (body : A -> M unit) : M unit :=
  match l with
  | [] => mret tt
  | x :: l' => body x;; for_each l' body
  end.

(** Python truthiness of an optional string: [None] and [""] are false. *)
Definition truthy_str (s : option string) : bool :=
  match s with
  | None => false
  | Some s => negb (String.eqb s "")
  end.

(** First position of [x] in [l], as [list.index] computes it. *)
Fixpoint index_of (x : string) (l : list string) : option nat :=
  match l with
  | [] => None
  | y :: l' => if String.eqb y x then Some O else S <$> index_of x l'
  end.

(** [l.index(x)] for a value that may be [None]; [ValueError] when absent. *)
Definition py_index (l : list string) (x : option string) : M nat :=
  match x with
  | None => raise ValueError
  | Some x => match index_of x l with
              | Some i => mret i
              | None => raise ValueError
              end
  end.

Definition newline : string := String "010"%char EmptyString.

(** The message built from the list of missing requirements. *)
Definition requirements_message (missing : list string) : string :=
  "No cumples los requisitos:" +:+ newline +:+
  String.concat newline (map (fun req => "• " +:+ req) missing).

(** ** The service *)

Section NarrativeService.

(** [self.story_manager]. *)
Variable sm : StoryManager.

(** The table [NARRATIVE_POINTS] of [constants.py] (not among the sources),
    read at a key. *)
Variable NARRATIVE_POINTS : string -> Z.

(** The last statement of [_process_fragment_rewards], which the source
    shows only up to its assignment to [state.story_flags]: how the
    fragments to unlock are marked in the flags. *)
Variable mark_discovered : list string -> gmap string FlagVal -> gmap string FlagVal.

(** Modelled from the spec: the points collaborator [grant(userId, amount)];
    the body of [_give_narrative_points] is not among the sources. *)
Definition _give_narrative_points (user_id : Z) (amount : Z) : M unit :=
  call (EvGivePoints user_id amount).

(** Modelled from the spec: the metrics collaborator
    [recordFragmentVisit(fragmentId)]; the body of [_record_fragment_visit]
    is not among the sources. *)
Definition _record_fragment_visit (fragment_id : string) : M unit :=
  call (EvFragmentVisit fragment_id).

(** Modelled from the spec: the metrics collaborator
    [recordChoice(fragmentId, choiceId)]; the body of
    [_record_choice_metric] is not among the sources. *)
Definition _record_choice_metric (fragment_id : option string) (choice_id : string) : M unit :=
  call (EvChoiceMetric fragment_id choice_id).

(** Modelled from the spec: the checkpoint collaborator [save(userId, state)],
    given the state object as it is at the call; the body of
    [_create_checkpoint] is not among the sources. *)
Definition _create_checkpoint (user_id : Z) : M unit :=
  st ← getattr user_id (fun s => s);
  call (EvCheckpoint user_id st).

(** Modelled from the spec: the achievement collaborator [grant(userId, id)];
    the body of [_check_and_award_achievement] is not among the sources. *)
Definition _check_and_award_achievement (user_id : Z) (achievement_id : string) : M unit :=
  call (EvAward user_id achievement_id).

(** Modelled from the spec: the lore collaborator [unlock(userId, loreCode)];
    the body of [_unlock_lore_piece] is not among the sources. *)
Definition _unlock_lore_piece (user_id : Z) (lore_code : string) : M unit :=
  call (EvUnlockLore user_id lore_code).

Definition get_user_state (user_id : Z) : M (option UserNarrativeState) :=
  gets (fun w => lookup_state w user_id).

(** Modelled from the spec: [models.py] is not among the sources; the columns
    the constructor call leaves out take the values of a state on which no
    story was started and no decision made, stamped with the current time. *)
Definition new_state (user_id : Z) (now : Z) : UserNarrativeState :=
  {| user_id := user_id;
     active_story := None;
     current_fragment_id := None;
     current_chapter := 1;
     fragments_visited := [];
     story_flags := {[ "first_time" := FBool true;
                        "lucien_relationship" := FInt 0;
                        "diana_relationship" := FInt 0;
                        "secrets_discovered" := FInt 0 ]};
     relationship_scores := {[ "lucien" := 0; "diana" := 0 ]};
     total_decisions_made := 0;
     story_completion_percent := 0%Q;
     started_at := now;
     last_interaction_at := now;
     vip_story_unlocked := false |}.

Definition initialize_user_narrative (user_id : Z) : M UserNarrativeState :=
  now ← utcnow;
  let state := new_state user_id now in
  session_add_state state;;
  commit;;
  mret state.

Definition start_story (user_id : Z) (story_id : string) : M Result :=
  match get_story sm story_id with
  | None => mret (false, "Historia no encontrada", None)
  | Some story =>
    state ← get_user_state user_id;
    match state with
    | None => _ ← initialize_user_narrative user_id; mret tt
    | Some _ => mret tt
    end;;
    let continue : M Result :=
      match get_starting_fragment sm story_id with
      | None => mret (false, "Error al cargar la historia", None)
      | Some starting_fragment =>
        setattr user_id (set_active_story (Some story_id));;
        setattr user_id (set_current_fragment_id (Some (frag_id starting_fragment)));;
        setattr user_id (set_current_chapter (frag_chapter starting_fragment));;
        setattr user_id (set_fragments_visited [frag_id starting_fragment]);;
        setattr user_id (set_story_completion_percent 0%Q);;
        (if String.eqb story_id "vip"
         then setattr user_id (set_vip_story_unlocked true)
         else mret tt);;
        commit;;
        _record_fragment_visit (frag_id starting_fragment);;
        _give_narrative_points user_id (NARRATIVE_POINTS "fragment_read");;
        mret (true, "Historia '" +:+ title story +:+ "' iniciada", Some starting_fragment)
      end in
    if requires_vip story then
      user ← session_get_user user_id;
      match user with
      | None => raise AttributeError
      | Some user =>
        if negb (String.eqb (role user) "vip")
        then mret (false, "Esta historia requiere suscripción VIP", None)
        else continue
      end
    else continue
  end.

Definition get_current_fragment (user_id : Z) : M (option Fragment) :=
  state ← get_user_state user_id;
  match state with
  | None => mret None
  | Some state =>
    if negb (truthy_str (current_fragment_id state)) then mret None
    else mret (get_fragment sm (active_story state) (current_fragment_id state))
  end.

Definition _get_user_data_for_requirements (user_id : Z) : M UserData :=
  user ← session_get_user user_id;
  state ← get_user_state user_id;
  rows ← gets user_achievements;
  let achievements := map snd (filter (fun r => r.1 = user_id) rows) in
  let items := [] in
  mret {| ud_level := match user with Some u => level u | None => 1 end;
          ud_points := match user with Some u => points u | None => 0 end;
          ud_items := items;
          ud_achievements := achievements;
          ud_story_flags := match state with
                            | Some s => story_flags s
                            | None => ∅
                            end |}.

(** The decision record is changed in place by the source; here the
    changed record is returned. *)
Definition _apply_choice_effects (user_id : Z) (effects : Effects)
    (decision : UserDecision) : M UserDecision :=
  state ← get_user_state user_id;
  match state with
  | None => mret decision
  | Some _ =>
    match eff_relationships effects with
    | Some relationships =>
      for_each relationships (fun '(character, change) =>
        setattr user_id (fun s =>
          let current := default 0 (relationship_scores s !! character) in
          set_relationship_scores (<[character := current + change]> (relationship_scores s)) s))
    | None => mret tt
    end;;
    match eff_story_flags effects with
    | Some flags =>
      setattr user_id (fun s =>
        set_story_flags (foldl (fun m '(k, v) => <[k := v]> m) (story_flags s) flags) s)
    | None => mret tt
    end;;
    let decision :=
      match eff_items effects with
      | Some items => set_items_gained items decision
      | None => decision
      end in
    match eff_points effects with
    | Some pts =>
      let decision := set_points_gained pts decision in
      _give_narrative_points user_id pts;;
      mret decision
    | None => mret decision
    end
  end.

Definition _process_fragment_rewards (user_id : Z) (fragment : Fragment) : M unit :=
  match frag_rewards fragment with
  | None => mret tt
  | Some rewards =>
    match rw_points rewards with
    | Some pts => if (0 <? pts)%Z then _give_narrative_points user_id pts else mret tt
    | None => mret tt
    end;;
    match rw_achievements rewards with
    | Some achievements =>
      for_each achievements (fun achievement_id =>
        _check_and_award_achievement user_id achievement_id)
    | None => mret tt
    end;;
    match rw_lore_pieces rewards with
    | Some lore_pieces =>
      for_each lore_pieces (fun lore_code => _unlock_lore_piece user_id lore_code)
    | None => mret tt
    end;;
    match rw_unlock_fragments rewards with
    | Some unlock_fragments =>
      state ← get_user_state user_id;
      match state with
      | Some _ =>
        setattr user_id (fun s =>
          set_story_flags (mark_discovered unlock_fragments (story_flags s)) s)
      | None => mret tt
      end
    | None => mret tt
    end
  end.

Definition make_choice (user_id : Z) (choice_id : string) : M Result :=
  state ← get_user_state user_id;
  match state with
  | None => mret (false, "No tienes una historia activa", None)
  | Some state =>
    match get_fragment sm (active_story state) (current_fragment_id state) with
    | None => mret (false, "Error al cargar el fragmento actual", None)
    | Some current_fragment =>
      match validate_choice sm (active_story state) (current_fragment_id state) choice_id with
      | None => mret (false, "Opción no válida", None)
      | Some choice =>
        user ← session_get_user user_id;
        user_data ← _get_user_data_for_requirements user_id;
        let '(can_choose, missing) :=
          check_requirements sm (default [] (ch_requirements choice)) user_data in
        if negb can_choose then
          mret (false, requirements_message missing, None)
        else
          match get_fragment sm (active_story state) (Some (ch_next_fragment choice)) with
          | None => mret (false, "Error al cargar el siguiente fragmento", None)
          | Some next_fragment =>
            let decision :=
              {| dec_user_id := user_id;
                 dec_fragment_id := current_fragment_id state;
                 dec_choice_id := choice_id;
                 dec_choice_text := ch_text choice;
                 dec_chapter := frag_chapter current_fragment;
                 dec_points_gained := 0;
                 dec_items_gained := [] |} in
            decision ← match ch_effects choice with
                       | Some effects => _apply_choice_effects user_id effects decision
                       | None => mret decision
                       end;
            session_add_decision decision;;
            setattr user_id (set_current_fragment_id (Some (frag_id next_fragment)));;
            setattr user_id (set_current_chapter (frag_chapter next_fragment));;
            setattr user_id (fun s =>
              if bool_decide (frag_id next_fragment ∈ fragments_visited s) then s
              else set_fragments_visited (fragments_visited s ++ [frag_id next_fragment]) s);;
            setattr user_id (fun s => set_total_decisions_made (total_decisions_made s + 1) s);;
            now ← utcnow;
            setattr user_id (set_last_interaction_at now);;
            (if String.eqb (frag_type next_fragment) "checkpoint"
             then _create_checkpoint user_id
             else mret tt);;
            match frag_rewards next_fragment with
            | Some _ => _process_fragment_rewards user_id next_fragment
            | None => mret tt
            end;;
            setattr user_id (fun s =>
              set_story_completion_percent
                (calculate_completion_percent sm (active_story s) (fragments_visited s)) s);;
            commit;;
            _record_fragment_visit (frag_id next_fragment);;
            current ← getattr user_id current_fragment_id;
            _record_choice_metric current choice_id;;
            _give_narrative_points user_id (NARRATIVE_POINTS "decision_made");;
            mret (true, "Decisión registrada", Some next_fragment)
          end
      end
    end
  end.

Definition navigate_next (user_id : Z) : M Result :=
  state ← get_user_state user_id;
  match state with
  | None => mret (false, "No tienes una historia activa", None)
  | Some state =>
    let current_fragment := get_fragment sm (active_story state) (current_fragment_id state) in
    match current_fragment with
    | None => mret (false, "No hay siguiente fragmento", None)
    | Some current_fragment =>
      if negb (truthy_str (frag_next_fragment current_fragment)) then
        mret (false, "No hay siguiente fragmento", None)
      else
        match get_fragment sm (active_story state) (frag_next_fragment current_fragment) with
        | None => mret (false, "Error al cargar el siguiente fragmento", None)
        | Some next_fragment =>
          user_data ← _get_user_data_for_requirements user_id;
          let '(can_access, missing) :=
            check_requirements sm (default [] (frag_requirements next_fragment)) user_data in
          if negb can_access then
            mret (false, requirements_message missing, None)
          else
            setattr user_id (set_current_fragment_id (Some (frag_id next_fragment)));;
            setattr user_id (set_current_chapter (frag_chapter next_fragment));;
            setattr user_id (fun s =>
              if bool_decide (frag_id next_fragment ∈ fragments_visited s) then s
              else set_fragments_visited (fragments_visited s ++ [frag_id next_fragment]) s);;
            now ← utcnow;
            setattr user_id (set_last_interaction_at now);;
            match frag_rewards next_fragment with
            | Some _ => _process_fragment_rewards user_id next_fragment
            | None => mret tt
            end;;
            setattr user_id (fun s =>
              set_story_completion_percent
                (calculate_completion_percent sm (active_story s) (fragments_visited s)) s);;
            commit;;
            _record_fragment_visit (frag_id next_fragment);;
            _give_narrative_points user_id (NARRATIVE_POINTS "fragment_read");;
            mret (true, "Continuando historia", Some next_fragment)
        end
    end
  end.

Definition go_back (user_id : Z) : M Result :=
  state ← get_user_state user_id;
  match state with
  | None => mret (false, "No puedes retroceder más", None)
  | Some state =>
    if (length (fragments_visited state) <=? 1)%nat then
      mret (false, "No puedes retroceder más", None)
    else
      current_index ← py_index (fragments_visited state) (current_fragment_id state);
      if (current_index <=? 0)%nat then
        mret (false, "Ya estás en el inicio", None)
      else
        match fragments_visited state !! (current_index - 1)%nat with
        | None => raise IndexError
        | Some previous_fragment_id =>
          match get_fragment sm (active_story state) (Some previous_fragment_id) with
          | None => mret (false, "Error al cargar fragmento anterior", None)
          | Some previous_fragment =>
            setattr user_id (set_current_fragment_id (Some previous_fragment_id));;
            setattr user_id (set_current_chapter (frag_chapter previous_fragment));;
            now ← utcnow;
            setattr user_id (set_last_interaction_at now);;
            commit;;
            mret (true, "Has retrocedido", Some previous_fragment)
          end
        end
  end.

End NarrativeService.

(** ** Vocabulary of the specifications *)

(** [s'] is [s] up to its two dictionaries, the only attributes that choice
    effects and fragment rewards assign. *)
Definition same_core (s s' : UserNarrativeState) : Prop :=
  exists flags scores, s' = set_story_flags flags (set_relationship_scores scores s).

(** A stretch of an operation before its commit, seen from the state object
    of user [u]: the object goes from [s] to [s'], the records [ds] are
    added to the session, the calls [evs] are made, nothing is committed
    and no other object is touched. *)
Record touched (u : Z) (s s' : UserNarrativeState) (ds : list UserDecision)
    (evs : list Event) (w w' : World) : Prop := {
  t_users : users w' = users w;
  t_achievements : user_achievements w' = user_achievements w;
  t_db_states : db_states w' = db_states w;
  t_db_decisions : db_decisions w' = db_decisions w;
  t_clock : clock w' = clock w;
  t_pending : pending w' = pending w ++ ds;
  t_calls : calls w' = calls w ++ evs;
  t_others : forall v, v <> u -> objects w' !! v = objects w !! v;
  t_before : lookup_state w u = Some s;
  t_after : lookup_state w' u = Some s'
}.

(** The world after the commit that ends an operation and the calls [post]
    that follow it. *)
Definition finish (post : list Event) (w : World) : World :=
  with_calls (calls w ++ EvCommit :: post) (commit_world w).

(** The calls [_apply_choice_effects] makes. *)
Definition effects_calls (u : Z) (e : Effects) : list Event :=
  match eff_points e with
  | Some pts => [EvGivePoints u pts]
  | None => []
  end.

(** The decision record as [_apply_choice_effects] leaves it. *)
Definition effects_decision (e : Effects) (d : UserDecision) : UserDecision :=
  let d := match eff_items e with
           | Some items => set_items_gained items d
           | None => d
           end in
  match eff_points e with
  | Some pts => set_points_gained pts d
  | None => d
  end.

(** The calls [_process_fragment_rewards] makes. *)
Definition rewards_calls (u : Z) (r : Rewards) : list Event :=
  match rw_points r with
  | Some pts => if (0 <? pts)%Z then [EvGivePoints u pts] else []
  | None => []
  end ++
  match rw_achievements r with
  | Some l => map (EvAward u) l
  | None => []
  end ++
  match rw_lore_pieces r with
  | Some l => map (EvUnlockLore u) l
  | None => []
  end.

(** The user facts read by [_get_user_data_for_requirements]. *)
Definition user_data_of (w : World) (u : Z) : UserData :=
  {| ud_level := match users w !! u with Some x => level x | None => 1 end;
     ud_points := match users w !! u with Some x => points x | None => 0 end;
     ud_items := [];
     ud_achievements := map snd (filter (fun r => r.1 = u) (user_achievements w));
     ud_story_flags := match lookup_state w u with
                       | Some s => story_flags s
                       | None => ∅
                       end |}.

(** The visited list after moving to fragment [fid]. *)
Definition visit (fid : string) (l : list string) : list string :=
  if bool_decide (fid ∈ l) then l else l ++ [fid].

(** The calls a run added to the log. *)
Definition new_calls (w w' : World) : list Event :=
  drop (length (calls w)) (calls w').

(** Points grants and metrics: the auxiliary calls. *)
Definition is_aux (e : Event) : bool :=
  match e with
  | EvGivePoints _ _ | EvFragmentVisit _ | EvChoiceMetric _ _ => true
  | _ => false
  end.

Definition is_metric (e : Event) : bool :=
  match e with
  | EvFragmentVisit _ | EvChoiceMetric _ _ => true
  | _ => false
  end.

(** Neither a metric nor a commit. *)
Definition before_commit (e : Event) : Prop :=
  is_metric e = false /\ e <> EvCommit.

(** Every auxiliary call of [evs] has a commit before it ([committed]: a
    commit was already seen). *)
Fixpoint aux_after_commit (committed : bool) (evs : list Event) : bool :=
  match evs with
  | [] => true
  | EvCommit :: r => aux_after_commit true r
  | e :: r => (negb (is_aux e) || committed) && aux_after_commit committed r
  end.

(** Number of checkpoint saves in a log. *)
Fixpoint checkpoint_saves (evs : list Event) : nat :=
  match evs with
  | [] => O
  | EvCheckpoint _ _ :: r => S (checkpoint_saves r)
  | _ :: r => checkpoint_saves r
  end.

(** The two failures of [go_back] that say the user cannot go back. *)
Definition CannotGoBack (r : Result) : Prop :=
  r = (false, "No puedes retroceder más", None) \/
  r = (false, "Ya estás en el inicio", None).

(** *** What a successful operation does to the state object *)

(** The state after a move to fragment [fid] that counts [n] decisions. *)
Record advanced (fid : string) (n : Z) (s s' : UserNarrativeState) : Prop := {
  adv_cursor : current_fragment_id s' = Some fid;
  adv_visited : fragments_visited s' = visit fid (fragments_visited s);
  adv_total : total_decisions_made s' = total_decisions_made s + n;
  adv_story : active_story s' = active_story s
}.

(** The state after story [sid] was started at fragment [fid]. *)
Record started (sid fid : string) (s s' : UserNarrativeState) : Prop := {
  st_cursor : current_fragment_id s' = Some fid;
  st_visited : fragments_visited s' = [fid];
  st_total : total_decisions_made s' = total_decisions_made s;
  st_story : active_story s' = Some sid
}.

(** The state after a step back to the visited fragment [prev]. *)
Record stepped_back (prev : string) (s s' : UserNarrativeState) : Prop := {
  sb_cursor : current_fragment_id s' = Some prev;
  sb_visited : fragments_visited s' = fragments_visited s;
  sb_total : total_decisions_made s' = total_decisions_made s;
  sb_story : active_story s' = active_story s
}.

(** The calls [make_choice] makes before its commit; [saved] is the state
    handed to the checkpoint collaborator. *)
Definition choice_calls (u : Z) (choice : Choice) (next : Fragment)
    (saved : UserNarrativeState) : list Event :=
  match ch_effects choice with
  | Some e => effects_calls u e
  | None => []
  end ++
  (if String.eqb (frag_type next) "checkpoint" then [EvCheckpoint u saved] else []) ++
  match frag_rewards next with
  | Some r => rewards_calls u r
  | None => []
  end.

(** The world once [start_story] has got or created the state of [u]: a
    missing state is created and committed on the spot. *)
Definition prepared (u : Z) (w : World) : World :=
  match lookup_state w u with
  | Some _ => w
  | None => commit_world (with_objects (<[u := new_state u (clock w)]> (objects w)) w)
  end.

(** The ways [go_back] can end, with the world it leaves. *)
Inductive go_back_case (sm : StoryManager) (u : Z) (w : World) :
    World * Outcome Result -> Prop :=
| gb_no_state :
    lookup_state w u = None ->
    go_back_case sm u w (w, Ret (false, "No puedes retroceder más", None))
| gb_short s :
    lookup_state w u = Some s ->
    (length (fragments_visited s) <= 1)%nat ->
    go_back_case sm u w (w, Ret (false, "No puedes retroceder más", None))
| gb_lost s :
    lookup_state w u = Some s ->
    (1 < length (fragments_visited s))%nat ->
    (forall c, current_fragment_id s = Some c -> c ∉ fragments_visited s) ->
    go_back_case sm u w (w, Raise ValueError)
| gb_first s c :
    lookup_state w u = Some s ->
    (1 < length (fragments_visited s))%nat ->
    current_fragment_id s = Some c ->
    index_of c (fragments_visited s) = Some O ->
    go_back_case sm u w (w, Ret (false, "Ya estás en el inicio", None))
| gb_unloadable s c i prev :
    lookup_state w u = Some s ->
    current_fragment_id s = Some c ->
    index_of c (fragments_visited s) = Some (S i) ->
    fragments_visited s !! i = Some prev ->
    get_fragment sm (active_story s) (Some prev) = None ->
    go_back_case sm u w (w, Ret (false, "Error al cargar fragmento anterior", None))
| gb_moved s c i prev pf sf w1 :
    lookup_state w u = Some s ->
    current_fragment_id s = Some c ->
    index_of c (fragments_visited s) = Some (S i) ->
    fragments_visited s !! i = Some prev ->
    get_fragment sm (active_story s) (Some prev) = Some pf ->
    stepped_back prev s sf ->
    touched u s sf [] [] w w1 ->
    go_back_case sm u w (finish [] w1, Ret (true, "Has retrocedido", Some pf)).

(** *** Invariants of the visited history *)

(** [I] holds of every state row, committed or held by the session. *)
Definition world_inv (I : UserNarrativeState -> Prop) (w : World) : Prop :=
  forall v s, objects w !! v = Some s \/ db_states w !! v = Some s -> I s.

(** The cursor, when set, is in the history. *)
Definition cursor_visited (s : UserNarrativeState) : Prop :=
  forall c, current_fragment_id s = Some c -> c ∈ fragments_visited s.

(** The same, and a state without cursor has an empty history. *)
Definition cursor_tracked (s : UserNarrativeState) : Prop :=
  match current_fragment_id s with
  | Some c => c ∈ fragments_visited s
  | None => fragments_visited s = []
  end.

(** The history has no duplicates. *)
Definition visited_nodup (s : UserNarrativeState) : Prop :=
  NoDup (fragments_visited s).

(** A property of (cursor, history) that the four ways the service writes
    them keep: creation, start, advance, step back. *)
Record history_inv (J : option string -> list string -> Prop) : Prop := {
  J_new : J None [];
  J_start : forall fid, J (Some fid) [fid];
  J_advance : forall c l fid, J c l -> J (Some fid) (visit fid l);
  J_back : forall c l i p, J c l -> l !! i = Some p -> J (Some p) l
}.

(** *** Reachable worlds *)

Inductive Op :=
| OpInitialize (u : Z)
| OpStartStory (u : Z) (story_id : string)
| OpMakeChoice (u : Z) (choice_id : string)
| OpNavigateNext (u : Z)
| OpGoBack (u : Z).

Section Reachability.

Variable sm : StoryManager.
Variable NARRATIVE_POINTS : string -> Z.
Variable mark_discovered : list string -> gmap string FlagVal -> gmap string FlagVal.

(** The world an operation leaves, whether it returns or raises. *)
Definition run_op (op : Op) (w : World) : World :=
  match op with
  | OpInitialize u => (initialize_user_narrative u w).1
  | OpStartStory u sid => (start_story sm NARRATIVE_POINTS u sid w).1
  | OpMakeChoice u cid => (make_choice sm NARRATIVE_POINTS mark_discovered u cid w).1
  | OpNavigateNext u => (navigate_next sm NARRATIVE_POINTS mark_discovered u w).1
  | OpGoBack u => (go_back sm u w).1
  end.

(** Worlds the service can be in: it starts on a database without
    narrative rows; operations run; the rest of the bot changes users,
    achievements and the time; a request may open a fresh session. *)
Inductive reachable : World -> Prop :=
| reach_fresh w :
    db_states w = ∅ -> objects w = ∅ -> reachable w
| reach_op op w :
    reachable w -> reachable (run_op op w)
| reach_env w us achs t :
    reachable w ->
    reachable {| users := us; user_achievements := achs;
                 db_states := db_states w; db_decisions := db_decisions w;
                 objects := objects w; pending := pending w;
                 clock := t; calls := calls w |}
| reach_session w :
    reachable w -> reachable (with_pending [] (with_objects ∅ w)).

End Reachability.

(** ** A small catalogue, for concrete runs *)

Module Demo.

Definition f1 : Fragment :=
  {| frag_id := "f1"; frag_chapter := 1; frag_type := "decision";
     frag_title := Some "Inicio"; frag_next_fragment := None;
     frag_requirements := None; frag_rewards := None |}.

Definition f2 : Fragment :=
  {| frag_id := "f2"; frag_chapter := 1; frag_type := "narrative";
     frag_title := None; frag_next_fragment := Some "f3";
     frag_requirements := None; frag_rewards := None |}.

Definition f3 : Fragment :=
  {| frag_id := "f3"; frag_chapter := 2; frag_type := "checkpoint";
     frag_title := None; frag_next_fragment := None;
     frag_requirements := None; frag_rewards := None |}.

Definition f4 : Fragment :=
  {| frag_id := "f4"; frag_chapter := 2; frag_type := "narrative";
     frag_title := None; frag_next_fragment := Some "f5";
     frag_requirements := None; frag_rewards := None |}.

Definition f5 : Fragment :=
  {| frag_id := "f5"; frag_chapter := 3; frag_type := "ending";
     frag_title := Some "Final"; frag_next_fragment := None;
     frag_requirements := Some [("min_level", RInt 5)]; frag_rewards := None |}.

Definition v1 : Fragment :=
  {| frag_id := "v1"; frag_chapter := 1; frag_type := "narrative";
     frag_title := None; frag_next_fragment := None;
     frag_requirements := None; frag_rewards := None |}.

Definition c1 : Choice :=
  {| ch_id := "c1"; ch_text := "Seguir"; ch_next_fragment := "f2";
     ch_requirements := None; ch_effects := None |}.

Definition c2 : Choice :=
  {| ch_id := "c2"; ch_text := "Confiar"; ch_next_fragment := "f3";
     ch_requirements := None;
     ch_effects := Some {| eff_relationships := Some [("lucien", 2)];
                           eff_story_flags := None;
                           eff_items := None;
                           eff_points := Some 5 |} |}.

Definition c3 : Choice :=
  {| ch_id := "c3"; ch_text := "Forzar"; ch_next_fragment := "f2";
     ch_requirements := Some [("min_level", RInt 5)]; ch_effects := None |}.

Definition c4 : Choice :=
  {| ch_id := "c4"; ch_text := "Saltar"; ch_next_fragment := "f4";
     ch_requirements := None; ch_effects := None |}.

Definition fragments : list Fragment := [f1; f2; f3; f4; f5].

Definition story_fragment (story fid : option string) : option Fragment :=
  match story, fid with
  | Some "free", Some fid => find (fun f => String.eqb (frag_id f) fid) fragments
  | Some "vip", Some "v1" => Some v1
  | _, _ => None
  end.

Definition story_choice (story fid : option string) (cid : string) : option Choice :=
  match story, fid with
  | Some "free", Some "f1" =>
    find (fun c => String.eqb (ch_id c) cid) [c1; c2; c3; c4]
  | _, _ => None
  end.

Fixpoint missing_of (reqs : Requirements) (ud : UserData) : list string :=
  match reqs with
  | [] => []
  | (k, v) :: r =>
    match v with
    | RInt n =>
      if String.eqb k "min_level" && (ud_level ud <? n)%Z
      then "Nivel insuficiente" :: missing_of r ud
      else missing_of r ud
    | _ => missing_of r ud
    end
  end.

Definition sm : StoryManager :=
  {| get_story := fun sid =>
       match sid with
       | "free" => Some {| title := "Libre"; requires_vip := false |}
       | "vip" => Some {| title := "Diana"; requires_vip := true |}
       | "vacia" => Some {| title := "Vacia"; requires_vip := false |}
       | _ => None
       end;
     get_starting_fragment := fun sid =>
       match sid with
       | "free" => Some f1
       | "vip" => Some v1
       | _ => None
       end;
     get_fragment := story_fragment;
     validate_choice := story_choice;
     check_requirements := fun reqs ud =>
       (match missing_of reqs ud with [] => true | _ => false end, missing_of reqs ud);
     calculate_completion_percent := fun _ visited =>
       Qmake (100 * Z.of_nat (length visited)) 5 |}.

Definition NARRATIVE_POINTS (k : string) : Z :=
  match k with
  | "fragment_read" => 1
  | "decision_made" => 3
  | _ => 0
  end.

Definition mark_discovered (l : list string) (flags : gmap string FlagVal) : gmap string FlagVal :=
  <["discovered_fragments" := FList l]> flags.

(** A database with two users (1: free, 2: vip) and no narrative row. *)
Definition w0 : World :=
  {| users := {[ 1 := {| role := "free"; level := 1; points := 0 |};
                 2 := {| role := "vip"; level := 7; points := 40 |} ]};
     user_achievements := [];
     db_states := ∅; db_decisions := [];
     objects := ∅; pending := [];
     clock := 100; calls := [] |}.

Definition start_story' := start_story sm NARRATIVE_POINTS.
Definition make_choice' := make_choice sm NARRATIVE_POINTS mark_discovered.
Definition navigate_next' := navigate_next sm NARRATIVE_POINTS mark_discovered.
Definition go_back' := go_back sm.

(** User 1 has started the free story. *)
Definition w_started : World := (start_story' 1 "free" w0).1.

(** ... and has taken choice [c1], to [f2]. *)
Definition w_chosen : World := (make_choice' 1 "c1" w_started).1.

(** ... and has then started the free story again. *)
Definition w_restarted : World := (start_story' 1 "free" w_chosen).1.

(** User 1 has started the free story and taken choice [c4], to [f4],
    whose successor [f5] asks for level 5. *)
Definition w_gated : World := (make_choice' 1 "c4" w_started).1.

(** User 1 has started the free story, taken [c1] and gone back. *)
Definition w_back : World := (go_back' 1 w_chosen).1.

End Demo.

(** ** Vocabulary of the further properties *)


(** One iteration of the loop over [effects["relationships"]]. *)
Definition add_relationship (p : string * Z) (s : UserNarrativeState) : UserNarrativeState :=
  set_relationship_scores
    (<[p.1 := default 0 (relationship_scores s !! p.1) + p.2]> (relationship_scores s)) s.

(** The state object as [_apply_choice_effects] leaves it. *)
Definition effects_state (e : Effects) (s : UserNarrativeState) : UserNarrativeState :=
  let s1 := match eff_relationships e with
            | Some rels => foldl (fun s p => add_relationship p s) s rels
            | None => s
            end in
  match eff_story_flags e with
  | Some flags =>
    set_story_flags (foldl (fun m '(k, v) => <[k := v]> m) (story_flags s1) flags) s1
  | None => s1
  end.

(** Sum of the changes listed for [character]. *)
Fixpoint total_change (character : string) (rels : list (string * Z)) : Z :=
  match rels with
  | [] => 0
  | (c, ch) :: r =>
    if bool_decide (c = character) then ch + total_change character r
    else total_change character r
  end.

(** The value the last entry for [k] gives it, if there is one. *)
Fixpoint last_binding (k : string) (l : list (string * FlagVal)) : option FlagVal :=
  match l with
  | [] => None
  | (k', v) :: r =>
    match last_binding k r with
    | Some x => Some x
    | None => if bool_decide (k' = k) then Some v else None
    end
  end.

(** The world with the calls [evs] added to the log. *)
Definition logged (evs : list Event) (w : World) : World :=
  with_calls (calls w ++ evs) w.

(** *** The state a successful operation commits *)

(** The state object once [start_story] has written it. *)
Definition start_state (sid : string) (f : Fragment) (s : UserNarrativeState) : UserNarrativeState :=
  let s := set_story_completion_percent 0%Q
             (set_fragments_visited [frag_id f]
                (set_current_chapter (frag_chapter f)
                   (set_current_fragment_id (Some (frag_id f))
                      (set_active_story (Some sid) s)))) in
  if String.eqb sid "vip" then set_vip_story_unlocked true s else s.

(** The state object once the cursor, the chapter and the history were
    moved to [next]. *)
Definition moved_state (next : Fragment) (s : UserNarrativeState) : UserNarrativeState :=
  let s := set_current_chapter (frag_chapter next)
             (set_current_fragment_id (Some (frag_id next)) s) in
  if bool_decide (frag_id next ∈ fragments_visited s) then s
  else set_fragments_visited (fragments_visited s ++ [frag_id next]) s.

(** The state object as [_process_fragment_rewards] leaves it. *)
Definition rewards_state (mark_discovered : list string -> gmap string FlagVal -> gmap string FlagVal)
    (fragment : Fragment) (s : UserNarrativeState) : UserNarrativeState :=
  match frag_rewards fragment with
  | Some r =>
    match rw_unlock_fragments r with
    | Some l => set_story_flags (mark_discovered l (story_flags s)) s
    | None => s
    end
  | None => s
  end.

(** The last two writes of a move: the rewards of the target, then the
    completion percent. *)
Definition settled_state (sm : StoryManager)
    (mark_discovered : list string -> gmap string FlagVal -> gmap string FlagVal)
    (next : Fragment) (s : UserNarrativeState) : UserNarrativeState :=
  let s := rewards_state mark_discovered next s in
  set_story_completion_percent
    (calculate_completion_percent sm (active_story s) (fragments_visited s)) s.

(** The state object [make_choice] hands to the checkpoint collaborator. *)
Definition counted_state (choice : Choice) (next : Fragment) (now : Z)
    (s : UserNarrativeState) : UserNarrativeState :=
  let s := match ch_effects choice with Some e => effects_state e s | None => s end in
  let s := moved_state next s in
  let s := set_total_decisions_made (total_decisions_made s + 1) s in
  set_last_interaction_at now s.

(** The decision record [make_choice] adds. *)
Definition choice_record (u : Z) (cid : string) (s : UserNarrativeState)
    (cur : Fragment) (choice : Choice) : UserDecision :=
  let d := {| dec_user_id := u; dec_fragment_id := current_fragment_id s;
              dec_choice_id := cid; dec_choice_text := ch_text choice;
              dec_chapter := frag_chapter cur; dec_points_gained := 0;
              dec_items_gained := [] |} in
  match ch_effects choice with
  | Some e => effects_decision e d
  | None => d
  end.

(** The points [_process_fragment_rewards] grants for a fragment. *)
Definition reward_points (fragment : Fragment) : Z :=
  match frag_rewards fragment with
  | Some r =>
    match rw_points r with
    | Some pts => if (0 <? pts)%Z then pts else 0
    | None => 0
    end
  | None => 0
  end.

(** *** Achievements *)

(** [str(x)] for an optional string, as an f-string formats it. *)
Definition py_str (x : option string) : string :=
  match x with
  | Some s => s
  | None => "None"
  end.

(** [if achievement: new_achievements.append(achievement)]. *)
Definition append_truthy {A} (achievement : option A) (l : list A) : list A :=
  match achievement with
  | Some a => l ++ [a]
  | None => l
  end.

Section Achievements.

(** [database.models.Achievement]; [models.py] is not among the sources. *)
Variable Achievement : Type.

(** Modelled from the spec: what [_check_and_award_achievement] answers,
    the achievement when it was newly awarded and [None] otherwise; its
    body is not among the sources, so the answer is taken as given, for
    every user, achievement and moment. *)
Variable award_answer : Z -> string -> World -> option Achievement.

(** [await self._check_and_award_achievement(user_id, id)], with its
    answer. *)
Definition awarded (user_id : Z) (achievement_id : string) : M (option Achievement) :=
  answer ← gets (award_answer user_id achievement_id);
  _check_and_award_achievement user_id achievement_id;;
  mret answer.

Definition check_achievements (user_id : Z) : M (list Achievement) :=
  state ← get_user_state user_id;
  match state with
  | None => mret []
  | Some _ =>
    let new_achievements := [] in
    total ← getattr user_id total_decisions_made;
    new_achievements ←
      (if (10 <=? total)%Z then
         achievement ← awarded user_id "narrative_10_decisions";
         mret (append_truthy achievement new_achievements)
       else mret new_achievements);
    total ← getattr user_id total_decisions_made;
    new_achievements ←
      (if (50 <=? total)%Z then
         achievement ← awarded user_id "narrative_50_decisions";
         mret (append_truthy achievement new_achievements)
       else mret new_achievements);
    percent ← getattr user_id story_completion_percent;
    new_achievements ←
      (if Qle_bool 25 percent then
         achievement ← awarded user_id "narrative_25_percent";
         mret (append_truthy achievement new_achievements)
       else mret new_achievements);
    percent ← getattr user_id story_completion_percent;
    new_achievements ←
      (if Qle_bool 100 percent then
         story ← getattr user_id active_story;
         achievement ← awarded user_id ("narrative_complete_" +:+ py_str story);
         mret (append_truthy achievement new_achievements)
       else mret new_achievements);
    scores ← getattr user_id relationship_scores;
    new_achievements ←
      (if (50 <=? default 0 (scores !! "lucien"))%Z then
         achievement ← awarded user_id "lucien_trusted";
         mret (append_truthy achievement new_achievements)
       else mret new_achievements);
    mret new_achievements
  end.

End Achievements.

(** The achievements whose condition a state meets, in the order
    [check_achievements] goes through them. *)
Definition due_achievements (s : UserNarrativeState) : list string :=
  (if (10 <=? total_decisions_made s)%Z then ["narrative_10_decisions"] else []) ++
  (if (50 <=? total_decisions_made s)%Z then ["narrative_50_decisions"] else []) ++
  (if Qle_bool 25 (story_completion_percent s) then ["narrative_25_percent"] else []) ++
  (if Qle_bool 100 (story_completion_percent s)
   then ["narrative_complete_" +:+ py_str (active_story s)] else []) ++
  (if (50 <=? default 0 (relationship_scores s !! "lucien"))%Z then ["lucien_trusted"] else []).

(** The answers the collaborator gives when asked for [ids] one after the
    other, each request being logged before the next. *)
Fixpoint answers {A} (answer : Z -> string -> World -> option A) (u : Z)
    (ids : list string) (w : World) : list A :=
  match ids with
  | [] => []
  | id :: r =>
    match answer u id w with
    | Some a => a :: answers answer u r (logged [EvAward u id] w)
    | None => answers answer u r (logged [EvAward u id] w)
    end
  end.

(** *** Statistics *)

(** One entry of ["endings_reached"]. *)
Record Ending := {
  end_title : string;
  end_chapter : Z
}.

(** The dictionary [get_user_stats] returns for a user with a state.  The
    hours played are the exact quotient; the rounding of floats is left
    out. *)
Record Stats := {
  st_active_story : option string;
  st_current_chapter : Z;
  st_completion_percent : Q;
  st_total_fragments_visited : nat;
  st_total_decisions : Z;
  st_total_points_earned : Z;
  st_unique_items_found : nat;
  st_endings_reached : list Ending;
  st_relationship_scores : gmap string Z;
  st_time_played : Q;
  st_last_played : Z
}.

(** What [get_user_stats] returns: the dictionary with ["has_started"]
    false and a message, or the full one. *)
Inductive StatsResult :=
| NotStarted (message : string)
| Started (stats : Stats).

(** [select(UserDecision).where(UserDecision.user_id == user_id)]: the
    query sees the records the session holds, committed or not. *)
Definition decisions_of (user_id : Z) (w : World) : list UserDecision :=
  filter (fun d => dec_user_id d = user_id) (all_decisions w).

(** [sum(d.points_gained for d in all_decisions)]. *)
Definition sum_points (l : list UserDecision) : Z :=
  foldr (fun d acc => dec_points_gained d + acc) 0 l.

(** The set [unique_items] after the loop over the decisions, as the list
    of its elements. *)
Definition unique_items (l : list UserDecision) : list string :=
  remove_dups (mjoin (dec_items_gained <$> l)).

Section Statistics.

Variable sm : StoryManager.

(** The loop over [state.fragments_visited]. *)
Definition endings_reached (story : option string) (visited : list string) : list Ending :=
  omap (fun frag_id =>
          match get_fragment sm story (Some frag_id) with
          | Some fragment =>
            if String.eqb (frag_type fragment) "ending"
            then Some {| end_title := if truthy_str (frag_title fragment)
                                      then default "" (frag_title fragment)
                                      else "Final";
                         end_chapter := frag_chapter fragment |}
            else None
          | None => None
          end) visited.

Definition get_user_stats (user_id : Z) : M StatsResult :=
  state ← get_user_state user_id;
  match state with
  | None => mret (NotStarted "Aún no has comenzado ninguna historia")
  | Some state =>
    all_decisions ← gets (decisions_of user_id);
    let total_points_from_narrative := sum_points all_decisions in
    let unique_items := unique_items all_decisions in
    let endings_reached := endings_reached (active_story state) (fragments_visited state) in
    now ← utcnow;
    mret (Started
      {| st_active_story := active_story state;
         st_current_chapter := current_chapter state;
         st_completion_percent := story_completion_percent state;
         st_total_fragments_visited := length (fragments_visited state);
         st_total_decisions := total_decisions_made state;
         st_total_points_earned := total_points_from_narrative;
         st_unique_items_found := length unique_items;
         st_endings_reached := endings_reached;
         st_relationship_scores := relationship_scores state;
         st_time_played := (inject_Z (now - started_at state) / 3600)%Q;
         st_last_played := last_interaction_at state |})
  end.

End Statistics.

(** Sum of the points the calls [evs] grant to user [u]. *)
Fixpoint granted_points (u : Z) (evs : list Event) : Z :=
  match evs with
  | [] => 0
  | EvGivePoints v p :: r =>
    if bool_decide (v = u) then p + granted_points u r else granted_points u r
  | _ :: r => granted_points u r
  end.

(** ** The keyboards of [keyboards.py] *)

Module NarrativeKeyboards.

(** [InlineKeyboardButton], with the two fields the module sets. *)
Record InlineKeyboardButton := {
  text : string;
  callback_data : string
}.

(** [InlineKeyboardMarkup]: the rows of the builder, in the order of the
    calls of [builder.row]. *)
Definition InlineKeyboardMarkup := list (list InlineKeyboardButton).

Section Constants.

(** [MAX_CHOICES_PER_FRAGMENT] and [BACK_BUTTON_ENABLED] of [constants.py],
    which is not among the sources. *)
Variable MAX_CHOICES_PER_FRAGMENT : nat.
Variable BACK_BUTTON_ENABLED : bool.

(** [choices] is [fragment.choices] (empty when absent); [chapter_info] is
    [None] for a missing or empty dictionary, else what its key
    ['current'] holds, as the f-string prints it. *)
Definition story_fragment (fragment : Fragment) (choices : list Choice)
    (can_go_back : bool) (chapter_info : option (option string)) : InlineKeyboardMarkup :=
  let rows :=
    if String.eqb (frag_type fragment) "decision" &&
       negb (bool_decide (choices = []))
    then
      imap (fun i choice =>
              [ {| text := pretty (i + 1)%nat +:+ ". " +:+ ch_text choice;
                   callback_data := "narrative_choice_" +:+ ch_id choice |} ])
           (take MAX_CHOICES_PER_FRAGMENT choices)
    else if truthy_str (frag_next_fragment fragment) then
      [ [ {| text := "➡️ Continuar";
             callback_data := "narrative_next_" +:+ default "" (frag_next_fragment fragment) |} ] ]
    else [] in
  let nav_buttons := [] in
  let nav_buttons :=
    if BACK_BUTTON_ENABLED && can_go_back
    then nav_buttons ++ [ {| text := "◀️ Atrás"; callback_data := "narrative_back" |} ]
    else nav_buttons in
  let nav_buttons :=
    nav_buttons ++ [ {| text := "📑 Menú"; callback_data := "narrative_menu" |} ] in
  let nav_buttons :=
    match chapter_info with
    | Some info =>
      nav_buttons ++ [ {| text := "📍 Cap. " +:+ default "?" info;
                          callback_data := "narrative_chapter_info" |} ]
    | None => nav_buttons
    end in
  if bool_decide (nav_buttons = []) then rows else rows ++ [nav_buttons].

End Constants.

Definition history_navigation (page total_pages : Z) (story_id : string) : InlineKeyboardMarkup :=
  let nav_buttons := [] in
  let nav_buttons :=
    if (1 <? page)%Z
    then nav_buttons ++
         [ {| text := "⬅️";
              callback_data := "narrative_history_page_" +:+ story_id +:+ "_" +:+ pretty (page - 1) |} ]
    else nav_buttons in
  let nav_buttons :=
    nav_buttons ++
    [ {| text := pretty page +:+ "/" +:+ pretty total_pages;
         callback_data := "narrative_history_info" |} ] in
  let nav_buttons :=
    if (page <? total_pages)%Z
    then nav_buttons ++
         [ {| text := "➡️";
              callback_data := "narrative_history_page_" +:+ story_id +:+ "_" +:+ pretty (page + 1) |} ]
    else nav_buttons in
  (if bool_decide (nav_buttons = []) then [] else [nav_buttons]) ++
  [ [ {| text := "📊 Estadísticas Completas";
         callback_data := "narrative_story_stats_" +:+ story_id |} ];
    [ {| text := "🔙 Atrás"; callback_data := "narrative_menu" |} ] ].

End NarrativeKeyboards.

(** ** The notifications of [notificaciones.py] *)

Module Notificaciones.

Definition lucien_mensajes : list string :=
  [ "Sabías que los flamencos pueden dormir mientras están de pie? Lucien aprueba.";
    "Lucien dice: No te fíes de los patos, ellos siempre están tramando algo.";
    "Hoy es un gran día para acumular pistas, o para no hacer nada. Tú decides.";
    "Cada reacción cuenta, incluso la tuya, humano.";
    "Lucien quiere saber: ¿cuántos besitos has coleccionado hoy?";
    "Datos absurdos: Las vacas pueden subir escaleras pero no bajarlas.";
    "Lucien dice: Sigue reaccionando, el Diván te observa.";
    "A veces un besito abre más puertas que mil llaves.";
    "Lucien aprobó tu reacción con su sello de sarcasmo.";
    "¿Ya tomaste agua? Lucien está pendiente de ti." ].

(** What the module acts on: its global dictionary [user_last_message],
    the messages the bot was asked to send, and the number of random draws
    made so far. *)
Record Env := {
  user_last_message : gmap Z string;
  sent : list (Z * string);
  draws : nat
}.

(** The [context] dictionary, at the keys the module reads; [None] is
    passed as the empty dictionary. *)
Record Context := {
  hint_code : option string;
  source : option string;
  achievement_name : option string
}.

Section Random.

(** The random source is taken as given: the draw number [n] picks the
    element at index [rand n] modulo the length. *)
Variable rand : nat -> nat.

(** [random.choice(l)] at draw [n]; every sequence the module draws from
    is a non-empty literal, so the [IndexError] of an empty one is left
    out. *)
Definition choice (n : nat) (l : list string) : string :=
  nth (rand n mod length l) l "".

(** The loop [while user_last_message.get(user_id) == mensaje and
    len(lucien_mensajes) > 1], with [fuel] bounding its iterations: [None]
    when the bound is reached. *)
Fixpoint redraw (fuel : nat) (last : option string) (mensaje : string) (n : nat)
    : option (string * nat) :=
  if bool_decide (last = Some mensaje) && (1 <? length lucien_mensajes)%nat then
    match fuel with
    | O => None
    | S fuel => redraw fuel last (choice n lucien_mensajes) (S n)
    end
  else Some (mensaje, n).

Definition enviar_notificacion_gamificada (fuel : nat) (user_id : Z) (e : Env) : option Env :=
  let mensaje := choice (draws e) lucien_mensajes in
  match redraw fuel (user_last_message e !! user_id) mensaje (S (draws e)) with
  | None => None
  | Some (mensaje, n) =>
    Some {| user_last_message := <[user_id := mensaje]> (user_last_message e);
            sent := sent e ++ [(user_id, "💬 " +:+ mensaje)];
            draws := n |}
  end.

Definition send_narrative_notification (user_id : Z) (notification_type : string)
    (context : Context) (e : Env) : Env :=
  let mensajes :=
    if String.eqb notification_type "new_hint" then
      let pista_code := default "Desconocida" (hint_code context) in
      let origen := default "Sistema" (source context) in
      [ "🎩 Lucien: Una nueva pieza ha caído en tus manos... " +:+ pista_code +:+ ". No la pierdas.";
        "🎩 Lucien: " +:+ pista_code +:+ " se ha revelado para ti. ¿Podrás entender su verdadero valor?";
        "🎩 Lucien: Has desbloqueado algo nuevo. " +:+ pista_code +:+ "... interesante.";
        "🎩 Lucien: El Diván susurra: " +:+ pista_code +:+ " es ahora tuyo.";
        "🎩 Lucien: " +:+ pista_code +:+ " proviene de " +:+ origen +:+ ". ¿Accidente o destino?" ]
    else if String.eqb notification_type "achievement" then
      let achievement_name := default "Logro desconocido" (achievement_name context) in
      [ "🏆 Lucien: Has desbloqueado un logro: " +:+ achievement_name +:+ ". Diana está impresionada.";
        "🏆 Lucien: " +:+ achievement_name +:+ "... un logro digno de reconocimiento." ]
    else
      let pista_code := notification_type in
      let origen := default "Sistema" (source context) in
      [ "🎩 Lucien: Una nueva pieza ha caído en tus manos... " +:+ pista_code +:+ ". No la pierdas.";
        "🎩 Lucien: " +:+ pista_code +:+ " se ha revelado para ti. ¿Podrás entender su verdadero valor?" ] in
  let mensaje := choice (draws e) mensajes in
  {| user_last_message := user_last_message e;
     sent := sent e ++ [(user_id, mensaje)];
     draws := S (draws e) |}.

Definition send_narrative_notification_legacy (user_id : Z) (pista_code : string)
    (origen : string) (e : Env) : Env :=
  let mensajes :=
    [ "🎩 Lucien: Una nueva pieza ha caído en tus manos... " +:+ pista_code +:+ ". No la pierdas.";
      "🎩 Lucien: " +:+ pista_code +:+ " se ha revelado para ti. ¿Podrás entender su verdadero valor?";
      "🎩 Lucien: Has desbloqueado algo nuevo. " +:+ pista_code +:+ "... interesante.";
      "🎩 Lucien: El Diván susurra: " +:+ pista_code +:+ " es ahora tuyo.";
      "🎩 Lucien: " +:+ pista_code +:+ " proviene de " +:+ origen +:+ ". ¿Accidente o destino?" ] in
  let mensaje := choice (draws e) mensajes in
  {| user_last_message := user_last_message e;
     sent := sent e ++ [(user_id, mensaje)];
     draws := S (draws e) |}.

End Random.

End Notificaciones.

(** Sample values for concrete runs of the helpers. *)
Module Samples.

(** Effects touching both dictionaries, with a repeated character and a
    repeated flag. *)
Definition e_trust : Effects :=
  {| eff_relationships := Some [("lucien", 2); ("diana", -1); ("lucien", 3)];
     eff_story_flags := Some [("met_lucien", FBool false); ("met_lucien", FBool true)];
     eff_items := Some ["llave"];
     eff_points := Some 0 |}.

(** A decision record as [make_choice] builds it, before the effects. *)
Definition d_blank : UserDecision :=
  {| dec_user_id := 1; dec_fragment_id := Some "f1"; dec_choice_id := "c2";
     dec_choice_text := "Confiar"; dec_chapter := 1;
     dec_points_gained := 0; dec_items_gained := [] |}.

(** A fragment with every kind of reward. *)
Definition f_reward : Fragment :=
  {| frag_id := "r1"; frag_chapter := 1; frag_type := "narrative";
     frag_title := None; frag_next_fragment := None;
     frag_requirements := None;
     frag_rewards := Some {| rw_points := Some 4;
                             rw_achievements := Some ["first_step"; "curious"];
                             rw_lore_pieces := Some ["carta"];
                             rw_unlock_fragments := Some ["s1"] |} |}.

(** A state of user 1 late in the free story: at the ending [f5]. *)
Definition s_veteran : UserNarrativeState :=
  {| user_id := 1; active_story := Some "free";
     current_fragment_id := Some "f5"; current_chapter := 3;
     fragments_visited := ["f1"; "f4"; "f5"];
     story_flags := ∅;
     relationship_scores := {[ "lucien" := 60 ]};
     total_decisions_made := 12;
     story_completion_percent := 100%Q;
     started_at := 40; last_interaction_at := 90;
     vip_story_unlocked := false |}.

(** A database with that state, two decisions of user 1 and one of
    user 2. *)
Definition w_veteran : World :=
  {| users := users Demo.w0;
     user_achievements := [];
     db_states := {[ 1 := s_veteran ]};
     db_decisions :=
       [ {| dec_user_id := 1; dec_fragment_id := Some "f1"; dec_choice_id := "c2";
            dec_choice_text := "Confiar"; dec_chapter := 1;
            dec_points_gained := 5; dec_items_gained := ["llave"; "carta"] |};
         {| dec_user_id := 2; dec_fragment_id := Some "f1"; dec_choice_id := "c1";
            dec_choice_text := "Seguir"; dec_chapter := 1;
            dec_points_gained := 7; dec_items_gained := ["mapa"] |};
         {| dec_user_id := 1; dec_fragment_id := Some "f1"; dec_choice_id := "c4";
            dec_choice_text := "Saltar"; dec_chapter := 1;
            dec_points_gained := 2; dec_items_gained := ["llave"] |} ];
     objects := ∅; pending := [];
     clock := 100; calls := [] |}.

(** An achievement collaborator that awards everything but
    ["lucien_trusted"], the achievement being its id. *)
Definition award_all_but_lucien (u : Z) (id : string) (w : World) : option string :=
  if String.eqb id "lucien_trusted" then None else Some id.

(** Draws that go through a list in turn. *)
Definition draw_in_turn (n : nat) : nat := n.

(** User 7 was last sent the first message of Lucien. *)
Definition e_repeat : Notificaciones.Env :=
  {| Notificaciones.user_last_message :=
       {[ 7 := "Sabías que los flamencos pueden dormir mientras están de pie? Lucien aprueba." ]};
     Notificaciones.sent := [];
     Notificaciones.draws := 0 |}.

End Samples.

(** ** Running computations *)

Lemma bind_run {A B} (c : M A) (k : A -> M B) w w' a :
  c w = (w', Ret a) -> (c ≫= k) w = k a w'.
Proof. intros E. unfold mbind, M_bind. now rewrite E. Qed.

Lemma bind_raise {A B} (c : M A) (k : A -> M B) w w' e :
  c w = (w', Raise e) -> (c ≫= k) w = (w', Raise e).
Proof. intros E. unfold mbind, M_bind. now rewrite E. Qed.

Lemma bind_gets {A B} (f : World -> A) (k : A -> M B) w :
  (gets f ≫= k) w = k (f w) w.
Proof. reflexivity. Qed.

Lemma bind_ret {A B} (a : A) (k : A -> M B) w :
  (mret a ≫= k) w = k a w.
Proof. reflexivity. Qed.

Ltac wsimpl :=
  cbn [users user_achievements db_states db_decisions objects pending clock
       calls with_objects with_pending with_calls commit_world finish fst snd].

Lemma lookup_state_commit w u :
  lookup_state (commit_world w) u = lookup_state w u.
Proof.
  unfold lookup_state. wsimpl. rewrite lookup_union.
  destruct (objects w !! u), (db_states w !! u); reflexivity.
Qed.

Lemma db_states_commit w u :
  db_states (commit_world w) !! u = lookup_state w u.
Proof.
  unfold lookup_state. wsimpl. rewrite lookup_union.
  destruct (objects w !! u), (db_states w !! u); reflexivity.
Qed.

Lemma lookup_state_objects w u s :
  objects w !! u = Some s -> lookup_state w u = Some s.
Proof. unfold lookup_state. now intros ->. Qed.

Lemma lookup_state_cases w u s :
  lookup_state w u = Some s ->
  objects w !! u = Some s \/ db_states w !! u = Some s.
Proof. unfold lookup_state. destruct (objects w !! u); auto. Qed.

(** *** The stretch before the commit *)

Section Touched.

Context {u : Z} {s si : UserNarrativeState} {ds : list UserDecision}
  {evs : list Event} {w wi : World}.
Hypothesis T : touched u s si ds evs w wi.

Lemma step_setattr (f : UserNarrativeState -> UserNarrativeState) :
  exists wi', touched u s (f si) ds evs w wi' /\ setattr u f wi = (wi', Ret tt).
Proof.
  destruct T. eexists. split; cycle 1.
  - unfold setattr. rewrite t_after0. reflexivity.
  - constructor; wsimpl; try assumption.
    + intros v Hv. rewrite lookup_insert_ne by congruence. auto.
    + unfold lookup_state. wsimpl. now rewrite lookup_insert_eq.
Qed.

Lemma step_getattr {A} (g : UserNarrativeState -> A) :
  getattr u g wi = (wi, Ret (g si)).
Proof. unfold getattr. now rewrite (t_after _ _ _ _ _ _ _ T). Qed.

Lemma step_get_user_state :
  get_user_state u wi = (wi, Ret (Some si)).
Proof. rewrite <- (t_after _ _ _ _ _ _ _ T). reflexivity. Qed.

Lemma step_utcnow : utcnow wi = (wi, Ret (clock w)).
Proof. rewrite <- (t_clock _ _ _ _ _ _ _ T). reflexivity. Qed.

Lemma step_call (e : Event) :
  exists wi', touched u s si ds (evs ++ [e]) w wi' /\ call e wi = (wi', Ret tt).
Proof.
  destruct T. eexists. split; cycle 1.
  - reflexivity.
  - constructor; wsimpl; try assumption.
    now rewrite t_calls0, app_assoc.
Qed.

Lemma step_add_decision (d : UserDecision) :
  exists wi', touched u s si (ds ++ [d]) evs w wi' /\
              session_add_decision d wi = (wi', Ret tt).
Proof.
  destruct T. eexists. split; cycle 1.
  - reflexivity.
  - constructor; wsimpl; try assumption.
    now rewrite t_pending0, app_assoc.
Qed.

End Touched.

Lemma touched_refl u s w : lookup_state w u = Some s -> touched u s s [] [] w w.
Proof. intros H. constructor; auto; now rewrite app_nil_r. Qed.

(** [run_with E]: the first command of the goal runs as [E] says. *)
Ltac run_with E := rewrite (bind_run _ _ _ _ _ E).

(** [step_by lem T]: the first command of the goal is the write [lem]
    describes; [T] becomes the stretch that includes it. *)
Ltac step_by lem T :=
  let w' := fresh "wi" in
  let T' := fresh "T" in
  let E := fresh "E" in
  edestruct (lem _ _ _ _ _ _ _ T) as (w' & T' & E);
  run_with E; clear E; clear T; rename T' into T.

(** [read_by lem T]: the first command of the goal is the read [lem]
    describes. *)
Ltac read_by lem T := rewrite (bind_run _ _ _ _ _ (lem _ _ _ _ _ _ _ T)).

Lemma same_core_refl s : same_core s s.
Proof. exists (story_flags s), (relationship_scores s). now destruct s. Qed.

Lemma same_core_trans s1 s2 s3 : same_core s1 s2 -> same_core s2 s3 -> same_core s1 s3.
Proof. intros (f1 & r1 & ->) (f2 & r2 & ->). exists f2, r2. reflexivity. Qed.

Lemma same_core_flags s f : same_core s (set_story_flags f s).
Proof. exists f, (relationship_scores s). now destruct s. Qed.

Lemma same_core_scores s r : same_core s (set_relationship_scores r s).
Proof. exists (story_flags s), r. now destruct s. Qed.

Lemma for_each_ext {A} (f g : A -> M unit) l :
  (forall x, f x = g x) -> for_each l f = for_each l g.
Proof.
  intros H. induction l as [|x l IH]; cbn [for_each]; [reflexivity|].
  now rewrite H, IH.
Qed.

(** A loop of writes that leave the core alone. *)
Lemma for_each_setattr {A} u (g : A -> UserNarrativeState -> UserNarrativeState) l :
  (forall x s, same_core s (g x s)) ->
  forall s si ds evs w wi, touched u s si ds evs w wi ->
  exists wi' si', touched u s si' ds evs w wi' /\ same_core si si' /\
    for_each l (fun x => setattr u (g x)) wi = (wi', Ret tt).
Proof.
  intros Hg. induction l as [|x l IH]; intros s si ds evs w wi T.
  - exists wi, si. split; [assumption|]. split; [apply same_core_refl | reflexivity].
  - cbn [for_each].
    step_by @step_setattr T.
    destruct (IH _ _ _ _ _ _ T) as (w2 & s2 & T2 & C2 & E2).
    exists w2, s2. split; [assumption|]. split; [|assumption].
    eapply same_core_trans; [apply Hg | exact C2].
Qed.

(** A loop of collaborator calls. *)
Lemma for_each_call {A} u (g : A -> Event) l :
  forall s si ds evs w wi, touched u s si ds evs w wi ->
  exists wi', touched u s si ds (evs ++ map g l) w wi' /\
    for_each l (fun x => call (g x)) wi = (wi', Ret tt).
Proof.
  induction l as [|x l IH]; intros s si ds evs w wi T.
  - exists wi. rewrite app_nil_r. split; [assumption | reflexivity].
  - cbn [for_each map].
    step_by @step_call T.
    destruct (IH _ _ _ _ _ _ T) as (w2 & T2 & E2).
    exists w2. split; [|assumption].
    now rewrite <- app_assoc in T2.
Qed.

(** *** The helpers of the service *)

Lemma apply_choice_effects_run u eff d s si ds evs w wi :
  touched u s si ds evs w wi ->
  exists wi' si', touched u s si' ds (evs ++ effects_calls u eff) w wi' /\
    same_core si si' /\
    _apply_choice_effects u eff d wi = (wi', Ret (effects_decision eff d)).
Proof.
  intros T. unfold _apply_choice_effects, effects_calls, effects_decision.
  read_by @step_get_user_state T.
  assert (exists w1 s1, touched u s s1 ds evs w w1 /\ same_core si s1 /\
      match eff_relationships eff with
      | Some relationships =>
        for_each relationships (fun '(character, change) =>
          setattr u (fun s =>
            let current := default 0 (relationship_scores s !! character) in
            set_relationship_scores (<[character := current + change]> (relationship_scores s)) s))
      | None => mret tt
      end wi = (w1, Ret tt)) as (w1 & s1 & T1 & C1 & E1).
  { destruct (eff_relationships eff) as [rels|].
    - destruct (for_each_setattr u
        (fun (p : string * Z) s0 =>
           set_relationship_scores
             (<[p.1 := default 0 (relationship_scores s0 !! p.1) + p.2]> (relationship_scores s0)) s0)
        rels (fun _ _ => same_core_scores _ _) _ _ _ _ _ _ T) as (w1 & s1 & T1 & C1 & E1).
      exists w1, s1. split; [assumption|]. split; [assumption|].
      erewrite for_each_ext; [exact E1 | now intros [c ch]].
    - exists wi, si. split; [assumption|]. split; [apply same_core_refl|]. reflexivity. }
  run_with E1. clear E1 T.
  assert (exists w2 s2, touched u s s2 ds evs w w2 /\ same_core si s2 /\
      match eff_story_flags eff with
      | Some flags =>
        setattr u (fun s =>
          set_story_flags (foldl (fun m '(k, v) => <[k := v]> m) (story_flags s) flags) s)
      | None => mret tt
      end w1 = (w2, Ret tt)) as (w2 & s2 & T2 & C2 & E2).
  { destruct (eff_story_flags eff) as [flags|].
    - destruct (step_setattr T1
        (fun s => set_story_flags (foldl (fun m '(k, v) => <[k := v]> m) (story_flags s) flags) s))
        as (w2 & T2 & E2).
      eexists w2, _. split; [exact T2|]. split; [|exact E2].
      eapply same_core_trans; [exact C1 | apply same_core_flags].
    - exists w1, s1. split; [assumption|]. split; [assumption|]. reflexivity. }
  run_with E2. clear E2 T1.
  destruct (eff_points eff) as [pts|].
  - unfold _give_narrative_points. step_by @step_call T2.
    eexists _, s2. split; [exact T2|]. split; [assumption|]. reflexivity.
  - exists w2, s2. rewrite app_nil_r. split; [assumption|]. split; [assumption|]. reflexivity.
Qed.

(** ** The operations, case by case *)

Section ServiceFacts.

Variable sm : StoryManager.
Variable NARRATIVE_POINTS : string -> Z.
Variable mark_discovered : list string -> gmap string FlagVal -> gmap string FlagVal.


Lemma process_fragment_rewards_run u fragment s si ds evs w wi :
  touched u s si ds evs w wi ->
  exists wi' si',
    touched u s si' ds
      (evs ++ match frag_rewards fragment with
              | Some r => rewards_calls u r
              | None => []
              end) w wi' /\
    same_core si si' /\
    _process_fragment_rewards mark_discovered u fragment wi = (wi', Ret tt).
Proof.
  intros T. unfold _process_fragment_rewards.
  destruct (frag_rewards fragment) as [r|]; cycle 1.
  { exists wi, si. rewrite app_nil_r. split; [assumption|]. split; [apply same_core_refl|]. reflexivity. }
  unfold rewards_calls, _give_narrative_points, _check_and_award_achievement, _unlock_lore_piece.
  assert (exists w1, touched u s si ds
      (evs ++ match rw_points r with
              | Some pts => if (0 <? pts)%Z then [EvGivePoints u pts] else []
              | None => []
              end) w w1 /\
      match rw_points r with
      | Some pts => if (0 <? pts)%Z then call (EvGivePoints u pts) else mret tt
      | None => mret tt
      end wi = (w1, Ret tt)) as (w1 & T1 & E1).
  { destruct (rw_points r) as [pts|]; [destruct (0 <? pts)%Z|].
    - destruct (step_call T (EvGivePoints u pts)) as (w1 & T1 & E1). eauto.
    - exists wi. rewrite app_nil_r. split; [assumption | reflexivity].
    - exists wi. rewrite app_nil_r. split; [assumption | reflexivity]. }
  run_with E1. clear E1 T.
  assert (exists w2, touched u s si ds
      ((evs ++ match rw_points r with
              | Some pts => if (0 <? pts)%Z then [EvGivePoints u pts] else []
              | None => []
              end) ++ match rw_achievements r with
                      | Some l => map (EvAward u) l
                      | None => []
                      end) w w2 /\
      match rw_achievements r with
      | Some achievements =>
        for_each achievements (fun achievement_id => call (EvAward u achievement_id))
      | None => mret tt
      end w1 = (w2, Ret tt)) as (w2 & T2 & E2).
  { destruct (rw_achievements r) as [l|].
    - apply (for_each_call u (EvAward u) l _ _ _ _ _ _ T1).
    - exists w1. rewrite app_nil_r. split; [assumption | reflexivity]. }
  run_with E2. clear E2 T1.
  assert (exists w3, touched u s si ds
      (((evs ++ match rw_points r with
              | Some pts => if (0 <? pts)%Z then [EvGivePoints u pts] else []
              | None => []
              end) ++ match rw_achievements r with
                      | Some l => map (EvAward u) l
                      | None => []
                      end) ++ match rw_lore_pieces r with
                              | Some l => map (EvUnlockLore u) l
                              | None => []
                              end) w w3 /\
      match rw_lore_pieces r with
      | Some lore_pieces =>
        for_each lore_pieces (fun lore_code => call (EvUnlockLore u lore_code))
      | None => mret tt
      end w2 = (w3, Ret tt)) as (w3 & T3 & E3).
  { destruct (rw_lore_pieces r) as [l|].
    - apply (for_each_call u (EvUnlockLore u) l _ _ _ _ _ _ T2).
    - exists w2. rewrite app_nil_r. split; [assumption | reflexivity]. }
  run_with E3. clear E3 T2.
  rewrite <- !app_assoc in T3.
  destruct (rw_unlock_fragments r) as [l|].
  - read_by @step_get_user_state T3.
    destruct (step_setattr T3
      (fun s0 => set_story_flags (mark_discovered l (story_flags s0)) s0)) as (w4 & T4 & E4).
    eexists w4, _. split; [exact T4|]. split; [apply same_core_flags | exact E4].
  - exists w3, si. split; [assumption|]. split; [apply same_core_refl | reflexivity].
Qed.

Ltac ssimpl :=
  cbn [user_id active_story current_fragment_id current_chapter fragments_visited
       story_flags relationship_scores total_decisions_made story_completion_percent
       started_at last_interaction_at vip_story_unlocked
       set_active_story set_current_fragment_id set_current_chapter
       set_fragments_visited set_story_flags set_relationship_scores
       set_total_decisions_made set_story_completion_percent
       set_last_interaction_at set_vip_story_unlocked].

Lemma lookup_state_finish post w u :
  lookup_state (finish post w) u = lookup_state w u.
Proof. apply lookup_state_commit. Qed.

Lemma commit_finish w : commit w = (finish [] w, Ret tt).
Proof. reflexivity. Qed.

Lemma call_finish post e w :
  call e (finish post w) = (finish (post ++ [e]) w, Ret tt).
Proof.
  unfold call, modify, finish, with_calls. wsimpl.
  now rewrite <- app_assoc.
Qed.

Lemma getattr_finish {A} post w u s (g : UserNarrativeState -> A) :
  lookup_state w u = Some s ->
  getattr u g (finish post w) = (finish post w, Ret (g s)).
Proof. intros H. unfold getattr. now rewrite lookup_state_finish, H. Qed.

Lemma get_user_state_run u w :
  get_user_state u w = (w, Ret (lookup_state w u)).
Proof. reflexivity. Qed.

Lemma session_get_user_run u w :
  session_get_user u w = (w, Ret (users w !! u)).
Proof. reflexivity. Qed.

Lemma user_data_run u w :
  _get_user_data_for_requirements u w = (w, Ret (user_data_of w u)).
Proof. reflexivity. Qed.

Lemma make_choice_cases u cid w :
  (exists msg, make_choice sm NARRATIVE_POINTS mark_discovered u cid w
               = (w, Ret (false, msg, None))) \/
  (exists s cur choice next d saved sf w1,
     lookup_state w u = Some s /\
     get_fragment sm (active_story s) (current_fragment_id s) = Some cur /\
     validate_choice sm (active_story s) (current_fragment_id s) cid = Some choice /\
     get_fragment sm (active_story s) (Some (ch_next_fragment choice)) = Some next /\
     dec_user_id d = u /\ dec_fragment_id d = current_fragment_id s /\
     dec_choice_id d = cid /\
     advanced (frag_id next) 1 s sf /\
     touched u s sf [d] (choice_calls u choice next saved) w w1 /\
     make_choice sm NARRATIVE_POINTS mark_discovered u cid w
     = (finish [EvFragmentVisit (frag_id next);
                EvChoiceMetric (Some (frag_id next)) cid;
                EvGivePoints u (NARRATIVE_POINTS "decision_made")] w1,
        Ret (true, "Decisión registrada", Some next))).
Proof.
  unfold make_choice.
  run_with (get_user_state_run u w).
  destruct (lookup_state w u) as [s|] eqn:Hs; [|left; eauto].
  destruct (get_fragment sm (active_story s) (current_fragment_id s)) as [cur|] eqn:Hcur;
    [|left; eauto].
  destruct (validate_choice sm (active_story s) (current_fragment_id s) cid)
    as [choice|] eqn:Hch; [|left; eauto].
  run_with (session_get_user_run u w).
  run_with (user_data_run u w).
  destruct (check_requirements sm _ _) as [can missing].
  destruct can; cbn [negb]; [|left; eauto].
  destruct (get_fragment sm (active_story s) (Some (ch_next_fragment choice)))
    as [next|] eqn:Hnext; [|left; eauto].
  right.
  pose proof (touched_refl u s w Hs) as T.
  set (d0 := {| dec_user_id := u; dec_fragment_id := current_fragment_id s;
                dec_choice_id := cid; dec_choice_text := ch_text choice;
                dec_chapter := frag_chapter cur; dec_points_gained := 0;
                dec_items_gained := [] |}).
  assert (exists w1 s1 d, touched u s s1 []
      (match ch_effects choice with Some e => effects_calls u e | None => [] end) w w1 /\
      same_core s s1 /\
      dec_user_id d = u /\ dec_fragment_id d = current_fragment_id s /\
      dec_choice_id d = cid /\
      match ch_effects choice with
      | Some effects => _apply_choice_effects u effects d0
      | None => mret d0
      end w = (w1, Ret d)) as (w1 & s1 & d & T1 & C1 & D1 & D2 & D3 & E1).
  { destruct (ch_effects choice) as [e|].
    - destruct (apply_choice_effects_run u e d0 _ _ _ _ _ _ T) as (w1 & s1 & T1 & C1 & E1).
      exists w1, s1, (effects_decision e d0).
      split; [exact T1|]. split; [exact C1|].
      split; [|split; [|split; [|exact E1]]].
      all: unfold effects_decision; destruct (eff_items e), (eff_points e); reflexivity.
    - exists w, s, d0. split; [exact T|]. split; [apply same_core_refl|].
      repeat split. }
  run_with E1. clear E1 T.
  step_by @step_add_decision T1.
  step_by @step_setattr T1.
  step_by @step_setattr T1.
  step_by @step_setattr T1.
  step_by @step_setattr T1.
  read_by @step_utcnow T1.
  step_by @step_setattr T1.
  match type of T1 with touched _ _ ?x _ _ _ _ => set (s2 := x) in * end.
  assert (exists w5, touched u s s2 ([] ++ [d])
      (match ch_effects choice with Some e => effects_calls u e | None => [] end ++
       (if String.eqb (frag_type next) "checkpoint" then [EvCheckpoint u s2] else [])) w w5 /\
      (if String.eqb (frag_type next) "checkpoint"
       then _create_checkpoint u else mret tt) wi4 = (w5, Ret tt)) as (w5 & T5 & E5).
  { destruct (String.eqb (frag_type next) "checkpoint").
    - unfold _create_checkpoint. rewrite (bind_run _ _ _ _ _ (step_getattr T1 _)).
      destruct (step_call T1 (EvCheckpoint u s2)) as (w5 & T5 & E5). eauto.
    - exists wi4. rewrite app_nil_r. split; [assumption | reflexivity]. }
  run_with E5. clear E5 T1.
  assert (exists w6 s3, touched u s s3 ([] ++ [d]) (choice_calls u choice next s2) w w6 /\
      same_core s2 s3 /\
      match frag_rewards next with
      | Some _ => _process_fragment_rewards mark_discovered u next
      | None => mret tt
      end w5 = (w6, Ret tt)) as (w6 & s3 & T6 & C6 & E6).
  { unfold choice_calls. rewrite app_assoc.
    destruct (process_fragment_rewards_run u next _ _ _ _ _ _ T5) as (w6 & s3 & T6 & C6 & E6).
    destruct (frag_rewards next) as [r|] eqn:Hr.
    - exists w6, s3. split; [exact T6|]. split; [exact C6 | exact E6].
    - exists w5, s2. rewrite app_nil_r. split; [exact T5|].
      split; [apply same_core_refl | reflexivity]. }
  run_with E6. clear E6 T5.
  step_by @step_setattr T6.
  match type of T6 with touched _ _ ?x _ _ _ _ => set (sf := x) in * end.
  assert (A : advanced (frag_id next) 1 s sf).
  { destruct C1 as (fl1 & rs1 & ->), C6 as (fl3 & rs3 & E3).
    subst sf. rewrite E3. subst s2.
    constructor; unfold visit; ssimpl; try reflexivity.
    all: destruct (bool_decide (frag_id next ∈ fragments_visited s)); ssimpl; reflexivity. }
  run_with (commit_finish wi5).
  unfold _record_fragment_visit, _record_choice_metric, _give_narrative_points.
  run_with (call_finish [] (EvFragmentVisit (frag_id next)) wi5).
  rewrite (bind_run _ _ _ _ _
    (getattr_finish _ _ _ _ current_fragment_id (t_after _ _ _ _ _ _ _ T6))).
  rewrite (adv_cursor _ _ _ _ A).
  run_with (call_finish ([] ++ [EvFragmentVisit (frag_id next)])
              (EvChoiceMetric (Some (frag_id next)) cid) wi5).
  run_with (call_finish (([] ++ [EvFragmentVisit (frag_id next)]) ++
                         [EvChoiceMetric (Some (frag_id next)) cid])
              (EvGivePoints u (NARRATIVE_POINTS "decision_made")) wi5).
  exists s, cur, choice, next, d, s2, sf, wi5.
  split; [reflexivity|]. do 6 (split; [assumption|]).
  split; [exact A|]. split; [exact T6 | reflexivity].
Qed.

Lemma navigate_next_cases u w :
  (exists msg, navigate_next sm NARRATIVE_POINTS mark_discovered u w
               = (w, Ret (false, msg, None))) \/
  (exists s cur next sf w1,
     lookup_state w u = Some s /\
     get_fragment sm (active_story s) (current_fragment_id s) = Some cur /\
     get_fragment sm (active_story s) (frag_next_fragment cur) = Some next /\
     advanced (frag_id next) 0 s sf /\
     touched u s sf []
       (match frag_rewards next with Some r => rewards_calls u r | None => [] end) w w1 /\
     navigate_next sm NARRATIVE_POINTS mark_discovered u w
     = (finish [EvFragmentVisit (frag_id next);
                EvGivePoints u (NARRATIVE_POINTS "fragment_read")] w1,
        Ret (true, "Continuando historia", Some next))).
Proof.
  unfold navigate_next.
  run_with (get_user_state_run u w).
  destruct (lookup_state w u) as [s|] eqn:Hs; [|left; eauto].
  destruct (get_fragment sm (active_story s) (current_fragment_id s)) as [cur|] eqn:Hcur;
    [|left; eauto].
  destruct (truthy_str (frag_next_fragment cur)); cbn [negb]; [|left; eauto].
  destruct (get_fragment sm (active_story s) (frag_next_fragment cur))
    as [next|] eqn:Hnext; [|left; eauto].
  run_with (user_data_run u w).
  destruct (check_requirements sm _ _) as [can missing].
  destruct can; cbn [negb]; [|left; eauto].
  right.
  pose proof (touched_refl u s w Hs) as T.
  step_by @step_setattr T.
  step_by @step_setattr T.
  step_by @step_setattr T.
  read_by @step_utcnow T.
  step_by @step_setattr T.
  match type of T with touched _ _ ?x _ _ _ _ => set (s2 := x) in * end.
  assert (exists w6 s3, touched u s s3 []
      (match frag_rewards next with Some r => rewards_calls u r | None => [] end) w w6 /\
      same_core s2 s3 /\
      match frag_rewards next with
      | Some _ => _process_fragment_rewards mark_discovered u next
      | None => mret tt
      end wi2 = (w6, Ret tt)) as (w6 & s3 & T6 & C6 & E6).
  { destruct (process_fragment_rewards_run u next _ _ _ _ _ _ T)
      as (w6 & s3 & T6 & C6 & E6).
    destruct (frag_rewards next) as [r|] eqn:Hr.
    - exists w6, s3. split; [exact T6|]. split; [exact C6 | exact E6].
    - exists wi2, s2. split; [exact T|].
      split; [apply same_core_refl | reflexivity]. }
  run_with E6. clear E6 T.
  step_by @step_setattr T6.
  match type of T6 with touched _ _ ?x _ _ _ _ => set (sf := x) in * end.
  assert (A : advanced (frag_id next) 0 s sf).
  { destruct C6 as (fl3 & rs3 & E3).
    subst sf. rewrite E3. subst s2.
    constructor; unfold visit; ssimpl; try reflexivity.
    all: destruct (bool_decide (frag_id next ∈ fragments_visited s)); ssimpl;
      try reflexivity; lia. }
  run_with (commit_finish wi3).
  unfold _record_fragment_visit, _give_narrative_points.
  run_with (call_finish [] (EvFragmentVisit (frag_id next)) wi3).
  run_with (call_finish ([] ++ [EvFragmentVisit (frag_id next)])
              (EvGivePoints u (NARRATIVE_POINTS "fragment_read")) wi3).
  exists s, cur, next, sf, wi3.
  split; [reflexivity|]. do 2 (split; [assumption|]).
  split; [exact A|]. split; [exact T6 | reflexivity].
Qed.

Lemma initialize_run u w :
  initialize_user_narrative u w
  = (commit_world (with_objects (<[u := new_state u (clock w)]> (objects w)) w),
     Ret (new_state u (clock w))).
Proof. reflexivity. Qed.

Lemma lookup_state_prepared u w :
  lookup_state (prepared u w) u
  = Some (default (new_state u (clock w)) (lookup_state w u)).
Proof.
  unfold prepared. destruct (lookup_state w u) as [s|] eqn:Hs; [exact Hs|].
  rewrite lookup_state_commit. unfold lookup_state. wsimpl.
  now rewrite lookup_insert_eq.
Qed.

Lemma start_story_cases u sid w :
  (get_story sm sid = None /\
   start_story sm NARRATIVE_POINTS u sid w
   = (w, Ret (false, "Historia no encontrada", None))) \/
  (exists story, get_story sm sid = Some story /\
     (start_story sm NARRATIVE_POINTS u sid w = (prepared u w, Raise AttributeError) \/
      exists msg, start_story sm NARRATIVE_POINTS u sid w
                  = (prepared u w, Ret (false, msg, None)))) \/
  (exists story f sf w1,
     get_story sm sid = Some story /\
     get_starting_fragment sm sid = Some f /\
     started sid (frag_id f) (default (new_state u (clock w)) (lookup_state w u)) sf /\
     touched u (default (new_state u (clock w)) (lookup_state w u)) sf [] []
       (prepared u w) w1 /\
     start_story sm NARRATIVE_POINTS u sid w
     = (finish [EvFragmentVisit (frag_id f);
                EvGivePoints u (NARRATIVE_POINTS "fragment_read")] w1,
        Ret (true, "Historia '" +:+ title story +:+ "' iniciada", Some f))).
Proof.
  unfold start_story.
  destruct (get_story sm sid) as [story|] eqn:Hstory; [|left; auto].
  right.
  run_with (get_user_state_run u w).
  assert (E0 : (match lookup_state w u with
                | None => _ ← initialize_user_narrative u; mret tt
                | Some _ => mret tt
                end) w = (prepared u w, Ret tt)).
  { unfold prepared. destruct (lookup_state w u); [reflexivity|].
    now run_with (initialize_run u w). }
  run_with E0. clear E0.
  pose proof (lookup_state_prepared u w) as Hs0.
  set (s0 := default (new_state u (clock w)) (lookup_state w u)) in *.
  assert (Hcont :
    (exists msg, match get_starting_fragment sm sid with
      | None => mret (false, "Error al cargar la historia", None)
      | Some starting_fragment =>
        setattr u (set_active_story (Some sid));;
        setattr u (set_current_fragment_id (Some (frag_id starting_fragment)));;
        setattr u (set_current_chapter (frag_chapter starting_fragment));;
        setattr u (set_fragments_visited [frag_id starting_fragment]);;
        setattr u (set_story_completion_percent 0%Q);;
        (if String.eqb sid "vip"
         then setattr u (set_vip_story_unlocked true)
         else mret tt);;
        commit;;
        _record_fragment_visit (frag_id starting_fragment);;
        _give_narrative_points u (NARRATIVE_POINTS "fragment_read");;
        mret (true, "Historia '" +:+ title story +:+ "' iniciada", Some starting_fragment)
      end (prepared u w) = (prepared u w, Ret (false, msg, None))) \/
    (exists f sf w1,
      get_starting_fragment sm sid = Some f /\
      started sid (frag_id f) s0 sf /\
      touched u s0 sf [] [] (prepared u w) w1 /\
      match get_starting_fragment sm sid with
      | None => mret (false, "Error al cargar la historia", None)
      | Some starting_fragment =>
        setattr u (set_active_story (Some sid));;
        setattr u (set_current_fragment_id (Some (frag_id starting_fragment)));;
        setattr u (set_current_chapter (frag_chapter starting_fragment));;
        setattr u (set_fragments_visited [frag_id starting_fragment]);;
        setattr u (set_story_completion_percent 0%Q);;
        (if String.eqb sid "vip"
         then setattr u (set_vip_story_unlocked true)
         else mret tt);;
        commit;;
        _record_fragment_visit (frag_id starting_fragment);;
        _give_narrative_points u (NARRATIVE_POINTS "fragment_read");;
        mret (true, "Historia '" +:+ title story +:+ "' iniciada", Some starting_fragment)
      end (prepared u w)
      = (finish [EvFragmentVisit (frag_id f);
                 EvGivePoints u (NARRATIVE_POINTS "fragment_read")] w1,
         Ret (true, "Historia '" +:+ title story +:+ "' iniciada", Some f)))).
  { destruct (get_starting_fragment sm sid) as [f|] eqn:Hf; [|left; eauto].
    right.
    pose proof (touched_refl u s0 (prepared u w) Hs0) as T.
    step_by @step_setattr T.
    step_by @step_setattr T.
    step_by @step_setattr T.
    step_by @step_setattr T.
    step_by @step_setattr T.
    match type of T with touched _ _ ?x _ _ _ _ => set (s2 := x) in * end.
    assert (exists w6 sf, touched u s0 sf [] [] (prepared u w) w6 /\
        started sid (frag_id f) s0 sf /\
        (if String.eqb sid "vip"
         then setattr u (set_vip_story_unlocked true)
         else mret tt) wi3 = (w6, Ret tt)) as (w6 & sf & T6 & S6 & E6).
    { destruct (String.eqb sid "vip").
      - destruct (step_setattr T (set_vip_story_unlocked true)) as (w6 & T6 & E6).
        eexists w6, _. split; [exact T6|]. split; [|exact E6].
        subst s2. constructor; reflexivity.
      - exists wi3, s2. split; [exact T|]. split; [|reflexivity].
        subst s2. constructor; reflexivity. }
    run_with E6. clear E6 T.
    run_with (commit_finish w6).
    unfold _record_fragment_visit, _give_narrative_points.
    run_with (call_finish [] (EvFragmentVisit (frag_id f)) w6).
    run_with (call_finish ([] ++ [EvFragmentVisit (frag_id f)])
                (EvGivePoints u (NARRATIVE_POINTS "fragment_read")) w6).
    exists f, sf, w6. split; [reflexivity|]. split; [exact S6|].
    split; [exact T6 | reflexivity]. }
  cbv zeta.
  destruct (requires_vip story).
  - run_with (session_get_user_run u (prepared u w)).
    destruct (users (prepared u w) !! u) as [usr|].
    + destruct (negb (String.eqb (role usr) "vip")).
      * left. exists story. split; [reflexivity|]. right. eauto.
      * destruct Hcont as [(msg & E)|(f & sf & w1 & Hf & S & T & E)].
        -- left. exists story. split; [reflexivity|]. right. eauto.
        -- right. exists story, f, sf, w1. auto.
    + left. exists story. split; [reflexivity|]. left. reflexivity.
  - destruct Hcont as [(msg & E)|(f & sf & w1 & Hf & S & T & E)].
    + left. exists story. split; [reflexivity|]. right. eauto.
    + right. exists story, f, sf, w1. auto.
Qed.

Lemma index_of_Some x l i : index_of x l = Some i -> l !! i = Some x.
Proof.
  revert i. induction l as [|y l IH]; intros i; cbn [index_of]; [discriminate|].
  destruct (String.eqb_spec y x) as [->|Hne].
  - intros [= <-]. reflexivity.
  - destruct (index_of x l) as [j|]; cbn; [|discriminate].
    intros [= <-]. cbn. now apply IH.
Qed.

Lemma index_of_None x l : index_of x l = None -> x ∉ l.
Proof.
  induction l as [|y l IH]; cbn [index_of]; intros H.
  - apply not_elem_of_nil.
  - destruct (String.eqb_spec y x) as [->|Hne]; [discriminate|].
    destruct (index_of x l); [discriminate|].
    rewrite elem_of_cons. intros [->|Hin]; [congruence | now apply IH].
Qed.

Lemma index_of_elem x l : x ∈ l -> exists i, index_of x l = Some i.
Proof.
  intros Hin. destruct (index_of x l) as [i|] eqn:E; [eauto|].
  now apply index_of_None in E.
Qed.

Lemma index_of_nodup x l i : NoDup l -> l !! i = Some x -> index_of x l = Some i.
Proof.
  intros Hnd Hi.
  destruct (index_of_elem x l) as [j Hj].
  { eapply list_elem_of_lookup_2; eauto. }
  rewrite Hj. f_equal.
  apply index_of_Some in Hj.
  eapply NoDup_lookup; eauto.
Qed.

Lemma py_index_run l c i w :
  index_of c l = Some i -> py_index l (Some c) w = (w, Ret i).
Proof. intros H. unfold py_index. now rewrite H. Qed.

Lemma go_back_cases u w : go_back_case sm u w (go_back sm u w).
Proof.
  unfold go_back.
  run_with (get_user_state_run u w).
  destruct (lookup_state w u) as [s|] eqn:Hs; [|now apply gb_no_state].
  destruct (Nat.leb_spec (length (fragments_visited s)) 1) as [Hlen|Hlen];
    [now apply (gb_short sm u w s)|].
  destruct (current_fragment_id s) as [c|] eqn:Hc; cycle 1.
  { apply (gb_lost sm u w s); auto. rewrite Hc. discriminate. }
  destruct (index_of c (fragments_visited s)) as [i|] eqn:Hi; cycle 1.
  { unfold py_index. rewrite Hi.
    apply (gb_lost sm u w s); auto. rewrite Hc. intros c' [= <-]. now apply index_of_None. }
  run_with (py_index_run _ _ _ w Hi).
  destruct i as [|i]; [now apply (gb_first sm u w s c)|].
  cbn [Nat.leb]. rewrite Nat.sub_succ, Nat.sub_0_r.
  pose proof (index_of_Some _ _ _ Hi) as Hlook.
  destruct (fragments_visited s !! i) as [prev|] eqn:Hprev; cycle 1.
  { apply lookup_ge_None in Hprev. apply lookup_lt_Some in Hlook. lia. }
  destruct (get_fragment sm (active_story s) (Some prev)) as [pf|] eqn:Hpf;
    [|now apply (gb_unloadable sm u w s c i prev)].
  pose proof (touched_refl u s w Hs) as T.
  step_by @step_setattr T.
  step_by @step_setattr T.
  read_by @step_utcnow T.
  step_by @step_setattr T.
  run_with (commit_finish wi1).
  eapply (gb_moved sm u w s c i prev pf); eauto.
  constructor; reflexivity.
Qed.

(** ** Invariants of the state rows *)

Section Invariants.

Variable I : UserNarrativeState -> Prop.

Lemma world_inv_lookup w u s :
  world_inv I w -> lookup_state w u = Some s -> I s.
Proof. intros HI H. apply (HI u). now apply lookup_state_cases. Qed.

Lemma world_inv_touched u s sf ds evs w w1 :
  world_inv I w -> I sf -> touched u s sf ds evs w w1 -> world_inv I w1.
Proof.
  intros HI Hsf T v x Hx.
  destruct (decide (v = u)) as [->|Hv].
  - destruct Hx as [Hx|Hx].
    + apply lookup_state_objects in Hx.
      rewrite (t_after _ _ _ _ _ _ _ T) in Hx. now injection Hx as <-.
    + rewrite (t_db_states _ _ _ _ _ _ _ T) in Hx. apply (HI u). now right.
  - rewrite (t_others _ _ _ _ _ _ _ T) in Hx by assumption.
    rewrite (t_db_states _ _ _ _ _ _ _ T) in Hx. now apply (HI v).
Qed.

Lemma world_inv_commit w : world_inv I w -> world_inv I (commit_world w).
Proof.
  intros HI v x [Hx|Hx].
  - apply (HI v). now left.
  - rewrite db_states_commit in Hx. apply (HI v). now apply lookup_state_cases.
Qed.

Lemma world_inv_finish post w : world_inv I w -> world_inv I (finish post w).
Proof. intros HI v x Hx. now apply (world_inv_commit w HI v x). Qed.

Lemma world_inv_add u x w :
  I x -> world_inv I w -> world_inv I (with_objects (<[u := x]> (objects w)) w).
Proof.
  intros Hx HI v y [Hy|Hy].
  - revert Hy. wsimpl. rewrite lookup_insert.
    case_decide; [now intros [= <-] | intros Hy; apply (HI v); now left].
  - apply (HI v). now right.
Qed.

Lemma world_inv_prepared u w :
  (forall t, I (new_state u t)) -> world_inv I w -> world_inv I (prepared u w).
Proof.
  intros Hnew HI. unfold prepared.
  destruct (lookup_state w u); [assumption|].
  apply world_inv_commit, world_inv_add; auto.
Qed.

End Invariants.

(** Every operation keeps a property of (cursor, history) that creation,
    start, advance and step back keep. *)
Lemma run_op_history_inv (J : option string -> list string -> Prop) :
  history_inv J ->
  forall op w,
    world_inv (fun s => J (current_fragment_id s) (fragments_visited s)) w ->
    world_inv (fun s => J (current_fragment_id s) (fragments_visited s))
      (run_op sm NARRATIVE_POINTS mark_discovered op w).
Proof.
  intros HJ op w HI. destruct op as [u|u sid|u cid|u|u]; cbn [run_op].
  - rewrite initialize_run. cbn [fst].
    apply world_inv_commit, world_inv_add; [apply (J_new J HJ) | assumption].
  - assert (HP := world_inv_prepared _ u w (fun _ => J_new J HJ) HI).
    destruct (start_story_cases u sid w)
      as [[_ ->]|[(story & _ & [->|(msg & ->)])|(story & f & sf & w1 & _ & _ & S & T & ->)]];
      cbn [fst]; try assumption.
    apply world_inv_finish. eapply world_inv_touched; [exact HP| |exact T].
    cbv beta. rewrite (st_cursor _ _ _ _ S), (st_visited _ _ _ _ S). apply (J_start J HJ).
  - destruct (make_choice_cases u cid w)
      as [(msg & ->)|(s & cur & ch & next & d & saved & sf & w1 & Hs & _ & _ & _ & _ & _ & _ & A & T & ->)];
      cbn [fst]; [assumption|].
    apply world_inv_finish. eapply world_inv_touched; [exact HI| |exact T].
    cbv beta. rewrite (adv_cursor _ _ _ _ A), (adv_visited _ _ _ _ A).
    apply (J_advance J HJ (current_fragment_id s)).
    exact (world_inv_lookup _ w u s HI Hs).
  - destruct (navigate_next_cases u w)
      as [(msg & ->)|(s & cur & next & sf & w1 & Hs & _ & _ & A & T & ->)];
      cbn [fst]; [assumption|].
    apply world_inv_finish. eapply world_inv_touched; [exact HI| |exact T].
    cbv beta. rewrite (adv_cursor _ _ _ _ A), (adv_visited _ _ _ _ A).
    apply (J_advance J HJ (current_fragment_id s)).
    exact (world_inv_lookup _ w u s HI Hs).
  - destruct (go_back_cases u w) as [| | | | |s c i prev pf sf w1 Hs Hc Hi Hprev Hpf B T];
      cbn [fst]; try assumption.
    apply world_inv_finish. eapply world_inv_touched; [exact HI| |exact T].
    cbv beta. rewrite (sb_cursor _ _ _ B), (sb_visited _ _ _ B).
    apply (J_back J HJ (current_fragment_id s) _ i); [|assumption].
    exact (world_inv_lookup _ w u s HI Hs).
Qed.

Lemma cursor_visited_history :
  history_inv (fun c l => forall x, c = Some x -> x ∈ l).
Proof.
  constructor.
  - discriminate.
  - intros fid x [= <-]. apply list_elem_of_here.
  - intros c l fid _ x [= <-]. unfold visit. case_bool_decide; [assumption|].
    apply elem_of_app. right. apply list_elem_of_here.
  - intros c l i p _ Hp x [= <-]. eapply list_elem_of_lookup_2; eauto.
Qed.

Lemma cursor_tracked_history :
  history_inv (fun c l => match c with Some x => x ∈ l | None => l = [] end).
Proof.
  constructor.
  - reflexivity.
  - intros fid. apply list_elem_of_here.
  - intros c l fid _. unfold visit. case_bool_decide; [assumption|].
    apply elem_of_app. right. apply list_elem_of_here.
  - intros c l i p _ Hp. eapply list_elem_of_lookup_2; eauto.
Qed.

Lemma visited_nodup_history : history_inv (fun _ l => NoDup l).
Proof.
  constructor.
  - apply NoDup_nil_2.
  - intros fid. apply NoDup_singleton.
  - intros c l fid Hl. unfold visit. case_bool_decide; [assumption|].
    apply NoDup_app. split; [assumption|]. split; [|apply NoDup_singleton].
    intros x Hx Hx'. apply list_elem_of_singleton in Hx'. congruence.
  - intros c l i p Hl _. assumption.
Qed.

(** A property the operations keep holds in every reachable world. *)
Lemma reachable_history_inv (J : option string -> list string -> Prop) w :
  history_inv J ->
  reachable sm NARRATIVE_POINTS mark_discovered w ->
  world_inv (fun s => J (current_fragment_id s) (fragments_visited s)) w.
Proof.
  intros HJ Hr. induction Hr as [w Hdb Hobj|op w _ IH|w us achs t _ IH|w _ IH].
  - intros v x [Hx|Hx]; [rewrite Hobj in Hx | rewrite Hdb in Hx];
      now rewrite lookup_empty in Hx.
  - now apply run_op_history_inv.
  - exact IH.
  - intros v x [Hx|Hx].
    + revert Hx. wsimpl. now rewrite lookup_empty.
    + apply (IH v). now right.
Qed.

(** ** What the operations leave untouched *)

Lemma touched_lookup_other u s sf ds evs w w1 v :
  touched u s sf ds evs w w1 -> v <> u -> lookup_state w1 v = lookup_state w v.
Proof.
  intros T Hv. unfold lookup_state.
  now rewrite (t_others _ _ _ _ _ _ _ T), (t_db_states _ _ _ _ _ _ _ T).
Qed.

Lemma touched_all_decisions u s sf ds evs w w1 post :
  touched u s sf ds evs w w1 ->
  all_decisions (finish post w1) = all_decisions w ++ ds.
Proof.
  intros T. unfold all_decisions. wsimpl.
  rewrite (t_db_decisions _ _ _ _ _ _ _ T), (t_pending _ _ _ _ _ _ _ T).
  now rewrite app_nil_r, app_assoc.
Qed.

Lemma touched_new_calls u s sf ds evs w w1 post :
  touched u s sf ds evs w w1 ->
  new_calls w (finish post w1) = evs ++ EvCommit :: post.
Proof.
  intros T. unfold new_calls. wsimpl.
  rewrite (t_calls _ _ _ _ _ _ _ T), <- app_assoc.
  now rewrite drop_app_length.
Qed.

Lemma touched_committed u s sf ds evs w w1 post :
  touched u s sf ds evs w w1 ->
  db_states (finish post w1) !! u = Some sf /\
  lookup_state (finish post w1) u = Some sf.
Proof.
  intros T. rewrite lookup_state_finish. wsimpl.
  change (objects w1 ∪ db_states w1) with (db_states (commit_world w1)).
  rewrite db_states_commit. split; apply (t_after _ _ _ _ _ _ _ T).
Qed.

(** C1. When [make_choice] returns a failure the world is the one it
    started from: the committed state rows, the objects of the session
    (hence [current_fragment_id], [fragments_visited] and
    [total_decisions_made] of every user), the decision log and the call
    log are unchanged, and no fragment is returned.  In particular an
    invalid choice id and unmet requirements give such a failure, the
    latter with the list of missing requirements. *)
Theorem make_choice_failure_unchanged u cid w :
  (forall w' msg fr,
     make_choice sm NARRATIVE_POINTS mark_discovered u cid w = (w', Ret (false, msg, fr)) ->
     w' = w /\ fr = None /\
     lookup_state w' u = lookup_state w u /\
     db_states w' = db_states w /\
     all_decisions w' = all_decisions w) /\
  (forall s cur,
     lookup_state w u = Some s ->
     get_fragment sm (active_story s) (current_fragment_id s) = Some cur ->
     validate_choice sm (active_story s) (current_fragment_id s) cid = None ->
     make_choice sm NARRATIVE_POINTS mark_discovered u cid w
     = (w, Ret (false, "Opción no válida", None))) /\
  (forall s cur choice missing,
     lookup_state w u = Some s ->
     get_fragment sm (active_story s) (current_fragment_id s) = Some cur ->
     validate_choice sm (active_story s) (current_fragment_id s) cid = Some choice ->
     check_requirements sm (default [] (ch_requirements choice)) (user_data_of w u)
     = (false, missing) ->
     make_choice sm NARRATIVE_POINTS mark_discovered u cid w
     = (w, Ret (false, requirements_message missing, None))).
Proof.
  split; [|split].
  - intros w' msg fr H.
    destruct (make_choice_cases u cid w)
      as [(msg' & E)|(s & cur & ch & next & d & saved & sf & w1 & _ & _ & _ & _ & _ & _ & _ & _ & _ & E)];
      rewrite E in H; [|discriminate].
    injection H as <- _ <-. auto.
  - intros s cur Hs Hcur Hch. unfold make_choice.
    run_with (get_user_state_run u w). now rewrite Hs, Hcur, Hch.
  - intros s cur choice missing Hs Hcur Hch Hreq. unfold make_choice.
    run_with (get_user_state_run u w). rewrite Hs, Hcur, Hch.
    run_with (session_get_user_run u w).
    run_with (user_data_run u w).
    now rewrite Hreq.
Qed.

(** C7. [navigate_next] never creates a decision record and never changes
    [total_decisions_made], whether it succeeds, fails or raises; and when
    the requirements of the target fragment are unmet it returns a failure
    whose message lists the missing requirements, in a world that is
    unchanged. *)
Theorem navigate_next_frame u w :
  (all_decisions (navigate_next sm NARRATIVE_POINTS mark_discovered u w).1
   = all_decisions w /\
   forall v,
     total_decisions_made <$>
       lookup_state (navigate_next sm NARRATIVE_POINTS mark_discovered u w).1 v
     = total_decisions_made <$> lookup_state w v) /\
  (forall s cur next missing,
     lookup_state w u = Some s ->
     get_fragment sm (active_story s) (current_fragment_id s) = Some cur ->
     truthy_str (frag_next_fragment cur) = true ->
     get_fragment sm (active_story s) (frag_next_fragment cur) = Some next ->
     check_requirements sm (default [] (frag_requirements next)) (user_data_of w u)
     = (false, missing) ->
     navigate_next sm NARRATIVE_POINTS mark_discovered u w
     = (w, Ret (false, requirements_message missing, None))).
Proof.
  split.
  - destruct (navigate_next_cases u w)
      as [(msg & ->)|(s & cur & next & sf & w1 & Hs & _ & _ & A & T & ->)];
      cbn [fst]; [auto|].
    split.
    + rewrite (touched_all_decisions _ _ _ _ _ _ _ _ T). apply app_nil_r.
    + intros v. rewrite lookup_state_finish.
      destruct (decide (v = u)) as [->|Hv].
      * rewrite (t_after _ _ _ _ _ _ _ T), Hs. cbn.
        rewrite (adv_total _ _ _ _ A). f_equal. lia.
      * now rewrite (touched_lookup_other _ _ _ _ _ _ _ _ T Hv).
  - intros s cur next missing Hs Hcur Hnx Hnext Hreq. unfold navigate_next.
    run_with (get_user_state_run u w). rewrite Hs, Hcur, Hnx. cbn [negb].
    rewrite Hnext.
    run_with (user_data_run u w).
    now rewrite Hreq.
Qed.

(** C2, amended. After a successful [start_story] and then one successful
    [make_choice] whose choice leads to a fragment other than the starting
    one, the committed state of the user has [total_decisions_made] equal to
    its value before the story was started plus one (so 1 for a user who had
    made no decision), [fragments_visited] is the starting fragment followed
    by the next one, and the decision log holds a committed record for the
    user with the starting fragment and the chosen choice. *)
Theorem start_then_choice u sid cid w w1 m1 f0 w2 m2 f2 :
  start_story sm NARRATIVE_POINTS u sid w = (w1, Ret (true, m1, Some f0)) ->
  make_choice sm NARRATIVE_POINTS mark_discovered u cid w1 = (w2, Ret (true, m2, Some f2)) ->
  frag_id f2 <> frag_id f0 ->
  exists s2 d,
    db_states w2 !! u = Some s2 /\
    lookup_state w2 u = Some s2 /\
    total_decisions_made s2
    = match lookup_state w u with
      | Some s => total_decisions_made s
      | None => 0
      end + 1 /\
    fragments_visited s2 = [frag_id f0; frag_id f2] /\
    current_fragment_id s2 = Some (frag_id f2) /\
    d ∈ db_decisions w2 /\
    dec_user_id d = u /\
    dec_fragment_id d = Some (frag_id f0) /\
    dec_choice_id d = cid.
Proof.
  intros H1 H2 Hne.
  destruct (start_story_cases u sid w)
    as [[_ E]|[(story & _ & [E|(msg & E)])|(story & f & sf & w1' & _ & _ & S & T & E)]];
    rewrite E in H1; try discriminate.
  injection H1 as <- _ <-.
  destruct (touched_committed _ _ _ _ _ _ _
              [EvFragmentVisit (frag_id f);
               EvGivePoints u (NARRATIVE_POINTS "fragment_read")] T) as [_ Hw1].
  destruct (make_choice_cases u cid
              (finish [EvFragmentVisit (frag_id f);
                       EvGivePoints u (NARRATIVE_POINTS "fragment_read")] w1'))
    as [(msg & E2)|(s & cur & ch & next & d & saved & sf2 & w2' & Hs & _ & _ & _ & D1 & D2 & D3 & A & T2 & E2)];
    rewrite E2 in H2; try discriminate.
  injection H2 as <- _ <-.
  rewrite Hw1 in Hs. injection Hs as <-.
  destruct (touched_committed _ _ _ _ _ _ _
              [EvFragmentVisit (frag_id next);
               EvChoiceMetric (Some (frag_id next)) cid;
               EvGivePoints u (NARRATIVE_POINTS "decision_made")] T2) as [Hdb Hlk].
  exists sf2, d. split; [exact Hdb|]. split; [exact Hlk|].
  split; [|split; [|split; [|split; [|split; [|split]]]]].
  - rewrite (adv_total _ _ _ _ A), (st_total _ _ _ _ S).
    now destruct (lookup_state w u).
  - rewrite (adv_visited _ _ _ _ A), (st_visited _ _ _ _ S). unfold visit.
    case_bool_decide as Hin; [|reflexivity].
    apply list_elem_of_singleton in Hin. congruence.
  - apply (adv_cursor _ _ _ _ A).
  - wsimpl. rewrite (t_pending _ _ _ _ _ _ _ T2).
    rewrite !elem_of_app. right. right. apply list_elem_of_here.
  - exact D1.
  - rewrite D2. apply (st_cursor _ _ _ _ S).
  - exact D3.
Qed.

(** C3, amended. When [start_story] returns a failure, no story attribute
    of any state is written.  If the story is unknown, or the user already
    has a state, the world is unchanged.  If the story is known and the user
    has no state, a freshly initialised state (no active story, no cursor,
    empty history) has been created for the user and committed, and nothing
    else is changed. *)
Theorem start_story_failure u sid w w' msg fr :
  start_story sm NARRATIVE_POINTS u sid w = (w', Ret (false, msg, fr)) ->
  fr = None /\
  (get_story sm sid = None \/ is_Some (lookup_state w u) -> w' = w) /\
  (is_Some (get_story sm sid) -> lookup_state w u = None ->
   w' = commit_world (with_objects (<[u := new_state u (clock w)]> (objects w)) w) /\
   db_states w' !! u = Some (new_state u (clock w))).
Proof.
  intros H.
  destruct (start_story_cases u sid w)
    as [[Hst E]|[(story & Hst & [E|(msg' & E)])|(story & f & sf & w1' & _ & _ & _ & _ & E)]];
    rewrite E in H; try discriminate; injection H as <- _ <-.
  - split; [reflexivity|]. split; [reflexivity|].
    intros [x Hx]. congruence.
  - split; [reflexivity|]. unfold prepared. split.
    + intros [Hn|[x Hx]]; [congruence|]. now rewrite Hx.
    + intros _ Hn. rewrite Hn. split; [reflexivity|].
      rewrite db_states_commit. unfold lookup_state. wsimpl.
      now rewrite lookup_insert_eq.
Qed.

(** *** Order of the calls *)

Lemma effects_calls_before u e : Forall before_commit (effects_calls u e).
Proof.
  unfold effects_calls. destruct (eff_points e); repeat constructor. discriminate.
Qed.

Lemma rewards_calls_before u r : Forall before_commit (rewards_calls u r).
Proof.
  unfold rewards_calls. rewrite !Forall_app. split; [|split].
  - destruct (rw_points r) as [p|]; [destruct (0 <? p)%Z|];
      repeat constructor; discriminate.
  - destruct (rw_achievements r) as [l|]; [|constructor].
    apply Forall_forall. intros e He. apply list_elem_of_fmap in He as (x & -> & _).
    split; [reflexivity | discriminate].
  - destruct (rw_lore_pieces r) as [l|]; [|constructor].
    apply Forall_forall. intros e He. apply list_elem_of_fmap in He as (x & -> & _).
    split; [reflexivity | discriminate].
Qed.

Lemma choice_calls_before u choice next saved :
  Forall before_commit (choice_calls u choice next saved).
Proof.
  unfold choice_calls. rewrite !Forall_app. split; [|split].
  - destruct (ch_effects choice); [apply effects_calls_before | constructor].
  - destruct (String.eqb _ _); repeat constructor. discriminate.
  - destruct (frag_rewards next); [apply rewards_calls_before | constructor].
Qed.

(** C4, amended. In every successful transition the fragment-visit metric,
    the choice metric and the fixed points grant of the transition are
    attempted after the commit that ends it, and nothing else is; the calls
    made on behalf of the choice's effects and of the target fragment's
    rewards come before that commit.  In particular the points of a choice's
    effects are forwarded to the points collaborator first of all, before
    the commit of [make_choice]. *)
Theorem calls_around_commit u w :
  (forall sid w' msg fr,
     start_story sm NARRATIVE_POINTS u sid w = (w', Ret (true, msg, fr)) ->
     exists f pre,
       fr = Some f /\ Forall (fun e => is_aux e = false) pre /\
       new_calls w w'
       = pre ++ [EvCommit; EvFragmentVisit (frag_id f);
                 EvGivePoints u (NARRATIVE_POINTS "fragment_read")]) /\
  (forall cid w' msg fr,
     make_choice sm NARRATIVE_POINTS mark_discovered u cid w = (w', Ret (true, msg, fr)) ->
     exists s choice next saved,
       lookup_state w u = Some s /\
       validate_choice sm (active_story s) (current_fragment_id s) cid = Some choice /\
       fr = Some next /\
       Forall before_commit (choice_calls u choice next saved) /\
       new_calls w w'
       = choice_calls u choice next saved ++
         [EvCommit; EvFragmentVisit (frag_id next);
          EvChoiceMetric (Some (frag_id next)) cid;
          EvGivePoints u (NARRATIVE_POINTS "decision_made")] /\
       (forall e p, ch_effects choice = Some e -> eff_points e = Some p ->
          head (new_calls w w') = Some (EvGivePoints u p))) /\
  (forall w' msg fr,
     navigate_next sm NARRATIVE_POINTS mark_discovered u w = (w', Ret (true, msg, fr)) ->
     exists next pre,
       fr = Some next /\ Forall before_commit pre /\
       pre = match frag_rewards next with
             | Some r => rewards_calls u r
             | None => []
             end /\
       new_calls w w'
       = pre ++ [EvCommit; EvFragmentVisit (frag_id next);
                 EvGivePoints u (NARRATIVE_POINTS "fragment_read")]).
Proof.
  split; [|split].
  - intros sid w' msg fr H.
    destruct (start_story_cases u sid w)
      as [[_ E]|[(story & _ & [E|(msg' & E)])|(story & f & sf & w1 & _ & _ & S & T & E)]];
      rewrite E in H; try discriminate.
    injection H as <- _ <-.
    exists f. unfold new_calls. wsimpl.
    rewrite (t_calls _ _ _ _ _ _ _ T), app_nil_r. unfold prepared.
    destruct (lookup_state w u).
    + exists []. split; [reflexivity|]. split; [constructor|].
      now rewrite drop_app_length.
    + exists [EvCommit]. split; [reflexivity|]. split; [repeat constructor|].
      wsimpl. now rewrite <- app_assoc, drop_app_length.
  - intros cid w' msg fr H.
    destruct (make_choice_cases u cid w)
      as [(msg' & E)|(s & cur & ch & next & d & saved & sf & w1 & Hs & _ & Hch & _ & _ & _ & _ & _ & T & E)];
      rewrite E in H; try discriminate.
    injection H as <- _ <-.
    exists s, ch, next, saved.
    split; [exact Hs|]. split; [exact Hch|]. split; [reflexivity|].
    split; [apply choice_calls_before|].
    rewrite (touched_new_calls _ _ _ _ _ _ _ _ T).
    split; [reflexivity|].
    intros e p He Hp. unfold choice_calls, effects_calls. now rewrite He, Hp.
  - intros w' msg fr H.
    destruct (navigate_next_cases u w)
      as [(msg' & E)|(s & cur & next & sf & w1 & Hs & _ & _ & A & T & E)];
      rewrite E in H; try discriminate.
    injection H as <- _ <-.
    exists next, (match frag_rewards next with
                  | Some r => rewards_calls u r
                  | None => []
                  end).
    split; [reflexivity|].
    split; [destruct (frag_rewards next); [apply rewards_calls_before | constructor]|].
    split; [reflexivity|].
    apply (touched_new_calls _ _ _ _ _ _ _ _ T).
Qed.

(** *** Checkpoint saves *)

Lemma checkpoint_saves_app l1 l2 :
  checkpoint_saves (l1 ++ l2) = (checkpoint_saves l1 + checkpoint_saves l2)%nat.
Proof.
  induction l1 as [|e l1 IH]; [reflexivity|].
  destruct e; cbn [checkpoint_saves app]; rewrite IH; reflexivity.
Qed.

Lemma effects_calls_no_save u e : checkpoint_saves (effects_calls u e) = O.
Proof. unfold effects_calls. now destruct (eff_points e). Qed.

Lemma rewards_calls_no_save u r : checkpoint_saves (rewards_calls u r) = O.
Proof.
  unfold rewards_calls. rewrite !checkpoint_saves_app.
  assert (forall l, checkpoint_saves (map (EvAward u) l) = O) as Ha
    by (induction l; auto).
  assert (forall l, checkpoint_saves (map (EvUnlockLore u) l) = O) as Hl
    by (induction l; auto).
  destruct (rw_points r) as [p|]; [destruct (0 <? p)%Z|];
    destruct (rw_achievements r), (rw_lore_pieces r);
    rewrite ?Ha, ?Hl; reflexivity.
Qed.

(** A successful [make_choice] saves a checkpoint once when it enters a
    checkpoint fragment, and not otherwise. *)
Lemma make_choice_checkpoint_saves u cid w w' msg next :
  make_choice sm NARRATIVE_POINTS mark_discovered u cid w = (w', Ret (true, msg, Some next)) ->
  checkpoint_saves (new_calls w w')
  = if String.eqb (frag_type next) "checkpoint" then 1%nat else O.
Proof.
  intros H.
  destruct (make_choice_cases u cid w)
    as [(msg' & E)|(s & cur & ch & nx & d & saved & sf & w1 & _ & _ & _ & _ & _ & _ & _ & _ & T & E)];
    rewrite E in H; try discriminate.
  injection H as <- _ <-.
  rewrite (touched_new_calls _ _ _ _ _ _ _ _ T).
  unfold choice_calls. rewrite !checkpoint_saves_app.
  assert (checkpoint_saves
            match ch_effects ch with Some e => effects_calls u e | None => [] end = O) as ->
    by (destruct (ch_effects ch); [apply effects_calls_no_save | reflexivity]).
  assert (checkpoint_saves
            match frag_rewards nx with Some r => rewards_calls u r | None => [] end = O) as ->
    by (destruct (frag_rewards nx); [apply rewards_calls_no_save | reflexivity]).
  now destruct (String.eqb (frag_type nx) "checkpoint").
Qed.

(** [navigate_next] never saves a checkpoint, whatever fragment it enters. *)
Lemma navigate_next_no_checkpoint u w :
  checkpoint_saves
    (new_calls w (navigate_next sm NARRATIVE_POINTS mark_discovered u w).1) = O.
Proof.
  destruct (navigate_next_cases u w)
    as [(msg' & ->)|(s & cur & next & sf & w1 & _ & _ & _ & _ & T & ->)]; cbn [fst].
  - unfold new_calls. now rewrite drop_all.
  - rewrite (touched_new_calls _ _ _ _ _ _ _ _ T), checkpoint_saves_app.
    destruct (frag_rewards next); [rewrite rewards_calls_no_save|]; reflexivity.
Qed.

(** *** The VIP gate *)

(** On a story that requires VIP, [start_story] raises when the user id has
    no [User] row: the role is read from [None]. *)
Lemma start_story_vip_no_user u sid w story :
  get_story sm sid = Some story ->
  requires_vip story = true ->
  users w !! u = None ->
  start_story sm NARRATIVE_POINTS u sid w = (prepared u w, Raise AttributeError).
Proof.
  intros Hst Hvip Hu. unfold start_story. rewrite Hst.
  run_with (get_user_state_run u w).
  assert (E0 : (match lookup_state w u with
                | None => _ ← initialize_user_narrative u; mret tt
                | Some _ => mret tt
                end) w = (prepared u w, Ret tt)).
  { unfold prepared. destruct (lookup_state w u); [reflexivity|].
    now run_with (initialize_run u w). }
  run_with E0. cbv zeta. rewrite Hvip.
  run_with (session_get_user_run u (prepared u w)).
  assert (users (prepared u w) = users w) as ->
    by (unfold prepared; now destruct (lookup_state w u)).
  now rewrite Hu.
Qed.

(** *** Going back *)

Lemma index_of_succ_length c l i :
  index_of c l = Some (S i) -> (1 < length l)%nat.
Proof. intros H. apply index_of_Some, lookup_lt_Some in H. lia. Qed.

Lemma go_back_short u w s :
  lookup_state w u = Some s ->
  (length (fragments_visited s) <= 1)%nat ->
  go_back sm u w = (w, Ret (false, "No puedes retroceder más", None)).
Proof.
  intros Hs Hlen.
  destruct (go_back_cases u w)
    as [Hn|s' Hs' _|s' Hs' Hl _|s' c Hs' Hl _ _|s' c i prev Hs' _ Hi _ _
        |s' c i prev pf sf w1 Hs' _ Hi _ _ _ _];
    try reflexivity; rewrite Hs in Hs'; injection Hs' as <-;
    try apply index_of_succ_length in Hi; lia.
Qed.

Lemma go_back_success u w w' m fr :
  go_back sm u w = (w', Ret (true, m, fr)) ->
  exists s c i prev pf sf w1,
    lookup_state w u = Some s /\
    current_fragment_id s = Some c /\
    index_of c (fragments_visited s) = Some (S i) /\
    fragments_visited s !! i = Some prev /\
    get_fragment sm (active_story s) (Some prev) = Some pf /\
    fr = Some pf /\
    stepped_back prev s sf /\
    touched u s sf [] [] w w1 /\
    w' = finish [] w1.
Proof.
  intros H. pose proof (go_back_cases u w) as C. rewrite H in C.
  inversion C; subst.
  eexists _, _, _, _, _, _, _. repeat (split; [eassumption|]).
  split; [reflexivity|]. split; [eassumption|]. split; [eassumption | reflexivity].
Qed.

(** A state whose cursor is tracked never makes [go_back] raise. *)
Lemma go_back_tracked u w :
  (forall s, lookup_state w u = Some s -> cursor_tracked s) ->
  exists r, go_back sm u w = (w, Ret r) \/
            exists w', go_back sm u w = (w', Ret r) /\ r.1.1 = true.
Proof.
  intros Htr.
  destruct (go_back_cases u w)
    as [Hn|s' Hs' _|s' Hs' Hl Hlost|s' c Hs' Hl _ _|s' c i prev Hs' _ Hi _ _
        |s' c i prev pf sf w1 Hs' _ Hi _ _ _ _]; eauto.
  exfalso. specialize (Htr s' Hs'). unfold cursor_tracked in Htr.
  destruct (current_fragment_id s') as [c|].
  - now apply (Hlost c).
  - rewrite Htr in Hl. cbn in Hl. lia.
Qed.

Lemma reachable_tracked w u s :
  reachable sm NARRATIVE_POINTS mark_discovered w ->
  lookup_state w u = Some s -> cursor_tracked s.
Proof.
  intros Hr Hs.
  exact (world_inv_lookup _ w u s
           (reachable_history_inv _ w cursor_tracked_history Hr) Hs).
Qed.

(** C6. [go_back] fails with CannotGoBack when the user has no state and
    when the history has at most one entry; in every world the service can
    reach it fails with CannotGoBack when the current fragment is at no
    position above 0 of the history; right after a successful [start_story]
    it fails; and when it succeeds the cursor moves to the entry just before
    the current fragment in the history, which is left as it was, and the
    move is committed. *)
Theorem go_back_spec u w :
  (lookup_state w u = None ->
   exists r, go_back sm u w = (w, Ret r) /\ CannotGoBack r) /\
  (forall s, lookup_state w u = Some s ->
     (length (fragments_visited s) <= 1)%nat ->
     exists r, go_back sm u w = (w, Ret r) /\ CannotGoBack r) /\
  (reachable sm NARRATIVE_POINTS mark_discovered w ->
   forall s, lookup_state w u = Some s ->
     ~ (exists c i, current_fragment_id s = Some c /\ (0 < i)%nat /\
                    fragments_visited s !! i = Some c) ->
     exists r, go_back sm u w = (w, Ret r) /\ CannotGoBack r) /\
  (forall sid w1 m f,
     start_story sm NARRATIVE_POINTS u sid w = (w1, Ret (true, m, f)) ->
     exists r, go_back sm u w1 = (w1, Ret r) /\ CannotGoBack r) /\
  (forall w' m fr,
     go_back sm u w = (w', Ret (true, m, fr)) ->
     exists s c i prev sf,
       lookup_state w u = Some s /\
       current_fragment_id s = Some c /\
       index_of c (fragments_visited s) = Some (S i) /\
       fragments_visited s !! i = Some prev /\
       db_states w' !! u = Some sf /\
       lookup_state w' u = Some sf /\
       current_fragment_id sf = Some prev /\
       fragments_visited sf = fragments_visited s).
Proof.
  split; [|split; [|split; [|split]]].
  - intros Hn. eexists. split; [|left; reflexivity].
    destruct (go_back_cases u w); try reflexivity; congruence.
  - intros s Hs Hlen. eexists. split; [|left; reflexivity].
    now apply (go_back_short u w s).
  - intros Hr s Hs Hno.
    destruct (go_back_cases u w)
      as [Hn|s' Hs' _|s' Hs' Hl Hlost|s' c Hs' Hl _ _|s' c i prev Hs' Hc Hi _ _
          |s' c i prev pf sf w1 Hs' Hc Hi _ _ _ _].
    + eexists. split; [reflexivity | now left].
    + eexists. split; [reflexivity | now left].
    + exfalso. pose proof (reachable_tracked w u s' Hr Hs') as Htr.
      unfold cursor_tracked in Htr.
      destruct (current_fragment_id s') as [c|].
      * now apply (Hlost c).
      * rewrite Htr in Hl. cbn in Hl. lia.
    + eexists. split; [reflexivity | now right].
    + exfalso. rewrite Hs in Hs'. injection Hs' as <-.
      apply Hno. exists c, (S i). split; [assumption|]. split; [lia|].
      now apply index_of_Some.
    + exfalso. rewrite Hs in Hs'. injection Hs' as <-.
      apply Hno. exists c, (S i). split; [assumption|]. split; [lia|].
      now apply index_of_Some.
  - intros sid w1 m f H.
    destruct (start_story_cases u sid w)
      as [[_ E]|[(story & _ & [E|(msg & E)])|(story & f0 & sf & w1' & _ & _ & S & T & E)]];
      rewrite E in H; try discriminate.
    injection H as <- _ _.
    destruct (touched_committed _ _ _ _ _ _ _
                [EvFragmentVisit (frag_id f0);
                 EvGivePoints u (NARRATIVE_POINTS "fragment_read")] T) as [_ Hlk].
    eexists. split; [|left; reflexivity].
    apply (go_back_short u _ sf Hlk). rewrite (st_visited _ _ _ _ S). cbn. lia.
  - intros w' m fr H.
    destruct (go_back_success u w w' m fr H)
      as (s & c & i & prev & pf & sf & w1 & Hs & Hc & Hi & Hprev & _ & _ & B & T & ->).
    destruct (touched_committed _ _ _ _ _ _ _ [] T) as [Hdb Hlk].
    exists s, c, i, prev, sf.
    repeat (split; [assumption|]).
    split; [apply (sb_cursor _ _ _ B) | apply (sb_visited _ _ _ B)].
Qed.

(** C9. Every operation keeps the property that a cursor which is set is
    an element of the history, of every state row; so the property holds in
    every world the service can reach, and there the lookup of the current
    fragment in [go_back] finds it: [go_back] returns and does not raise. *)
Theorem cursor_in_history :
  (forall op w,
     world_inv cursor_visited w ->
     world_inv cursor_visited (run_op sm NARRATIVE_POINTS mark_discovered op w)) /\
  (forall w,
     reachable sm NARRATIVE_POINTS mark_discovered w ->
     world_inv cursor_visited w) /\
  (forall w u,
     reachable sm NARRATIVE_POINTS mark_discovered w ->
     exists w' r, go_back sm u w = (w', Ret r)).
Proof.
  split; [|split].
  - intros op w. apply (run_op_history_inv _ cursor_visited_history).
  - intros w Hr. apply (reachable_history_inv _ w cursor_visited_history Hr).
  - intros w u Hr.
    destruct (go_back_tracked u w) as (r & [E|(w' & E & _)]); eauto.
    intros s. now apply reachable_tracked.
Qed.

(** C10. Every operation keeps the history of every state row free of
    duplicates, so it is in every world the service can reach; moving to a
    fragment that is already in the history leaves the history as it is;
    and in a reachable world the current fragment occurs at one position
    only, the one [go_back] finds. *)
Theorem visited_without_duplicates :
  (forall op w,
     world_inv visited_nodup w ->
     world_inv visited_nodup (run_op sm NARRATIVE_POINTS mark_discovered op w)) /\
  (forall w,
     reachable sm NARRATIVE_POINTS mark_discovered w ->
     world_inv visited_nodup w) /\
  (forall u cid w w' m f s,
     make_choice sm NARRATIVE_POINTS mark_discovered u cid w = (w', Ret (true, m, Some f)) ->
     lookup_state w u = Some s ->
     frag_id f ∈ fragments_visited s ->
     fragments_visited <$> lookup_state w' u = Some (fragments_visited s)) /\
  (forall u w w' m f s,
     navigate_next sm NARRATIVE_POINTS mark_discovered u w = (w', Ret (true, m, Some f)) ->
     lookup_state w u = Some s ->
     frag_id f ∈ fragments_visited s ->
     fragments_visited <$> lookup_state w' u = Some (fragments_visited s)) /\
  (forall w u s c i,
     reachable sm NARRATIVE_POINTS mark_discovered w ->
     lookup_state w u = Some s ->
     current_fragment_id s = Some c ->
     fragments_visited s !! i = Some c ->
     index_of c (fragments_visited s) = Some i).
Proof.
  split; [|split; [|split; [|split]]].
  - intros op w. apply (run_op_history_inv _ visited_nodup_history).
  - intros w Hr. apply (reachable_history_inv _ w visited_nodup_history Hr).
  - intros u cid w w' m f s H Hs Hin.
    destruct (make_choice_cases u cid w)
      as [(msg' & E)|(s' & cur & ch & next & d & saved & sf & w1 & Hs' & _ & _ & _ & _ & _ & _ & A & T & E)];
      rewrite E in H; try discriminate.
    injection H as <- _ <-. rewrite Hs in Hs'. injection Hs' as <-.
    rewrite lookup_state_finish, (t_after _ _ _ _ _ _ _ T). cbn.
    rewrite (adv_visited _ _ _ _ A). unfold visit. now rewrite bool_decide_eq_true_2.
  - intros u w w' m f s H Hs Hin.
    destruct (navigate_next_cases u w)
      as [(msg' & E)|(s' & cur & next & sf & w1 & Hs' & _ & _ & A & T & E)];
      rewrite E in H; try discriminate.
    injection H as <- _ <-. rewrite Hs in Hs'. injection Hs' as <-.
    rewrite lookup_state_finish, (t_after _ _ _ _ _ _ _ T). cbn.
    rewrite (adv_visited _ _ _ _ A). unfold visit. now rewrite bool_decide_eq_true_2.
  - intros w u s c i Hr Hs _ Hi.
    apply index_of_nodup; [|assumption].
    exact (world_inv_lookup _ w u s
             (reachable_history_inv _ w visited_nodup_history Hr) Hs).
Qed.

End ServiceFacts.

(** ** Concrete runs on the small catalogue *)

Import Demo.

(** User 1 of the small catalogue is in a reachable world after starting
    the free story and taking choice [c1]. *)
Lemma w_chosen_reachable :
  reachable sm NARRATIVE_POINTS mark_discovered w_chosen.
Proof.
  apply (reach_op sm NARRATIVE_POINTS mark_discovered (OpMakeChoice 1 "c1")).
  apply (reach_op sm NARRATIVE_POINTS mark_discovered (OpStartStory 1 "free")).
  apply reach_fresh; reflexivity.
Qed.

(** C1 at choice [c3], whose requirement (level 5) user 1 does not meet. *)
Lemma make_choice_failure_unchanged_witness :
  make_choice' 1 "c3" w_started
  = (w_started, Ret (false, requirements_message ["Nivel insuficiente"], None)) /\
  all_decisions (make_choice' 1 "c3" w_started).1 = all_decisions w_started.
Proof.
  assert (H : make_choice' 1 "c3" w_started
              = ((make_choice' 1 "c3" w_started).1,
                 Ret (false, requirements_message ["Nivel insuficiente"], None)))
    by (vm_compute; reflexivity).
  destruct (proj1 (make_choice_failure_unchanged sm NARRATIVE_POINTS mark_discovered
                     1 "c3" w_started) _ _ _ H) as (Hw & _ & _ & _ & Hd).
  split; [|exact Hd].
  rewrite Hw in H. exact H.
Defined.

(** C2 as stated fails: user 1 starts the free story, takes [c1], starts
    the free story again (at [f1], a decision fragment) and takes [c1]
    again, to [f2]; the count of decisions is then 2, not 1. *)
Lemma start_then_choice_counterexample :
  start_story' 1 "free" w_chosen
  = (w_restarted, Ret (true, "Historia 'Libre' iniciada", Some f1)) /\
  frag_type f1 = "decision" /\
  (make_choice' 1 "c1" w_restarted).2 = Ret (true, "Decisión registrada", Some f2) /\
  frag_id f2 <> frag_id f1 /\
  total_decisions_made <$> db_states (make_choice' 1 "c1" w_restarted).1 !! 1 = Some 2 /\
  total_decisions_made <$> db_states (make_choice' 1 "c1" w_restarted).1 !! 1 <> Some 1.
Proof.
  split; [vm_compute; reflexivity|].
  split; [reflexivity|].
  split; [vm_compute; reflexivity|].
  split; [discriminate|].
  split; [vm_compute; reflexivity | vm_compute; discriminate].
Qed.

(** C2, amended, on the first story user 1 starts. *)
Lemma start_then_choice_witness :
  exists s2 d,
    db_states w_chosen !! 1 = Some s2 /\
    lookup_state w_chosen 1 = Some s2 /\
    total_decisions_made s2 = 0 + 1 /\
    fragments_visited s2 = ["f1"; "f2"] /\
    current_fragment_id s2 = Some "f2" /\
    d ∈ db_decisions w_chosen /\
    dec_user_id d = 1 /\
    dec_fragment_id d = Some "f1" /\
    dec_choice_id d = "c1".
Proof.
  assert (H1 : start_story sm NARRATIVE_POINTS 1 "free" w0
               = (w_started, Ret (true, "Historia 'Libre' iniciada", Some f1)))
    by (vm_compute; reflexivity).
  assert (H2 : make_choice sm NARRATIVE_POINTS mark_discovered 1 "c1" w_started
               = (w_chosen, Ret (true, "Decisión registrada", Some f2)))
    by (vm_compute; reflexivity).
  assert (H3 : frag_id f2 <> frag_id f1) by discriminate.
  exact (start_then_choice sm NARRATIVE_POINTS mark_discovered
           1 "free" "c1" w0 w_started _ f1 w_chosen _ f2 H1 H2 H3).
Defined.

(** C3 as stated fails: user 1 (role free, no narrative state) asks for the
    VIP story; the call fails, and a state row for user 1 is committed. *)
Lemma start_story_failure_counterexample :
  (start_story' 1 "vip" w0).2
  = Ret (false, "Esta historia requiere suscripción VIP", None) /\
  db_states w0 !! 1 = None /\
  db_states (start_story' 1 "vip" w0).1 !! 1 = Some (new_state 1 100).
Proof.
  split; [vm_compute; reflexivity|].
  split; vm_compute; reflexivity.
Qed.

(** C3, amended, on the same call. *)
Lemma start_story_failure_witness :
  (start_story' 1 "vip" w0).1
  = commit_world (with_objects (<[1 := new_state 1 (clock w0)]> (objects w0)) w0).
Proof.
  assert (H : start_story sm NARRATIVE_POINTS 1 "vip" w0
              = ((start_story' 1 "vip" w0).1,
                 Ret (false, "Esta historia requiere suscripción VIP", None)))
    by (vm_compute; reflexivity).
  assert (Hs : is_Some (get_story sm "vip")) by (eexists; reflexivity).
  assert (Hn : lookup_state w0 1 = None) by reflexivity.
  exact (proj1 (proj2 (proj2 (start_story_failure sm NARRATIVE_POINTS
                                1 "vip" w0 _ _ _ H)) Hs Hn)).
Defined.

(** C4 as stated fails: user 1 takes choice [c2], whose effects grant 5
    points; the grant is the first call of the run, before the commit. *)
Lemma calls_around_commit_counterexample :
  (make_choice' 1 "c2" w_started).2 = Ret (true, "Decisión registrada", Some f3) /\
  head (new_calls w_started (make_choice' 1 "c2" w_started).1) = Some (EvGivePoints 1 5) /\
  aux_after_commit false (new_calls w_started (make_choice' 1 "c2" w_started).1) = false.
Proof.
  split; [vm_compute; reflexivity|].
  split; vm_compute; reflexivity.
Qed.

(** C4, amended, on the same call. *)
Lemma calls_around_commit_witness :
  exists s choice next saved,
    lookup_state w_started 1 = Some s /\
    validate_choice sm (active_story s) (current_fragment_id s) "c2" = Some choice /\
    Some f3 = Some next /\
    Forall before_commit (choice_calls 1 choice next saved) /\
    new_calls w_started (make_choice' 1 "c2" w_started).1
    = choice_calls 1 choice next saved ++
      [EvCommit; EvFragmentVisit (frag_id next);
       EvChoiceMetric (Some (frag_id next)) "c2";
       EvGivePoints 1 (NARRATIVE_POINTS "decision_made")] /\
    (forall e p, ch_effects choice = Some e -> eff_points e = Some p ->
       head (new_calls w_started (make_choice' 1 "c2" w_started).1)
       = Some (EvGivePoints 1 p)).
Proof.
  assert (H : make_choice sm NARRATIVE_POINTS mark_discovered 1 "c2" w_started
              = ((make_choice' 1 "c2" w_started).1,
                 Ret (true, "Decisión registrada", Some f3)))
    by (vm_compute; reflexivity).
  exact (proj1 (proj2 (calls_around_commit sm NARRATIVE_POINTS mark_discovered
                         1 w_started)) "c2" _ _ _ H).
Defined.

(** C5 fails on the code: user 1 is at [f2] and [navigate_next] takes them
    to [f3], a checkpoint fragment; the transition succeeds and no
    checkpoint is saved. *)
Theorem navigate_next_skips_checkpoint :
  (navigate_next' 1 w_chosen).2 = Ret (true, "Continuando historia", Some f3) /\
  frag_type f3 = "checkpoint" /\
  checkpoint_saves (new_calls w_chosen (navigate_next' 1 w_chosen).1) = O.
Proof.
  split; [vm_compute; reflexivity|].
  split; vm_compute; reflexivity.
Qed.

(** C6 on user 1 after one choice: going back succeeds, to [f1]; going
    back once more fails, the cursor being at position 0 of the history. *)
Lemma go_back_spec_witness :
  (exists s c i prev sf,
     lookup_state w_chosen 1 = Some s /\
     current_fragment_id s = Some c /\
     index_of c (fragments_visited s) = Some (S i) /\
     fragments_visited s !! i = Some prev /\
     db_states w_back !! 1 = Some sf /\
     lookup_state w_back 1 = Some sf /\
     current_fragment_id sf = Some prev /\
     fragments_visited sf = fragments_visited s) /\
  reachable sm NARRATIVE_POINTS mark_discovered w_back /\
  exists r, go_back sm 1 w_back = (w_back, Ret r) /\ CannotGoBack r.
Proof.
  assert (H : go_back sm 1 w_chosen
              = (w_back, Ret (true, "Has retrocedido", Some f1)))
    by (vm_compute; reflexivity).
  assert (Hr : reachable sm NARRATIVE_POINTS mark_discovered w_back)
    by exact (reach_op sm NARRATIVE_POINTS mark_discovered (OpGoBack 1) w_chosen
                w_chosen_reachable).
  assert (Hs : lookup_state w_back 1
               = Some (default (new_state 1 0) (lookup_state w_back 1)))
    by (vm_compute; reflexivity).
  assert (Hno : ~ (exists c i,
             current_fragment_id (default (new_state 1 0) (lookup_state w_back 1)) = Some c /\
             (0 < i)%nat /\
             fragments_visited (default (new_state 1 0) (lookup_state w_back 1)) !! i
             = Some c)).
  { intros (c & i & Hc & Hi & Hl).
    vm_compute in Hc. injection Hc as <-.
    destruct i as [|[|i]]; vm_compute in Hl; [lia | discriminate | discriminate]. }
  split; [|split; [exact Hr|]].
  - exact (proj2 (proj2 (proj2 (proj2
             (go_back_spec sm NARRATIVE_POINTS mark_discovered 1 w_chosen)))) _ _ _ H).
  - exact (proj1 (proj2 (proj2
             (go_back_spec sm NARRATIVE_POINTS mark_discovered 1 w_back))) Hr _ Hs Hno).
Defined.

(** C7 on user 1 at [f4], whose successor [f5] asks for level 5. *)
Lemma navigate_next_frame_witness :
  navigate_next' 1 w_gated
  = (w_gated, Ret (false, requirements_message ["Nivel insuficiente"], None)).
Proof.
  eapply (proj2 (navigate_next_frame sm NARRATIVE_POINTS mark_discovered 1 w_gated)).
  - vm_compute; reflexivity.
  - vm_compute; reflexivity.
  - vm_compute; reflexivity.
  - vm_compute; reflexivity.
  - vm_compute; reflexivity.
Defined.

(** C8 fails on the code: user id 9 has no [User] row and asks for the VIP
    story; the call raises. *)
Theorem start_story_vip_without_user :
  users w0 !! 9 = None /\
  requires_vip <$> get_story sm "vip" = Some true /\
  (start_story' 9 "vip" w0).2 = Raise AttributeError.
Proof.
  split; [reflexivity|].
  split; [reflexivity|].
  vm_compute; reflexivity.
Qed.

(** C9 on the world of user 1 after one choice. *)
Lemma cursor_in_history_witness :
  reachable sm NARRATIVE_POINTS mark_discovered w_chosen /\
  world_inv cursor_visited w_chosen /\
  exists w' r, go_back sm 1 w_chosen = (w', Ret r).
Proof.
  split; [exact w_chosen_reachable|].
  split.
  - exact (proj1 (proj2 (cursor_in_history sm NARRATIVE_POINTS mark_discovered))
             w_chosen w_chosen_reachable).
  - exact (proj2 (proj2 (cursor_in_history sm NARRATIVE_POINTS mark_discovered))
             w_chosen 1 w_chosen_reachable).
Defined.

(** C10 on the world of user 1 after one choice. *)
Lemma visited_without_duplicates_witness :
  reachable sm NARRATIVE_POINTS mark_discovered w_chosen /\
  world_inv visited_nodup w_chosen.
Proof.
  split; [exact w_chosen_reachable|].
  exact (proj1 (proj2 (visited_without_duplicates sm NARRATIVE_POINTS mark_discovered))
           w_chosen w_chosen_reachable).
Defined.

(** ** Further properties of the service *)

Section FurtherFacts.

Variable sm : StoryManager.
Variable NARRATIVE_POINTS : string -> Z.
Variable mark_discovered : list string -> gmap string FlagVal -> gmap string FlagVal.




(** X2. A failing [navigate_next] and a failing or raising [go_back] leave
    the world as it was; [navigate_next] fails so when the current fragment
    has no next fragment ([None] or the empty string), and the only
    exception [go_back] raises is [ValueError]. *)
Theorem failures_leave_world u w :
  (forall w' msg fr,
     navigate_next sm NARRATIVE_POINTS mark_discovered u w = (w', Ret (false, msg, fr)) ->
     w' = w /\ fr = None) /\
  (forall s cur,
     lookup_state w u = Some s ->
     get_fragment sm (active_story s) (current_fragment_id s) = Some cur ->
     truthy_str (frag_next_fragment cur) = false ->
     navigate_next sm NARRATIVE_POINTS mark_discovered u w
     = (w, Ret (false, "No hay siguiente fragmento", None))) /\
  (forall w' msg fr,
     go_back sm u w = (w', Ret (false, msg, fr)) -> w' = w /\ fr = None) /\
  (forall w' e, go_back sm u w = (w', Raise e) -> w' = w /\ e = ValueError).
Proof.
  split; [|split; [|split]].
  - intros w' msg fr H.
    destruct (navigate_next_cases sm NARRATIVE_POINTS mark_discovered u w)
      as [(msg' & E)|(s & cur & next & sf & w1 & _ & _ & _ & _ & _ & E)];
      rewrite E in H; [|discriminate].
    injection H as <- _ <-. auto.
  - intros s cur Hs Hcur Hnx. unfold navigate_next.
    run_with (get_user_state_run u w). now rewrite Hs, Hcur, Hnx.
  - intros w' msg fr H. pose proof (go_back_cases sm u w) as C. rewrite H in C.
    inversion C; subst; auto.
  - intros w' e H. pose proof (go_back_cases sm u w) as C. rewrite H in C.
    inversion C; subst; auto.
Qed.

(** X3. From any world, a successful [make_choice] counts one decision
    and logs one record: the committed state has the counter one higher, the
    cursor on the returned fragment and that fragment in the history, and
    the decision log grows by exactly one committed record, for the user,
    the fragment the choice was made from and the choice id. *)
Theorem make_choice_counts_once u cid w w' m fr :
  make_choice sm NARRATIVE_POINTS mark_discovered u cid w = (w', Ret (true, m, fr)) ->
  exists s s' d next,
    lookup_state w u = Some s /\
    fr = Some next /\
    lookup_state w' u = Some s' /\
    db_states w' !! u = Some s' /\
    total_decisions_made s' = total_decisions_made s + 1 /\
    current_fragment_id s' = Some (frag_id next) /\
    fragments_visited s' = visit (frag_id next) (fragments_visited s) /\
    all_decisions w' = all_decisions w ++ [d] /\
    pending w' = [] /\
    dec_user_id d = u /\
    dec_fragment_id d = current_fragment_id s /\
    dec_choice_id d = cid.
Proof.
  intros H.
  destruct (make_choice_cases sm NARRATIVE_POINTS mark_discovered u cid w)
    as [(msg' & E)|(s & cur & ch & next & d & saved & sf & w1 & Hs & _ & _ & _ & D1 & D2 & D3 & A & T & E)];
    rewrite E in H; [discriminate|].
  injection H as <- _ <-.
  destruct (touched_committed _ _ _ _ _ _ _
              [EvFragmentVisit (frag_id next);
               EvChoiceMetric (Some (frag_id next)) cid;
               EvGivePoints u (NARRATIVE_POINTS "decision_made")] T) as [Hdb Hlk].
  exists s, sf, d, next.
  split; [exact Hs|]. split; [reflexivity|]. split; [exact Hlk|]. split; [exact Hdb|].
  split; [apply (adv_total _ _ _ _ A)|]. split; [apply (adv_cursor _ _ _ _ A)|].
  split; [apply (adv_visited _ _ _ _ A)|].
  split; [apply (touched_all_decisions _ _ _ _ _ _ _ _ T)|].
  split; [reflexivity|]. auto.
Qed.

(** X4. [go_back] is a move of the cursor only: it never adds or removes
    a decision record, never changes a decision counter or a history, and
    calls no collaborator (its only logged event is its commit, on
    success). *)
Theorem go_back_keeps_record u w :
  all_decisions (go_back sm u w).1 = all_decisions w /\
  (forall v,
     total_decisions_made <$> lookup_state (go_back sm u w).1 v
     = total_decisions_made <$> lookup_state w v) /\
  (forall v,
     fragments_visited <$> lookup_state (go_back sm u w).1 v
     = fragments_visited <$> lookup_state w v) /\
  (new_calls w (go_back sm u w).1 = [] \/
   new_calls w (go_back sm u w).1 = [EvCommit]).
Proof.
  assert (Hnil : new_calls w w = []) by (unfold new_calls; apply drop_all).
  destruct (go_back_cases sm u w) as [| | | | |s c i prev pf sf w1 Hs _ _ _ _ B T];
    cbn [fst]; auto.
  split; [|split; [|split]].
  - rewrite (touched_all_decisions _ _ _ _ _ _ _ _ T). apply app_nil_r.
  - intros v. rewrite lookup_state_finish.
    destruct (decide (v = u)) as [->|Hv].
    + rewrite (t_after _ _ _ _ _ _ _ T), Hs. cbn. now rewrite (sb_total _ _ _ B).
    + now rewrite (touched_lookup_other _ _ _ _ _ _ _ _ T Hv).
  - intros v. rewrite lookup_state_finish.
    destruct (decide (v = u)) as [->|Hv].
    + rewrite (t_after _ _ _ _ _ _ _ T), Hs. cbn. now rewrite (sb_visited _ _ _ B).
    + now rewrite (touched_lookup_other _ _ _ _ _ _ _ _ T Hv).
  - right. apply (touched_new_calls _ _ _ _ _ _ _ _ T).
Qed.


Lemma index_of_second a b : b <> a -> index_of b [a; b] = Some 1%nat.
Proof.
  intros H. cbn [index_of].
  destruct (String.eqb_spec a b) as [->|_]; [congruence|].
  now rewrite String.eqb_refl.
Qed.

(** X5. After a successful [start_story] and one successful
    [make_choice] to another fragment, [go_back] returns the user to the
    starting fragment when the catalogue resolves it (cursor and chapter of
    that fragment, history unchanged, committed), and fails with the load
    error, changing nothing, when it does not. *)
Theorem back_after_first_choice u sid cid w w1 m1 f0 w2 m2 f2 :
  start_story sm NARRATIVE_POINTS u sid w = (w1, Ret (true, m1, Some f0)) ->
  make_choice sm NARRATIVE_POINTS mark_discovered u cid w1 = (w2, Ret (true, m2, Some f2)) ->
  frag_id f2 <> frag_id f0 ->
  match get_fragment sm (Some sid) (Some (frag_id f0)) with
  | Some pf =>
    exists w3 s3,
      go_back sm u w2 = (w3, Ret (true, "Has retrocedido", Some pf)) /\
      db_states w3 !! u = Some s3 /\
      current_fragment_id s3 = Some (frag_id f0) /\
      current_chapter s3 = frag_chapter pf /\
      fragments_visited s3 = [frag_id f0; frag_id f2]
  | None =>
    go_back sm u w2 = (w2, Ret (false, "Error al cargar fragmento anterior", None))
  end.
Proof.
  intros H1 H2 Hne.
  destruct (start_story_cases sm NARRATIVE_POINTS u sid w)
    as [[_ E]|[(story & _ & [E|(msg & E)])|(story & f & sf & w1' & _ & _ & S & T & E)]];
    rewrite E in H1; try discriminate.
  injection H1 as <- _ <-.
  destruct (touched_committed _ _ _ _ _ _ _
              [EvFragmentVisit (frag_id f);
               EvGivePoints u (NARRATIVE_POINTS "fragment_read")] T) as [_ Hw1].
  destruct (make_choice_cases sm NARRATIVE_POINTS mark_discovered u cid
              (finish [EvFragmentVisit (frag_id f);
                       EvGivePoints u (NARRATIVE_POINTS "fragment_read")] w1'))
    as [(msg & E2)|(s & cur & ch & next & d & saved & sf2 & w2' & Hs & _ & _ & _ & _ & _ & _ & A & T2 & E2)];
    rewrite E2 in H2; try discriminate.
  injection H2 as <- _ <-.
  rewrite Hw1 in Hs. injection Hs as <-.
  destruct (touched_committed _ _ _ _ _ _ _
              [EvFragmentVisit (frag_id next);
               EvChoiceMetric (Some (frag_id next)) cid;
               EvGivePoints u (NARRATIVE_POINTS "decision_made")] T2) as [_ Hlk].
  assert (Hv : fragments_visited sf2 = [frag_id f; frag_id next]).
  { rewrite (adv_visited _ _ _ _ A), (st_visited _ _ _ _ S). unfold visit.
    case_bool_decide as Hin; [|reflexivity].
    apply list_elem_of_singleton in Hin. congruence. }
  assert (Hst : active_story sf2 = Some sid)
    by (rewrite (adv_story _ _ _ _ A); apply (st_story _ _ _ _ S)).
  pose proof (adv_cursor _ _ _ _ A) as Hc.
  pose proof (index_of_second _ _ Hne) as Hi.
  set (w2 := finish [EvFragmentVisit (frag_id next);
                     EvChoiceMetric (Some (frag_id next)) cid;
                     EvGivePoints u (NARRATIVE_POINTS "decision_made")] w2') in *.
  unfold go_back. run_with (get_user_state_run u w2). rewrite Hlk, Hv, Hc.
  cbn [length Nat.leb].
  run_with (py_index_run _ _ _ w2 Hi).
  cbn [Nat.leb Nat.sub lookup list_lookup]. rewrite Hst.
  destruct (get_fragment sm (Some sid) (Some (frag_id f))) as [pf|]; [|reflexivity].
  pose proof (touched_refl u sf2 w2 Hlk) as T3.
  step_by @step_setattr T3.
  step_by @step_setattr T3.
  read_by @step_utcnow T3.
  step_by @step_setattr T3.
  run_with (commit_finish wi1).
  destruct (touched_committed _ _ _ _ _ _ _ [] T3) as [Hdb _].
  eexists _, _. split; [reflexivity|]. split; [exact Hdb|].
  split; [reflexivity|]. split; [reflexivity|]. exact Hv.
Qed.

(** X6. [get_current_fragment] changes nothing; it yields [None] for a
    user without state, and after a successful [start_story] or
    [make_choice] it yields what the catalogue holds for the active story
    under the id of the fragment that call returned ([None] when that id is
    the empty string, which Python takes as no cursor). *)
Theorem get_current_fragment_reads u w :
  (get_current_fragment sm u w).1 = w /\
  (lookup_state w u = None -> (get_current_fragment sm u w).2 = Ret None) /\
  (forall sid w0 m f,
     start_story sm NARRATIVE_POINTS u sid w0 = (w, Ret (true, m, Some f)) ->
     (get_current_fragment sm u w).2
     = Ret (if String.eqb (frag_id f) "" then None
            else get_fragment sm (Some sid) (Some (frag_id f)))) /\
  (forall cid w0 s m f,
     lookup_state w0 u = Some s ->
     make_choice sm NARRATIVE_POINTS mark_discovered u cid w0 = (w, Ret (true, m, Some f)) ->
     (get_current_fragment sm u w).2
     = Ret (if String.eqb (frag_id f) "" then None
            else get_fragment sm (active_story s) (Some (frag_id f)))).
Proof.
  assert (Hgen : forall s, lookup_state w u = Some s ->
            get_current_fragment sm u w
            = (w, Ret (if negb (truthy_str (current_fragment_id s)) then None
                       else get_fragment sm (active_story s) (current_fragment_id s)))).
  { intros s Hs. unfold get_current_fragment.
    run_with (get_user_state_run u w). rewrite Hs.
    now destruct (negb (truthy_str (current_fragment_id s))). }
  split; [|split; [|split]].
  - unfold get_current_fragment. run_with (get_user_state_run u w).
    destruct (lookup_state w u) as [s|]; [|reflexivity].
    now destruct (negb (truthy_str (current_fragment_id s))).
  - intros Hn. unfold get_current_fragment.
    run_with (get_user_state_run u w). now rewrite Hn.
  - intros sid w0 m f H.
    destruct (start_story_cases sm NARRATIVE_POINTS u sid w0)
      as [[_ E]|[(story & _ & [E|(msg & E)])|(story & f' & sf & w1' & _ & _ & S & T & E)]];
      rewrite E in H; try discriminate.
    injection H as <- _ <-.
    destruct (touched_committed _ _ _ _ _ _ _
                [EvFragmentVisit (frag_id f');
                 EvGivePoints u (NARRATIVE_POINTS "fragment_read")] T) as [_ Hlk].
    rewrite (Hgen _ Hlk). cbn [snd].
    rewrite (st_cursor _ _ _ _ S), (st_story _ _ _ _ S). cbn [truthy_str].
    now destruct (String.eqb (frag_id f') "").
  - intros cid w0 s m f Hs H.
    destruct (make_choice_cases sm NARRATIVE_POINTS mark_discovered u cid w0)
      as [(msg & E)|(s' & cur & ch & next & d & saved & sf & w1 & Hs' & _ & _ & _ & _ & _ & _ & A & T & E)];
      rewrite E in H; try discriminate.
    injection H as <- _ <-. rewrite Hs in Hs'. injection Hs' as <-.
    destruct (touched_committed _ _ _ _ _ _ _
                [EvFragmentVisit (frag_id next);
                 EvChoiceMetric (Some (frag_id next)) cid;
                 EvGivePoints u (NARRATIVE_POINTS "decision_made")] T) as [_ Hlk].
    rewrite (Hgen _ Hlk). cbn [snd].
    rewrite (adv_cursor _ _ _ _ A), (adv_story _ _ _ _ A). cbn [truthy_str].
    now destruct (String.eqb (frag_id next) "").
Qed.

(** X7. [_get_user_data_for_requirements] reads only: the items are
    always empty, the achievements are exactly those recorded for this user,
    a missing [User] row gives level 1 and 0 points, and a missing state
    gives no story flags. *)
Theorem user_data_for_requirements u w :
  exists ud,
    _get_user_data_for_requirements u w = (w, Ret ud) /\
    ud_items ud = [] /\
    (forall a, a ∈ ud_achievements ud <-> (u, a) ∈ user_achievements w) /\
    (users w !! u = None -> ud_level ud = 1 /\ ud_points ud = 0) /\
    (forall x, users w !! u = Some x -> ud_level ud = level x /\ ud_points ud = points x) /\
    (lookup_state w u = None -> ud_story_flags ud = ∅) /\
    (forall s, lookup_state w u = Some s -> ud_story_flags ud = story_flags s).
Proof.
  exists (user_data_of w u). split; [apply user_data_run|].
  unfold user_data_of. cbn [ud_items ud_achievements ud_level ud_points ud_story_flags].
  split; [reflexivity|]. split; [|split; [|split; [|split]]].
  - intros a. rewrite list_elem_of_fmap. split.
    + intros ([v b] & -> & Hin). apply list_elem_of_filter in Hin as [Hv Hin].
      cbn in Hv. now subst v.
    + intros Hin. exists (u, a). split; [reflexivity|].
      apply list_elem_of_filter. now split.
  - now intros ->.
  - now intros x ->.
  - now intros ->.
  - now intros s ->.
Qed.

Lemma for_each_setattr_fold {A} u (g : A -> UserNarrativeState -> UserNarrativeState) l :
  forall s si ds evs w wi, touched u s si ds evs w wi ->
  exists wi', touched u s (foldl (fun s x => g x s) si l) ds evs w wi' /\
    for_each l (fun x => setattr u (g x)) wi = (wi', Ret tt).
Proof.
  induction l as [|x l IH]; intros s si ds evs w wi T.
  - exists wi. split; [assumption | reflexivity].
  - cbn [for_each foldl].
    step_by @step_setattr T.
    destruct (IH _ _ _ _ _ _ T) as (w2 & T2 & E2).
    exists w2. split; assumption.
Qed.

Lemma apply_choice_effects_state u eff d s si ds evs w wi :
  touched u s si ds evs w wi ->
  exists wi', touched u s (effects_state eff si) ds (evs ++ effects_calls u eff) w wi' /\
    _apply_choice_effects u eff d wi = (wi', Ret (effects_decision eff d)).
Proof.
  intros T. unfold _apply_choice_effects, effects_calls, effects_decision, effects_state.
  read_by @step_get_user_state T.
  assert (exists w1, touched u s
      match eff_relationships eff with
      | Some rels => foldl (fun s p => add_relationship p s) si rels
      | None => si
      end ds evs w w1 /\
      match eff_relationships eff with
      | Some relationships =>
        for_each relationships (fun '(character, change) =>
          setattr u (fun s =>
            let current := default 0 (relationship_scores s !! character) in
            set_relationship_scores (<[character := current + change]> (relationship_scores s)) s))
      | None => mret tt
      end wi = (w1, Ret tt)) as (w1 & T1 & E1).
  { destruct (eff_relationships eff) as [rels|].
    - destruct (for_each_setattr_fold u add_relationship rels _ _ _ _ _ _ T)
        as (w1 & T1 & E1).
      exists w1. split; [assumption|].
      erewrite for_each_ext; [exact E1 | now intros [c ch]].
    - exists wi. split; [assumption | reflexivity]. }
  run_with E1. clear E1 T.
  match type of T1 with touched _ _ ?x _ _ _ _ => set (s1 := x) in * end.
  assert (exists w2, touched u s
      match eff_story_flags eff with
      | Some flags =>
        set_story_flags (foldl (fun m '(k, v) => <[k := v]> m) (story_flags s1) flags) s1
      | None => s1
      end ds evs w w2 /\
      match eff_story_flags eff with
      | Some flags =>
        setattr u (fun s =>
          set_story_flags (foldl (fun m '(k, v) => <[k := v]> m) (story_flags s) flags) s)
      | None => mret tt
      end w1 = (w2, Ret tt)) as (w2 & T2 & E2).
  { destruct (eff_story_flags eff) as [flags|].
    - apply (step_setattr T1
        (fun s => set_story_flags (foldl (fun m '(k, v) => <[k := v]> m) (story_flags s) flags) s)).
    - exists w1. split; [assumption | reflexivity]. }
  run_with E2. clear E2 T1.
  destruct (eff_points eff) as [pts|].
  - unfold _give_narrative_points. step_by @step_call T2.
    eexists. split; [exact T2 | reflexivity].
  - exists w2. rewrite app_nil_r. split; [assumption | reflexivity].
Qed.

Lemma total_change_absent c rels : c ∉ rels.*1 -> total_change c rels = 0.
Proof.
  induction rels as [|[c' ch] r IH]; [reflexivity|].
  cbn [total_change fmap list_fmap fst]. rewrite not_elem_of_cons. intros [Hne Hr].
  rewrite bool_decide_eq_false_2 by congruence. auto.
Qed.

Lemma relationship_fold_scores rels : forall s c,
  relationship_scores (foldl (fun s p => add_relationship p s) s rels) !! c
  = if bool_decide (c ∈ rels.*1)
    then Some (default 0 (relationship_scores s !! c) + total_change c rels)
    else relationship_scores s !! c.
Proof.
  induction rels as [|[c' ch] r IH]; intros s c; [reflexivity|].
  cbn [foldl total_change fmap list_fmap fst]. rewrite IH.
  change (relationship_scores (add_relationship (c', ch) s))
    with (<[c' := default 0 (relationship_scores s !! c') + ch]> (relationship_scores s)).
  destruct (decide (c' = c)) as [->|Hne].
  - rewrite lookup_insert_eq. cbn [default].
    rewrite (bool_decide_eq_true_2 (c = c)) by reflexivity.
    rewrite (bool_decide_eq_true_2 (c ∈ c :: r.*1)) by apply list_elem_of_here.
    case_bool_decide as Hin.
    + unfold id. f_equal. lia.
    + rewrite (total_change_absent _ _ Hin). unfold id. f_equal. lia.
  - rewrite lookup_insert_ne by assumption.
    rewrite (bool_decide_eq_false_2 (c' = c)) by assumption.
    case_bool_decide as Hin.
    + rewrite bool_decide_eq_true_2; [reflexivity|]. now apply list_elem_of_further.
    + rewrite bool_decide_eq_false_2; [reflexivity|].
      rewrite not_elem_of_cons. split; congruence.
Qed.

Lemma relationship_fold_core rels : forall s,
  same_core s (foldl (fun s p => add_relationship p s) s rels).
Proof.
  induction rels as [|p r IH]; intros s; [apply same_core_refl|].
  cbn [foldl]. eapply same_core_trans; [|apply IH].
  apply same_core_scores.
Qed.

Lemma relationship_fold_flags rels : forall s,
  story_flags (foldl (fun s p => add_relationship p s) s rels) = story_flags s.
Proof.
  induction rels as [|p r IH]; intros s; [reflexivity|].
  cbn [foldl]. now rewrite IH.
Qed.

Lemma flags_fold_lookup fl : forall (m : gmap string FlagVal) k,
  foldl (fun m '(k, v) => <[k := v]> m) m fl !! k
  = match last_binding k fl with
    | Some v => Some v
    | None => m !! k
    end.
Proof.
  induction fl as [|[k' v] r IH]; intros m k; [reflexivity|].
  cbn [foldl last_binding]. rewrite IH.
  destruct (last_binding k r); [reflexivity|].
  case_bool_decide as Hk.
  - subst. apply lookup_insert_eq.
  - now apply lookup_insert_ne.
Qed.

Lemma effects_state_core e s : same_core s (effects_state e s).
Proof.
  unfold effects_state.
  destruct (eff_relationships e) as [rels|], (eff_story_flags e) as [fl|];
    try apply same_core_refl; try apply relationship_fold_core.
  - eapply same_core_trans; [apply relationship_fold_core | apply same_core_flags].
  - apply same_core_flags.
Qed.

(** X8. [_apply_choice_effects] adds, for every character listed under
    ["relationships"], the listed change to the character's score, a
    character without score counting as 0, and leaves the other scores as
    they were. *)
Theorem choice_effects_relationships u e d w s rels :
  lookup_state w u = Some s ->
  eff_relationships e = Some rels ->
  exists w' s',
    _apply_choice_effects u e d w = (w', Ret (effects_decision e d)) /\
    lookup_state w' u = Some s' /\
    forall c,
      relationship_scores s' !! c
      = if bool_decide (c ∈ rels.*1)
        then Some (default 0 (relationship_scores s !! c) + total_change c rels)
        else relationship_scores s !! c.
Proof.
  intros Hs Hr.
  destruct (apply_choice_effects_state u e d _ _ _ _ _ _ (touched_refl u s w Hs))
    as (w' & T & E).
  exists w', (effects_state e s). split; [exact E|].
  split; [apply (t_after _ _ _ _ _ _ _ T)|].
  intros c. unfold effects_state. rewrite Hr.
  destruct (eff_story_flags e); cbn [relationship_scores set_story_flags];
    apply relationship_fold_scores.
Qed.

(** X9. [_apply_choice_effects] merges ["story_flags"] into the flags of
    the state: a listed key takes its (last) listed value, every other key
    keeps its value. *)
Theorem choice_effects_story_flags u e d w s flags :
  lookup_state w u = Some s ->
  eff_story_flags e = Some flags ->
  exists w' s',
    _apply_choice_effects u e d w = (w', Ret (effects_decision e d)) /\
    lookup_state w' u = Some s' /\
    forall k,
      story_flags s' !! k
      = match last_binding k flags with
        | Some v => Some v
        | None => story_flags s !! k
        end.
Proof.
  intros Hs Hf.
  destruct (apply_choice_effects_state u e d _ _ _ _ _ _ (touched_refl u s w Hs))
    as (w' & T & E).
  exists w', (effects_state e s). split; [exact E|].
  split; [apply (t_after _ _ _ _ _ _ _ T)|].
  intros k. unfold effects_state. rewrite Hf.
  cbn [story_flags set_story_flags]. rewrite flags_fold_lookup.
  destruct (last_binding k flags); [reflexivity|].
  destruct (eff_relationships e); [|reflexivity].
  now rewrite relationship_fold_flags.
Qed.

(** X10. [_apply_choice_effects] does nothing at all for a user without
    state (no grant, the record untouched).  With a state it commits
    nothing, leaves every attribute but the two dictionaries, forwards the
    points of the effects as given, one call exactly when the key is present
    (also for zero or negative amounts), and writes points and items on the
    decision record, whose user, fragment and choice are kept. *)
Theorem choice_effects_frame u e d w :
  (lookup_state w u = None -> _apply_choice_effects u e d w = (w, Ret d)) /\
  (forall s, lookup_state w u = Some s ->
     exists w' s' d',
       _apply_choice_effects u e d w = (w', Ret d') /\
       lookup_state w' u = Some s' /\ same_core s s' /\
       db_states w' = db_states w /\
       all_decisions w' = all_decisions w /\
       new_calls w w'
       = match eff_points e with Some p => [EvGivePoints u p] | None => [] end /\
       dec_points_gained d'
       = match eff_points e with Some p => p | None => dec_points_gained d end /\
       dec_items_gained d'
       = match eff_items e with Some l => l | None => dec_items_gained d end /\
       dec_user_id d' = dec_user_id d /\
       dec_fragment_id d' = dec_fragment_id d /\
       dec_choice_id d' = dec_choice_id d).
Proof.
  split.
  - intros Hn. unfold _apply_choice_effects.
    run_with (get_user_state_run u w). now rewrite Hn.
  - intros s Hs.
    destruct (apply_choice_effects_state u e d _ _ _ _ _ _ (touched_refl u s w Hs))
      as (w' & T & E).
    exists w', (effects_state e s), (effects_decision e d).
    split; [exact E|]. split; [apply (t_after _ _ _ _ _ _ _ T)|].
    split; [apply effects_state_core|].
    split; [apply (t_db_states _ _ _ _ _ _ _ T)|].
    split.
    { unfold all_decisions.
      rewrite (t_db_decisions _ _ _ _ _ _ _ T), (t_pending _ _ _ _ _ _ _ T).
      now rewrite app_nil_r. }
    split.
    { unfold new_calls. rewrite (t_calls _ _ _ _ _ _ _ T), drop_app_length.
      reflexivity. }
    unfold effects_decision.
    destruct (eff_items e), (eff_points e); repeat split.
Qed.

Lemma logged_nil w : logged [] w = w.
Proof. destruct w. unfold logged, with_calls. wsimpl. now rewrite app_nil_r. Qed.

Lemma logged_app a b w : logged b (logged a w) = logged (a ++ b) w.
Proof. unfold logged, with_calls. wsimpl. now rewrite app_assoc. Qed.

Lemma for_each_call_logged {A} (g : A -> Event) l w :
  for_each l (fun x => call (g x)) w = (logged (map g l) w, Ret tt).
Proof.
  revert w. induction l as [|x l IH]; intros w.
  - now rewrite logged_nil.
  - cbn [for_each map].
    rewrite (bind_run _ _ _ _ _ (eq_refl : call (g x) w = (logged [g x] w, Ret tt))).
    now rewrite IH, logged_app.
Qed.

Lemma lookup_state_logged evs w u : lookup_state (logged evs w) u = lookup_state w u.
Proof. reflexivity. Qed.


Lemma rewards_calls_points u r v p :
  EvGivePoints v p ∈ rewards_calls u r -> v = u /\ 0 < p /\ rw_points r = Some p.
Proof.
  unfold rewards_calls. rewrite !elem_of_app. intros [H|[H|H]].
  - destruct (rw_points r) as [q|]; [|now apply elem_of_nil in H].
    destruct (Z.ltb_spec 0 q); [|now apply elem_of_nil in H].
    apply list_elem_of_singleton in H. injection H as -> ->. auto.
  - destruct (rw_achievements r) as [l|]; [|now apply elem_of_nil in H].
    apply list_elem_of_fmap in H as (x & Hx & _). discriminate.
  - destruct (rw_lore_pieces r) as [l|]; [|now apply elem_of_nil in H].
    apply list_elem_of_fmap in H as (x & Hx & _). discriminate.
Qed.

Lemma process_fragment_rewards_world u fr w :
  _process_fragment_rewards mark_discovered u fr w
  = (match frag_rewards fr with
     | None => w
     | Some r =>
       match rw_unlock_fragments r, lookup_state w u with
       | Some l, Some s =>
         with_objects
           (<[u := set_story_flags (mark_discovered l (story_flags s)) s]>
              (objects w))
           (logged (rewards_calls u r) w)
       | _, _ => logged (rewards_calls u r) w
       end
     end, Ret tt).
Proof.
  unfold _process_fragment_rewards.
  destruct (frag_rewards fr) as [r|]; [|reflexivity].
  unfold rewards_calls, _give_narrative_points, _check_and_award_achievement,
    _unlock_lore_piece.
  assert (E1 : match rw_points r with
               | Some pts => if (0 <? pts)%Z then call (EvGivePoints u pts) else mret tt
               | None => mret tt
               end w
               = (logged match rw_points r with
                         | Some pts => if (0 <? pts)%Z then [EvGivePoints u pts] else []
                         | None => []
                         end w, Ret tt)).
  { destruct (rw_points r) as [p|]; [destruct (0 <? p)%Z|];
      rewrite ?logged_nil; reflexivity. }
  run_with E1. clear E1.
  set (w1 := logged _ w).
  assert (E2 : match rw_achievements r with
               | Some achievements =>
                 for_each achievements (fun achievement_id => call (EvAward u achievement_id))
               | None => mret tt
               end w1
               = (logged match rw_achievements r with
                         | Some l => map (EvAward u) l
                         | None => []
                         end w1, Ret tt)).
  { destruct (rw_achievements r) as [l|].
    - apply for_each_call_logged.
    - now rewrite logged_nil. }
  run_with E2. clear E2.
  set (w2 := logged _ w1).
  assert (E3 : match rw_lore_pieces r with
               | Some lore_pieces =>
                 for_each lore_pieces (fun lore_code => call (EvUnlockLore u lore_code))
               | None => mret tt
               end w2
               = (logged match rw_lore_pieces r with
                         | Some l => map (EvUnlockLore u) l
                         | None => []
                         end w2, Ret tt)).
  { destruct (rw_lore_pieces r) as [l|].
    - apply for_each_call_logged.
    - now rewrite logged_nil. }
  run_with E3. clear E3.
  subst w2 w1. rewrite !logged_app.
  destruct (rw_unlock_fragments r) as [l|]; [|reflexivity].
  run_with (get_user_state_run u
              (logged (match rw_points r with
                       | Some pts => if (0 <? pts)%Z then [EvGivePoints u pts] else []
                       | None => []
                       end ++
                       match rw_achievements r with
                       | Some l => map (EvAward u) l
                       | None => []
                       end ++
                       match rw_lore_pieces r with
                       | Some l => map (EvUnlockLore u) l
                       | None => []
                       end) w)).
  rewrite lookup_state_logged.
  destruct (lookup_state w u) as [s|] eqn:Hs; [|reflexivity].
  unfold setattr. rewrite lookup_state_logged, Hs. reflexivity.
Qed.

(** X11. [_process_fragment_rewards] always returns; its calls are the
    points grant, then the achievements, then the lore pieces, in the order
    listed; points are granted only when strictly positive; it commits
    nothing, adds no decision, touches no other user, and changes of the
    user's state at most the story flags (and nothing when the user has no
    state). *)
Theorem fragment_rewards_calls u fr w :
  exists w',
    _process_fragment_rewards mark_discovered u fr w = (w', Ret tt) /\
    new_calls w w'
    = match frag_rewards fr with Some r => rewards_calls u r | None => [] end /\
    (forall v p, EvGivePoints v p ∈ new_calls w w' ->
       v = u /\ 0 < p /\ exists r, frag_rewards fr = Some r /\ rw_points r = Some p) /\
    db_states w' = db_states w /\
    all_decisions w' = all_decisions w /\
    (forall v, v <> u -> lookup_state w' v = lookup_state w v) /\
    (lookup_state w u = None -> objects w' = objects w) /\
    (forall s, lookup_state w u = Some s ->
       exists s', lookup_state w' u = Some s' /\ same_core s s' /\
                  relationship_scores s' = relationship_scores s).
Proof.
  eexists. split; [apply process_fragment_rewards_world|].
  assert (Hc : new_calls w
      match frag_rewards fr with
      | None => w
      | Some r =>
        match rw_unlock_fragments r, lookup_state w u with
        | Some l, Some s =>
          with_objects
            (<[u := set_story_flags (mark_discovered l (story_flags s)) s]>
               (objects w))
            (logged (rewards_calls u r) w)
        | _, _ => logged (rewards_calls u r) w
        end
      end
      = match frag_rewards fr with Some r => rewards_calls u r | None => [] end).
  { unfold new_calls.
    destruct (frag_rewards fr) as [r|]; [|apply drop_all].
    destruct (rw_unlock_fragments r), (lookup_state w u); wsimpl;
      unfold logged; wsimpl; apply drop_app_length. }
  split; [exact Hc|]. rewrite Hc. clear Hc.
  destruct (frag_rewards fr) as [r|]; cycle 1.
  { split; [intros v p H; now apply elem_of_nil in H|].
    split; [reflexivity|]. split; [reflexivity|]. split; [reflexivity|].
    split; [reflexivity|].
    intros s Hs. exists s. split; [exact Hs|]. split; [apply same_core_refl | reflexivity]. }
  split.
  { intros v p H. destruct (rewards_calls_points u r v p H) as (-> & Hp & Hr).
    split; [reflexivity|]. split; [exact Hp|]. exists r. auto. }
  destruct (rw_unlock_fragments r) as [l|], (lookup_state w u) as [s|] eqn:Hs;
    (split; [reflexivity|]); (split; [reflexivity|]).
  - split.
    { intros v Hv. unfold lookup_state. wsimpl. now rewrite lookup_insert_ne by congruence. }
    split; [discriminate|].
    intros s0 [= <-]. eexists. split.
    { unfold lookup_state. wsimpl. now rewrite lookup_insert_eq. }
    split; [apply same_core_flags | reflexivity].
  - split; [reflexivity|]. split; [reflexivity|]. discriminate.
  - split; [reflexivity|]. split; [discriminate|].
    intros s0 [= <-]. exists s. split; [exact Hs|].
    split; [apply same_core_refl | reflexivity].
  - split; [reflexivity|]. split; [reflexivity|]. discriminate.
Qed.

End FurtherFacts.

(** ** The state a successful operation commits; achievements; statistics *)

Section SuccessFacts.

Variable sm : StoryManager.
Variable NARRATIVE_POINTS : string -> Z.
Variable mark_discovered : list string -> gmap string FlagVal -> gmap string FlagVal.

Lemma process_fragment_rewards_state u fragment s si ds evs w wi :
  touched u s si ds evs w wi ->
  exists wi',
    touched u s (rewards_state mark_discovered fragment si) ds
      (evs ++ match frag_rewards fragment with
              | Some r => rewards_calls u r
              | None => []
              end) w wi' /\
    _process_fragment_rewards mark_discovered u fragment wi = (wi', Ret tt).
Proof.
  intros T. unfold _process_fragment_rewards, rewards_state.
  destruct (frag_rewards fragment) as [r|]; cycle 1.
  { exists wi. rewrite app_nil_r. split; [assumption | reflexivity]. }
  unfold rewards_calls, _give_narrative_points, _check_and_award_achievement, _unlock_lore_piece.
  assert (exists w1, touched u s si ds
      (evs ++ match rw_points r with
              | Some pts => if (0 <? pts)%Z then [EvGivePoints u pts] else []
              | None => []
              end) w w1 /\
      match rw_points r with
      | Some pts => if (0 <? pts)%Z then call (EvGivePoints u pts) else mret tt
      | None => mret tt
      end wi = (w1, Ret tt)) as (w1 & T1 & E1).
  { destruct (rw_points r) as [pts|]; [destruct (0 <? pts)%Z|].
    - destruct (step_call T (EvGivePoints u pts)) as (w1 & T1 & E1). eauto.
    - exists wi. rewrite app_nil_r. split; [assumption | reflexivity].
    - exists wi. rewrite app_nil_r. split; [assumption | reflexivity]. }
  run_with E1. clear E1 T.
  assert (exists w2, touched u s si ds
      ((evs ++ match rw_points r with
              | Some pts => if (0 <? pts)%Z then [EvGivePoints u pts] else []
              | None => []
              end) ++ match rw_achievements r with
                      | Some l => map (EvAward u) l
                      | None => []
                      end) w w2 /\
      match rw_achievements r with
      | Some achievements =>
        for_each achievements (fun achievement_id => call (EvAward u achievement_id))
      | None => mret tt
      end w1 = (w2, Ret tt)) as (w2 & T2 & E2).
  { destruct (rw_achievements r) as [l|].
    - apply (for_each_call u (EvAward u) l _ _ _ _ _ _ T1).
    - exists w1. rewrite app_nil_r. split; [assumption | reflexivity]. }
  run_with E2. clear E2 T1.
  assert (exists w3, touched u s si ds
      (((evs ++ match rw_points r with
              | Some pts => if (0 <? pts)%Z then [EvGivePoints u pts] else []
              | None => []
              end) ++ match rw_achievements r with
                      | Some l => map (EvAward u) l
                      | None => []
                      end) ++ match rw_lore_pieces r with
                              | Some l => map (EvUnlockLore u) l
                              | None => []
                              end) w w3 /\
      match rw_lore_pieces r with
      | Some lore_pieces =>
        for_each lore_pieces (fun lore_code => call (EvUnlockLore u lore_code))
      | None => mret tt
      end w2 = (w3, Ret tt)) as (w3 & T3 & E3).
  { destruct (rw_lore_pieces r) as [l|].
    - apply (for_each_call u (EvUnlockLore u) l _ _ _ _ _ _ T2).
    - exists w2. rewrite app_nil_r. split; [assumption | reflexivity]. }
  run_with E3. clear E3 T2.
  rewrite <- !app_assoc in T3.
  destruct (rw_unlock_fragments r) as [l|].
  - read_by @step_get_user_state T3.
    apply (step_setattr T3
      (fun s0 => set_story_flags (mark_discovered l (story_flags s0)) s0)).
  - exists w3. split; [assumption | reflexivity].
Qed.

(** The three writes that move the cursor. *)
Lemma moved_state_run {A} u next s si ds evs w wi (k : M A) :
  touched u s si ds evs w wi ->
  exists wi',
    touched u s (moved_state next si) ds evs w wi' /\
    (setattr u (set_current_fragment_id (Some (frag_id next)));;
     setattr u (set_current_chapter (frag_chapter next));;
     setattr u (fun s =>
       if bool_decide (frag_id next ∈ fragments_visited s) then s
       else set_fragments_visited (fragments_visited s ++ [frag_id next]) s);;
     k) wi = k wi'.
Proof.
  intros T.
  step_by @step_setattr T.
  step_by @step_setattr T.
  step_by @step_setattr T.
  exists wi2. split; [exact T | reflexivity].
Qed.

(** The rewards of the target and the completion percent. *)
Lemma settled_state_run {A} u next s si ds evs w wi (k : M A) :
  touched u s si ds evs w wi ->
  exists wi',
    touched u s (settled_state sm mark_discovered next si) ds
      (evs ++ match frag_rewards next with
              | Some r => rewards_calls u r
              | None => []
              end) w wi' /\
    (match frag_rewards next with
     | Some _ => _process_fragment_rewards mark_discovered u next
     | None => mret tt
     end;;
     setattr u (fun s =>
       set_story_completion_percent
         (calculate_completion_percent sm (active_story s) (fragments_visited s)) s);;
     k) wi = k wi'.
Proof.
  intros T.
  assert (exists w1, touched u s (rewards_state mark_discovered next si) ds
      (evs ++ match frag_rewards next with
              | Some r => rewards_calls u r
              | None => []
              end) w w1 /\
      match frag_rewards next with
      | Some _ => _process_fragment_rewards mark_discovered u next
      | None => mret tt
      end wi = (w1, Ret tt)) as (w1 & T1 & E1).
  { destruct (process_fragment_rewards_state u next _ _ _ _ _ _ T) as (w1 & T1 & E1).
    unfold rewards_state in *.
    destruct (frag_rewards next) as [r|] eqn:Hr.
    - exists w1. split; [exact T1 | exact E1].
    - exists wi. rewrite app_nil_r. split; [exact T | reflexivity]. }
  run_with E1. clear E1 T.
  step_by @step_setattr T1.
  exists wi0. split; [exact T1 | reflexivity].
Qed.

(** [make_choice], with the state and the record it commits. *)
Lemma make_choice_outcome u cid w :
  (exists msg, make_choice sm NARRATIVE_POINTS mark_discovered u cid w
               = (w, Ret (false, msg, None))) \/
  (exists s cur choice next missing w1,
     lookup_state w u = Some s /\
     get_fragment sm (active_story s) (current_fragment_id s) = Some cur /\
     validate_choice sm (active_story s) (current_fragment_id s) cid = Some choice /\
     check_requirements sm (default [] (ch_requirements choice)) (user_data_of w u)
     = (true, missing) /\
     get_fragment sm (active_story s) (Some (ch_next_fragment choice)) = Some next /\
     touched u s
       (settled_state sm mark_discovered next (counted_state choice next (clock w) s))
       [choice_record u cid s cur choice]
       (choice_calls u choice next (counted_state choice next (clock w) s)) w w1 /\
     make_choice sm NARRATIVE_POINTS mark_discovered u cid w
     = (finish [EvFragmentVisit (frag_id next);
                EvChoiceMetric (Some (frag_id next)) cid;
                EvGivePoints u (NARRATIVE_POINTS "decision_made")] w1,
        Ret (true, "Decisión registrada", Some next))).
Proof.
  unfold make_choice.
  run_with (get_user_state_run u w).
  destruct (lookup_state w u) as [s|] eqn:Hs; [|left; eauto].
  destruct (get_fragment sm (active_story s) (current_fragment_id s)) as [cur|] eqn:Hcur;
    [|left; eauto].
  destruct (validate_choice sm (active_story s) (current_fragment_id s) cid)
    as [choice|] eqn:Hch; [|left; eauto].
  run_with (session_get_user_run u w).
  run_with (user_data_run u w).
  destruct (check_requirements sm _ _) as [can missing] eqn:Hreq.
  destruct can; cbn [negb]; [|left; eauto].
  destruct (get_fragment sm (active_story s) (Some (ch_next_fragment choice)))
    as [next|] eqn:Hnext; [|left; eauto].
  right.
  pose proof (touched_refl u s w Hs) as T.
  set (d0 := {| dec_user_id := u; dec_fragment_id := current_fragment_id s;
                dec_choice_id := cid; dec_choice_text := ch_text choice;
                dec_chapter := frag_chapter cur; dec_points_gained := 0;
                dec_items_gained := [] |}).
  assert (exists w1, touched u s
      (match ch_effects choice with Some e => effects_state e s | None => s end) []
      (match ch_effects choice with Some e => effects_calls u e | None => [] end) w w1 /\
      match ch_effects choice with
      | Some effects => _apply_choice_effects u effects d0
      | None => mret d0
      end w = (w1, Ret (choice_record u cid s cur choice))) as (w1 & T1 & E1).
  { unfold choice_record. fold d0. destruct (ch_effects choice) as [e|].
    - apply (apply_choice_effects_state u e d0 _ _ _ _ _ _ T).
    - exists w. split; [exact T | reflexivity]. }
  run_with E1. clear E1 T.
  step_by @step_add_decision T1.
  destruct (moved_state_run u next _ _ _ _ _ _
    (setattr u (fun s => set_total_decisions_made (total_decisions_made s + 1) s);;
     now ← utcnow;
     setattr u (set_last_interaction_at now);;
     (if String.eqb (frag_type next) "checkpoint"
      then _create_checkpoint u
      else mret tt);;
     match frag_rewards next with
     | Some _ => _process_fragment_rewards mark_discovered u next
     | None => mret tt
     end;;
     setattr u (fun s =>
       set_story_completion_percent
         (calculate_completion_percent sm (active_story s) (fragments_visited s)) s);;
     commit;;
     _record_fragment_visit (frag_id next);;
     current ← getattr u current_fragment_id;
     _record_choice_metric current cid;;
     _give_narrative_points u (NARRATIVE_POINTS "decision_made");;
     mret (true, "Decisión registrada", Some next)) T1) as (w2 & T2 & ->).
  clear T1.
  step_by @step_setattr T2.
  read_by @step_utcnow T2.
  step_by @step_setattr T2.
  change (touched u s (counted_state choice next (clock w) s) ([] ++ [choice_record u cid s cur choice])
            (match ch_effects choice with Some e => effects_calls u e | None => [] end) w wi1) in T2.
  set (s2 := counted_state choice next (clock w) s) in *.
  assert (exists w5, touched u s s2 ([] ++ [choice_record u cid s cur choice])
      (match ch_effects choice with Some e => effects_calls u e | None => [] end ++
       (if String.eqb (frag_type next) "checkpoint" then [EvCheckpoint u s2] else [])) w w5 /\
      (if String.eqb (frag_type next) "checkpoint"
       then _create_checkpoint u else mret tt) wi1 = (w5, Ret tt)) as (w5 & T5 & E5).
  { destruct (String.eqb (frag_type next) "checkpoint").
    - unfold _create_checkpoint. rewrite (bind_run _ _ _ _ _ (step_getattr T2 _)).
      destruct (step_call T2 (EvCheckpoint u s2)) as (w5 & T5 & E5). eauto.
    - exists wi1. rewrite app_nil_r. split; [assumption | reflexivity]. }
  run_with E5. clear E5 T2.
  destruct (settled_state_run u next _ _ _ _ _ _
    (commit;;
     _record_fragment_visit (frag_id next);;
     current ← getattr u current_fragment_id;
     _record_choice_metric current cid;;
     _give_narrative_points u (NARRATIVE_POINTS "decision_made");;
     mret (true, "Decisión registrada", Some next)) T5) as (w6 & T6 & ->).
  clear T5.
  rewrite <- app_assoc in T6. fold (choice_calls u choice next s2) in T6.
  assert (Hc : current_fragment_id (settled_state sm mark_discovered next s2)
               = Some (frag_id next)).
  { subst s2. unfold settled_state, rewards_state, counted_state, moved_state.
    destruct (frag_rewards next) as [r|]; [destruct (rw_unlock_fragments r)|];
      cbn; destruct (bool_decide _); reflexivity. }
  run_with (commit_finish w6).
  unfold _record_fragment_visit, _record_choice_metric, _give_narrative_points.
  run_with (call_finish [] (EvFragmentVisit (frag_id next)) w6).
  rewrite (bind_run _ _ _ _ _
    (getattr_finish _ _ _ _ current_fragment_id (t_after _ _ _ _ _ _ _ T6))).
  rewrite Hc.
  run_with (call_finish ([] ++ [EvFragmentVisit (frag_id next)])
              (EvChoiceMetric (Some (frag_id next)) cid) w6).
  run_with (call_finish (([] ++ [EvFragmentVisit (frag_id next)]) ++
                         [EvChoiceMetric (Some (frag_id next)) cid])
              (EvGivePoints u (NARRATIVE_POINTS "decision_made")) w6).
  exists s, cur, choice, next, missing, w6.
  split; [reflexivity|]. do 4 (split; [assumption|]).
  split; [exact T6 | reflexivity].
Qed.

(** [navigate_next], with the state it commits. *)
Lemma navigate_next_outcome u w :
  (exists msg, navigate_next sm NARRATIVE_POINTS mark_discovered u w
               = (w, Ret (false, msg, None))) \/
  (exists s cur next missing w1,
     lookup_state w u = Some s /\
     get_fragment sm (active_story s) (current_fragment_id s) = Some cur /\
     truthy_str (frag_next_fragment cur) = true /\
     get_fragment sm (active_story s) (frag_next_fragment cur) = Some next /\
     check_requirements sm (default [] (frag_requirements next)) (user_data_of w u)
     = (true, missing) /\
     touched u s
       (settled_state sm mark_discovered next
          (set_last_interaction_at (clock w) (moved_state next s))) []
       (match frag_rewards next with Some r => rewards_calls u r | None => [] end) w w1 /\
     navigate_next sm NARRATIVE_POINTS mark_discovered u w
     = (finish [EvFragmentVisit (frag_id next);
                EvGivePoints u (NARRATIVE_POINTS "fragment_read")] w1,
        Ret (true, "Continuando historia", Some next))).
Proof.
  unfold navigate_next.
  run_with (get_user_state_run u w).
  destruct (lookup_state w u) as [s|] eqn:Hs; [|left; eauto].
  destruct (get_fragment sm (active_story s) (current_fragment_id s)) as [cur|] eqn:Hcur;
    [|left; eauto].
  destruct (truthy_str (frag_next_fragment cur)) eqn:Htr; cbn [negb]; [|left; eauto].
  destruct (get_fragment sm (active_story s) (frag_next_fragment cur))
    as [next|] eqn:Hnext; [|left; eauto].
  run_with (user_data_run u w).
  destruct (check_requirements sm _ _) as [can missing] eqn:Hreq.
  destruct can; cbn [negb]; [|left; eauto].
  right.
  pose proof (touched_refl u s w Hs) as T.
  destruct (moved_state_run u next _ _ _ _ _ _
    (now ← utcnow;
     setattr u (set_last_interaction_at now);;
     match frag_rewards next with
     | Some _ => _process_fragment_rewards mark_discovered u next
     | None => mret tt
     end;;
     setattr u (fun s =>
       set_story_completion_percent
         (calculate_completion_percent sm (active_story s) (fragments_visited s)) s);;
     commit;;
     _record_fragment_visit (frag_id next);;
     _give_narrative_points u (NARRATIVE_POINTS "fragment_read");;
     mret (true, "Continuando historia", Some next)) T) as (w2 & T2 & ->).
  clear T.
  read_by @step_utcnow T2.
  step_by @step_setattr T2.
  destruct (settled_state_run u next _ _ _ _ _ _
    (commit;;
     _record_fragment_visit (frag_id next);;
     _give_narrative_points u (NARRATIVE_POINTS "fragment_read");;
     mret (true, "Continuando historia", Some next)) T2) as (w6 & T6 & ->).
  clear T2.
  run_with (commit_finish w6).
  unfold _record_fragment_visit, _give_narrative_points.
  run_with (call_finish [] (EvFragmentVisit (frag_id next)) w6).
  run_with (call_finish ([] ++ [EvFragmentVisit (frag_id next)])
              (EvGivePoints u (NARRATIVE_POINTS "fragment_read")) w6).
  exists s, cur, next, missing, w6.
  split; [reflexivity|]. do 4 (split; [assumption|]).
  split; [exact T6 | reflexivity].
Qed.

(** [start_story], with the state it commits. *)
Lemma start_story_outcome u sid w :
  (exists w', start_story sm NARRATIVE_POINTS u sid w = (w', Raise AttributeError)) \/
  (exists w' msg, start_story sm NARRATIVE_POINTS u sid w = (w', Ret (false, msg, None))) \/
  (exists story f w1,
     get_story sm sid = Some story /\
     get_starting_fragment sm sid = Some f /\
     (requires_vip story = true ->
      exists x, users w !! u = Some x /\ role x = "vip") /\
     touched u (default (new_state u (clock w)) (lookup_state w u))
       (start_state sid f (default (new_state u (clock w)) (lookup_state w u))) [] []
       (prepared u w) w1 /\
     start_story sm NARRATIVE_POINTS u sid w
     = (finish [EvFragmentVisit (frag_id f);
                EvGivePoints u (NARRATIVE_POINTS "fragment_read")] w1,
        Ret (true, "Historia '" +:+ title story +:+ "' iniciada", Some f))).
Proof.
  unfold start_story.
  destruct (get_story sm sid) as [story|] eqn:Hstory; [|right; left; eauto].
  run_with (get_user_state_run u w).
  assert (E0 : (match lookup_state w u with
                | None => _ ← initialize_user_narrative u; mret tt
                | Some _ => mret tt
                end) w = (prepared u w, Ret tt)).
  { unfold prepared. destruct (lookup_state w u); [reflexivity|].
    now run_with (initialize_run u w). }
  run_with E0. clear E0.
  pose proof (lookup_state_prepared u w) as Hs0.
  set (s0 := default (new_state u (clock w)) (lookup_state w u)) in *.
  assert (Hcont :
    (exists msg, match get_starting_fragment sm sid with
      | None => mret (false, "Error al cargar la historia", None)
      | Some starting_fragment =>
        setattr u (set_active_story (Some sid));;
        setattr u (set_current_fragment_id (Some (frag_id starting_fragment)));;
        setattr u (set_current_chapter (frag_chapter starting_fragment));;
        setattr u (set_fragments_visited [frag_id starting_fragment]);;
        setattr u (set_story_completion_percent 0%Q);;
        (if String.eqb sid "vip"
         then setattr u (set_vip_story_unlocked true)
         else mret tt);;
        commit;;
        _record_fragment_visit (frag_id starting_fragment);;
        _give_narrative_points u (NARRATIVE_POINTS "fragment_read");;
        mret (true, "Historia '" +:+ title story +:+ "' iniciada", Some starting_fragment)
      end (prepared u w) = (prepared u w, Ret (false, msg, None))) \/
    (exists f w1,
      get_starting_fragment sm sid = Some f /\
      touched u s0 (start_state sid f s0) [] [] (prepared u w) w1 /\
      match get_starting_fragment sm sid with
      | None => mret (false, "Error al cargar la historia", None)
      | Some starting_fragment =>
        setattr u (set_active_story (Some sid));;
        setattr u (set_current_fragment_id (Some (frag_id starting_fragment)));;
        setattr u (set_current_chapter (frag_chapter starting_fragment));;
        setattr u (set_fragments_visited [frag_id starting_fragment]);;
        setattr u (set_story_completion_percent 0%Q);;
        (if String.eqb sid "vip"
         then setattr u (set_vip_story_unlocked true)
         else mret tt);;
        commit;;
        _record_fragment_visit (frag_id starting_fragment);;
        _give_narrative_points u (NARRATIVE_POINTS "fragment_read");;
        mret (true, "Historia '" +:+ title story +:+ "' iniciada", Some starting_fragment)
      end (prepared u w)
      = (finish [EvFragmentVisit (frag_id f);
                 EvGivePoints u (NARRATIVE_POINTS "fragment_read")] w1,
         Ret (true, "Historia '" +:+ title story +:+ "' iniciada", Some f)))).
  { destruct (get_starting_fragment sm sid) as [f|] eqn:Hf; [|left; eauto].
    right.
    pose proof (touched_refl u s0 (prepared u w) Hs0) as T.
    step_by @step_setattr T.
    step_by @step_setattr T.
    step_by @step_setattr T.
    step_by @step_setattr T.
    step_by @step_setattr T.
    assert (exists w6, touched u s0 (start_state sid f s0) [] [] (prepared u w) w6 /\
        (if String.eqb sid "vip"
         then setattr u (set_vip_story_unlocked true)
         else mret tt) wi3 = (w6, Ret tt)) as (w6 & T6 & E6).
    { unfold start_state. destruct (String.eqb sid "vip").
      - apply (step_setattr T (set_vip_story_unlocked true)).
      - exists wi3. split; [exact T | reflexivity]. }
    run_with E6. clear E6 T.
    run_with (commit_finish w6).
    unfold _record_fragment_visit, _give_narrative_points.
    run_with (call_finish [] (EvFragmentVisit (frag_id f)) w6).
    run_with (call_finish ([] ++ [EvFragmentVisit (frag_id f)])
                (EvGivePoints u (NARRATIVE_POINTS "fragment_read")) w6).
    exists f, w6. split; [reflexivity|]. split; [exact T6 | reflexivity]. }
  cbv zeta.
  assert (Hu : users (prepared u w) = users w).
  { unfold prepared. now destruct (lookup_state w u). }
  destruct (requires_vip story) eqn:Hvip.
  - run_with (session_get_user_run u (prepared u w)).
    rewrite Hu.
    destruct (users w !! u) as [usr|] eqn:Husr; [|left; eauto].
    destruct (String.eqb_spec (role usr) "vip") as [Hrole|Hrole]; cbn [negb];
      [|right; left; eauto].
    destruct Hcont as [(msg & E)|(f & w1 & Hf & T & E)]; [right; left; eauto|].
    right; right. exists story, f, w1.
    split; [reflexivity|]. split; [exact Hf|]. split; [eauto|]. split; [exact T | exact E].
  - destruct Hcont as [(msg & E)|(f & w1 & Hf & T & E)]; [right; left; eauto|].
    right; right. exists story, f, w1.
    split; [reflexivity|]. split; [exact Hf|]. split; [intros ?; congruence|].
    split; [exact T | exact E].
Qed.

Lemma all_decisions_prepared u w : all_decisions (prepared u w) = all_decisions w.
Proof.
  unfold prepared. destruct (lookup_state w u); [reflexivity|].
  unfold all_decisions. wsimpl. apply app_nil_r.
Qed.

(** X12. A successful [start_story] implies that the story exists, that
    the fragment returned is its starting fragment and, for a VIP story,
    that the user has a [User] row with role ["vip"].  The committed state
    is on that fragment, with its chapter, a history of that fragment alone
    and completion 0; the decision counter, the relationship scores, the
    story flags and both time stamps are those of the state before (of the
    fresh state, for a new user); [vip_story_unlocked] is set when the story
    id is ["vip"] and is never cleared; no decision is added. *)
Theorem start_story_success_state u sid w w' m fr :
  start_story sm NARRATIVE_POINTS u sid w = (w', Ret (true, m, fr)) ->
  exists story f s0 s',
    get_story sm sid = Some story /\
    get_starting_fragment sm sid = Some f /\
    fr = Some f /\
    m = "Historia '" +:+ title story +:+ "' iniciada" /\
    (requires_vip story = true -> exists x, users w !! u = Some x /\ role x = "vip") /\
    s0 = default (new_state u (clock w)) (lookup_state w u) /\
    db_states w' !! u = Some s' /\
    lookup_state w' u = Some s' /\
    active_story s' = Some sid /\
    current_fragment_id s' = Some (frag_id f) /\
    current_chapter s' = frag_chapter f /\
    fragments_visited s' = [frag_id f] /\
    story_completion_percent s' = 0%Q /\
    total_decisions_made s' = total_decisions_made s0 /\
    relationship_scores s' = relationship_scores s0 /\
    story_flags s' = story_flags s0 /\
    started_at s' = started_at s0 /\
    last_interaction_at s' = last_interaction_at s0 /\
    vip_story_unlocked s' = (String.eqb sid "vip" || vip_story_unlocked s0) /\
    all_decisions w' = all_decisions w.
Proof.
  intros H.
  destruct (start_story_outcome u sid w)
    as [(w1 & E)|[(w1 & msg & E)|(story & f & w1 & Hst & Hf & Hv & T & E)]];
    rewrite E in H; try discriminate.
  injection H as <- <- <-.
  destruct (touched_committed _ _ _ _ _ _ _
              [EvFragmentVisit (frag_id f);
               EvGivePoints u (NARRATIVE_POINTS "fragment_read")] T) as [Hdb Hlk].
  exists story, f, (default (new_state u (clock w)) (lookup_state w u)),
    (start_state sid f (default (new_state u (clock w)) (lookup_state w u))).
  do 5 (split; [auto|]). split; [reflexivity|].
  split; [exact Hdb|]. split; [exact Hlk|].
  split; [|split; [|split; [|split; [|split; [|split; [|split; [|split; [|split;
    [|split; [|split]]]]]]]]]].
  1-11: unfold start_state; destruct (String.eqb sid "vip"); reflexivity.
  rewrite (touched_all_decisions _ _ _ _ _ _ _ _ T), app_nil_r.
  apply all_decisions_prepared.
Qed.

Lemma effects_or_core choice s :
  same_core s (match ch_effects choice with Some e => effects_state e s | None => s end).
Proof. destruct (ch_effects choice); [apply effects_state_core | apply same_core_refl]. Qed.

(** X13. A successful [make_choice] implies that the choice is one the
    catalogue validates on the current fragment, that its requirements were
    checked and met on the user data read at the start, and that the
    fragment returned is the target of the choice.  The committed state
    keeps the story, the start time and the VIP flag, has the chapter of the
    target, the time of the call as last interaction, the relationship
    scores the effects of the choice give, the flags of the effects and then
    of the target's rewards, and the completion percent the catalogue
    computes for the new history. *)
Theorem make_choice_success_state u cid w w' m fr :
  make_choice sm NARRATIVE_POINTS mark_discovered u cid w = (w', Ret (true, m, fr)) ->
  exists s cur choice next missing s1 s',
    lookup_state w u = Some s /\
    get_fragment sm (active_story s) (current_fragment_id s) = Some cur /\
    validate_choice sm (active_story s) (current_fragment_id s) cid = Some choice /\
    check_requirements sm (default [] (ch_requirements choice)) (user_data_of w u)
    = (true, missing) /\
    get_fragment sm (active_story s) (Some (ch_next_fragment choice)) = Some next /\
    fr = Some next /\
    s1 = match ch_effects choice with Some e => effects_state e s | None => s end /\
    db_states w' !! u = Some s' /\
    lookup_state w' u = Some s' /\
    active_story s' = active_story s /\
    current_chapter s' = frag_chapter next /\
    story_completion_percent s'
    = calculate_completion_percent sm (active_story s)
        (visit (frag_id next) (fragments_visited s)) /\
    relationship_scores s' = relationship_scores s1 /\
    story_flags s'
    = match frag_rewards next with
      | Some r =>
        match rw_unlock_fragments r with
        | Some l => mark_discovered l (story_flags s1)
        | None => story_flags s1
        end
      | None => story_flags s1
      end /\
    started_at s' = started_at s /\
    last_interaction_at s' = clock w /\
    vip_story_unlocked s' = vip_story_unlocked s.
Proof.
  intros H.
  destruct (make_choice_outcome u cid w)
    as [(msg' & E)|(s & cur & ch & next & missing & w1 & Hs & Hcur & Hch & Hreq & Hnext & T & E)];
    rewrite E in H; [discriminate|].
  injection H as <- _ <-.
  destruct (touched_committed _ _ _ _ _ _ _
              [EvFragmentVisit (frag_id next);
               EvChoiceMetric (Some (frag_id next)) cid;
               EvGivePoints u (NARRATIVE_POINTS "decision_made")] T) as [Hdb Hlk].
  eexists s, cur, ch, next, missing, _, _.
  do 6 (split; [eauto|]). split; [reflexivity|].
  split; [exact Hdb|]. split; [exact Hlk|].
  unfold settled_state, rewards_state, counted_state, moved_state, visit.
  destruct (effects_or_core ch s) as (fl & rs & ->).
  destruct (frag_rewards next) as [r|]; [destruct (rw_unlock_fragments r)|];
    cbn; destruct (bool_decide _); cbn; repeat split; reflexivity.
Qed.

(** X14. The record a successful [make_choice] commits is appended to the
    decisions; it carries the user, the fragment the choice was made on and
    the chapter of that fragment (not of the target), the id and the text of
    the choice, and the points and items of the effects of the choice (0 and
    no items when the choice has no effects or leaves them out). *)
Theorem make_choice_success_record u cid w w' m fr :
  make_choice sm NARRATIVE_POINTS mark_discovered u cid w = (w', Ret (true, m, fr)) ->
  exists s cur choice d,
    lookup_state w u = Some s /\
    get_fragment sm (active_story s) (current_fragment_id s) = Some cur /\
    validate_choice sm (active_story s) (current_fragment_id s) cid = Some choice /\
    db_decisions w' = all_decisions w ++ [d] /\
    dec_user_id d = u /\
    dec_fragment_id d = current_fragment_id s /\
    dec_choice_id d = cid /\
    dec_choice_text d = ch_text choice /\
    dec_chapter d = frag_chapter cur /\
    dec_points_gained d
    = default 0 (e ← ch_effects choice; eff_points e) /\
    dec_items_gained d
    = default [] (e ← ch_effects choice; eff_items e).
Proof.
  intros H.
  destruct (make_choice_outcome u cid w)
    as [(msg' & E)|(s & cur & ch & next & missing & w1 & Hs & Hcur & Hch & Hreq & Hnext & T & E)];
    rewrite E in H; [discriminate|].
  injection H as <- _ <-.
  exists s, cur, ch, (choice_record u cid s cur ch).
  do 3 (split; [assumption|]).
  split.
  { wsimpl. rewrite (t_db_decisions _ _ _ _ _ _ _ T), (t_pending _ _ _ _ _ _ _ T).
    now rewrite app_assoc. }
  unfold choice_record, effects_decision.
  destruct (ch_effects ch) as [e|]; cbn; [|repeat split; reflexivity].
  destruct (eff_items e), (eff_points e); cbn; repeat split; reflexivity.
Qed.

(** X15. A successful [navigate_next] implies that the current fragment
    has a next fragment, that the fragment returned is that one, and that
    its requirements were checked and met.  The committed state is on it,
    with its chapter, the history extended by it, the completion percent of
    the new history and the time of the call; the story, the decision
    counter, the relationship scores, the start time and the VIP flag are
    unchanged, and the flags change only by the rewards of the target. *)
Theorem navigate_next_success_state u w w' m fr :
  navigate_next sm NARRATIVE_POINTS mark_discovered u w = (w', Ret (true, m, fr)) ->
  exists s cur next missing s',
    lookup_state w u = Some s /\
    get_fragment sm (active_story s) (current_fragment_id s) = Some cur /\
    truthy_str (frag_next_fragment cur) = true /\
    get_fragment sm (active_story s) (frag_next_fragment cur) = Some next /\
    check_requirements sm (default [] (frag_requirements next)) (user_data_of w u)
    = (true, missing) /\
    fr = Some next /\
    m = "Continuando historia" /\
    db_states w' !! u = Some s' /\
    lookup_state w' u = Some s' /\
    active_story s' = active_story s /\
    current_fragment_id s' = Some (frag_id next) /\
    current_chapter s' = frag_chapter next /\
    fragments_visited s' = visit (frag_id next) (fragments_visited s) /\
    story_completion_percent s'
    = calculate_completion_percent sm (active_story s)
        (visit (frag_id next) (fragments_visited s)) /\
    total_decisions_made s' = total_decisions_made s /\
    relationship_scores s' = relationship_scores s /\
    story_flags s'
    = match frag_rewards next with
      | Some r =>
        match rw_unlock_fragments r with
        | Some l => mark_discovered l (story_flags s)
        | None => story_flags s
        end
      | None => story_flags s
      end /\
    started_at s' = started_at s /\
    last_interaction_at s' = clock w /\
    vip_story_unlocked s' = vip_story_unlocked s.
Proof.
  intros H.
  destruct (navigate_next_outcome u w)
    as [(msg' & E)|(s & cur & next & missing & w1 & Hs & Hcur & Htr & Hnext & Hreq & T & E)];
    rewrite E in H; [discriminate|].
  injection H as <- <- <-.
  destruct (touched_committed _ _ _ _ _ _ _
              [EvFragmentVisit (frag_id next);
               EvGivePoints u (NARRATIVE_POINTS "fragment_read")] T) as [Hdb Hlk].
  eexists s, cur, next, missing, _.
  do 5 (split; [eauto|]). split; [reflexivity|]. split; [reflexivity|].
  split; [exact Hdb|]. split; [exact Hlk|].
  unfold settled_state, rewards_state, moved_state, visit.
  destruct (frag_rewards next) as [r|]; [destruct (rw_unlock_fragments r)|];
    cbn; destruct (bool_decide _); cbn; repeat split; reflexivity.
Qed.

End SuccessFacts.

Section AchievementFacts.

Variable Achievement : Type.
Variable award_answer : Z -> string -> World -> option Achievement.

Lemma awarded_run u id w :
  awarded Achievement award_answer u id w
  = (logged [EvAward u id] w, Ret (award_answer u id w)).
Proof. reflexivity. Qed.

Lemma getattr_logged {A} u (g : UserNarrativeState -> A) evs w s :
  lookup_state w u = Some s ->
  getattr u g (logged evs w) = (logged evs w, Ret (g s)).
Proof. intros H. unfold getattr. now rewrite lookup_state_logged, H. Qed.

(** One conditional award, run on a world whose log has grown by [evs]. *)
Lemma award_block_run {B} u id (c : bool) acc evs w (k : list Achievement -> M B) :
  ((if c then
      achievement ← awarded Achievement award_answer u id;
      mret (append_truthy achievement acc)
    else mret acc) ≫= k) (logged evs w)
  = k (if c then append_truthy (award_answer u id (logged evs w)) acc else acc)
      (logged (evs ++ if c then [EvAward u id] else []) w).
Proof.
  destruct c.
  - unfold mbind at 1. unfold M_bind. unfold mbind at 1. unfold M_bind.
    rewrite awarded_run. cbn. now rewrite logged_app.
  - now rewrite app_nil_r.
Qed.

Lemma answers_app u l1 l2 w :
  answers award_answer u (l1 ++ l2) w
  = answers award_answer u l1 w ++
    answers award_answer u l2 (logged (map (EvAward u) l1) w).
Proof.
  revert w. induction l1 as [|id l1 IH]; intros w; cbn [answers app map].
  - now rewrite logged_nil.
  - rewrite IH, logged_app. cbn [app].
    now destruct (award_answer u id w).
Qed.

Lemma answers_length u l w : (length (answers award_answer u l w) <= length l)%nat.
Proof.
  revert w. induction l as [|id l IH]; intros w; cbn [answers length]; [lia|].
  specialize (IH (logged [EvAward u id] w)).
  destruct (award_answer u id w); cbn [length]; lia.
Qed.

Lemma answers_given u l : forall w a,
  a ∈ answers award_answer u l w ->
  exists id evs, id ∈ l /\ award_answer u id (logged evs w) = Some a.
Proof.
  induction l as [|id l IH]; intros w a Ha; cbn [answers] in Ha.
  - now apply elem_of_nil in Ha.
  - assert (Hrest : a ∈ answers award_answer u l (logged [EvAward u id] w) ->
                    exists id' evs, id' ∈ id :: l /\
                      award_answer u id' (logged evs w) = Some a).
    { intros H. destruct (IH _ _ H) as (id' & evs & Hin & Hans).
      exists id', ([EvAward u id] ++ evs). split; [now right|].
      now rewrite <- logged_app. }
    destruct (award_answer u id w) as [b|] eqn:Hb; [|auto].
    apply elem_of_cons in Ha as [->|Ha]; [|auto].
    exists id, []. split; [left|]. now rewrite logged_nil.
Qed.

Lemma answers_none u l : forall w,
  (forall id w', award_answer u id w' = None) -> answers award_answer u l w = [].
Proof.
  induction l as [|id l IH]; intros w H; cbn [answers]; [reflexivity|].
  rewrite H. now apply IH.
Qed.

Lemma check_achievements_run u w s :
  lookup_state w u = Some s ->
  check_achievements Achievement award_answer u w
  = (logged (map (EvAward u) (due_achievements s)) w,
     Ret (answers award_answer u (due_achievements s) w)).
Proof.
  intros Hs. unfold check_achievements.
  run_with (get_user_state_run u w). rewrite Hs.
  rewrite <- (logged_nil w) at 1.
  rewrite (bind_run _ _ _ _ _ (getattr_logged u total_decisions_made [] w s Hs)).
  rewrite award_block_run.
  rewrite (bind_run _ _ _ _ _ (getattr_logged u total_decisions_made _ w s Hs)).
  rewrite award_block_run.
  rewrite (bind_run _ _ _ _ _ (getattr_logged u story_completion_percent _ w s Hs)).
  rewrite award_block_run.
  rewrite (bind_run _ _ _ _ _ (getattr_logged u story_completion_percent _ w s Hs)).
  assert (E4 : forall acc evs (k : list Achievement -> M (list Achievement)),
    ((if Qle_bool 100 (story_completion_percent s) then
        story ← getattr u active_story;
        achievement ← awarded Achievement award_answer u ("narrative_complete_" +:+ py_str story);
        mret (append_truthy achievement acc)
      else mret acc) ≫= k) (logged evs w)
    = ((if Qle_bool 100 (story_completion_percent s) then
          achievement ← awarded Achievement award_answer u
                          ("narrative_complete_" +:+ py_str (active_story s));
          mret (append_truthy achievement acc)
        else mret acc) ≫= k) (logged evs w)).
  { intros acc evs k. destruct (Qle_bool 100 (story_completion_percent s)); [|reflexivity].
    unfold mbind at 1 3. unfold M_bind.
    now rewrite (bind_run _ _ _ _ _ (getattr_logged u active_story evs w s Hs)). }
  rewrite E4, award_block_run.
  rewrite (bind_run _ _ _ _ _ (getattr_logged u relationship_scores _ w s Hs)).
  rewrite award_block_run.
  unfold mret, M_ret. f_equal.
  - f_equal. unfold due_achievements. rewrite !map_app. cbn [app].
    rewrite <- !app_assoc.
    repeat match goal with |- context [if ?c then _ else _] => destruct c end;
      reflexivity.
  - f_equal. unfold due_achievements.
    destruct (10 <=? total_decisions_made s)%Z, (50 <=? total_decisions_made s)%Z,
      (Qle_bool 25 (story_completion_percent s)),
      (Qle_bool 100 (story_completion_percent s)),
      (50 <=? default 0 (relationship_scores s !! "lucien"))%Z;
      cbn [app answers append_truthy map];
      rewrite ?logged_nil, ?logged_app; cbn [app];
      repeat match goal with
             | |- context [award_answer ?a ?b ?c] => destruct (award_answer a b c)
             end; reflexivity.
Qed.

(** X16. [check_achievements] yields the empty list, without any call,
    for a user without state.  With a state it changes nothing but the log
    of calls: it asks the achievement collaborator once for each achievement
    that is due, in the fixed order, and for no other; it returns at most
    that many achievements, each one an answer of the collaborator to one
    of these requests, and none when the collaborator awards nothing.  An
    achievement is due exactly when its threshold is met: 10 and 50
    decisions, 25 and 100 percent, a score of 50 with lucien. *)
Theorem check_achievements_spec u w :
  (lookup_state w u = None ->
   check_achievements Achievement award_answer u w = (w, Ret [])) /\
  (forall s, lookup_state w u = Some s ->
     exists l,
       check_achievements Achievement award_answer u w
       = (logged (map (EvAward u) (due_achievements s)) w, Ret l) /\
       (length l <= length (due_achievements s) <= 5)%nat /\
       (forall a, a ∈ l ->
          exists id evs, id ∈ due_achievements s /\
            award_answer u id (logged evs w) = Some a) /\
       ((forall id w', award_answer u id w' = None) -> l = []) /\
       ("narrative_10_decisions" ∈ due_achievements s <-> 10 <= total_decisions_made s) /\
       ("narrative_50_decisions" ∈ due_achievements s <-> 50 <= total_decisions_made s) /\
       ("narrative_25_percent" ∈ due_achievements s
        <-> (25 <= story_completion_percent s)%Q) /\
       ("narrative_complete_" +:+ py_str (active_story s) ∈ due_achievements s
        <-> (100 <= story_completion_percent s)%Q) /\
       ("lucien_trusted" ∈ due_achievements s
        <-> 50 <= default 0 (relationship_scores s !! "lucien"))).
Proof.
  split.
  - intros Hn. unfold check_achievements.
    run_with (get_user_state_run u w). now rewrite Hn.
  - intros s Hs. exists (answers award_answer u (due_achievements s) w).
    split; [now apply check_achievements_run|].
    split.
    { split; [apply answers_length|].
      unfold due_achievements.
      repeat match goal with |- context [if ?c then _ else _] => destruct c end;
        cbn; lia. }
    split; [apply answers_given|].
    split; [apply answers_none|].
    unfold due_achievements.
    rewrite <- !Qle_bool_iff, <- !Z.leb_le.
    destruct (10 <=? total_decisions_made s)%Z, (50 <=? total_decisions_made s)%Z,
      (Qle_bool 25 (story_completion_percent s)),
      (Qle_bool 100 (story_completion_percent s)),
      (50 <=? default 0 (relationship_scores s !! "lucien"))%Z;
      cbn [app];
      repeat split; intros H; try reflexivity; try discriminate;
      try (repeat first [left | right; left | right]; fail);
      try (exfalso; repeat (apply elem_of_cons in H as [H|H]; [discriminate H|]);
           now apply elem_of_nil in H).
Qed.

End AchievementFacts.

Section StatisticsFacts.

Variable sm : StoryManager.
Variable NARRATIVE_POINTS : string -> Z.
Variable mark_discovered : list string -> gmap string FlagVal -> gmap string FlagVal.

Lemma get_user_stats_run u w s :
  lookup_state w u = Some s ->
  get_user_stats sm u w
  = (w, Ret (Started
      {| st_active_story := active_story s;
         st_current_chapter := current_chapter s;
         st_completion_percent := story_completion_percent s;
         st_total_fragments_visited := length (fragments_visited s);
         st_total_decisions := total_decisions_made s;
         st_total_points_earned := sum_points (decisions_of u w);
         st_unique_items_found := length (unique_items (decisions_of u w));
         st_endings_reached := endings_reached sm (active_story s) (fragments_visited s);
         st_relationship_scores := relationship_scores s;
         st_time_played := (inject_Z (clock w - started_at s) / 3600)%Q;
         st_last_played := last_interaction_at s |})).
Proof.
  intros Hs. unfold get_user_stats.
  run_with (get_user_state_run u w). now rewrite Hs.
Qed.

Lemma endings_reached_length story l :
  (length (endings_reached sm story l) <= length l)%nat.
Proof.
  unfold endings_reached. induction l as [|x l IH]; cbn; [lia|].
  destruct (get_fragment sm story (Some x)) as [f|]; [|lia].
  destruct (String.eqb (frag_type f) "ending"); cbn; lia.
Qed.

Lemma sum_points_app l1 l2 : sum_points (l1 ++ l2) = sum_points l1 + sum_points l2.
Proof.
  unfold sum_points. induction l1 as [|d l1 IH]; cbn; [lia|]. rewrite IH. lia.
Qed.

Lemma unique_items_grow l1 l2 :
  (length (unique_items l1) <= length (unique_items (l1 ++ l2)))%nat.
Proof.
  unfold unique_items. apply submseteq_length, NoDup_submseteq.
  - apply NoDup_remove_dups.
  - intros x. rewrite !elem_of_remove_dups, fmap_app, join_app, elem_of_app. auto.
Qed.

Lemma unique_items_bound l :
  (length (unique_items l) <= length (mjoin (dec_items_gained <$> l)))%nat.
Proof.
  unfold unique_items. apply submseteq_length, NoDup_submseteq.
  - apply NoDup_remove_dups.
  - intros x. now rewrite elem_of_remove_dups.
Qed.

(** X17. [get_user_stats] changes nothing.  Without state it yields the
    not-started message.  With a state, the points are summed over the
    decisions of this user and of no other; every item of these decisions is
    counted once; the endings reached are at most as many as the fragments
    visited, each one a visited fragment the catalogue gives the type
    ["ending"], with a non-empty title, and every such visited fragment is
    listed. *)
Theorem get_user_stats_spec u w :
  (get_user_stats sm u w).1 = w /\
  (lookup_state w u = None ->
   (get_user_stats sm u w).2 = Ret (NotStarted "Aún no has comenzado ninguna historia")) /\
  (forall s, lookup_state w u = Some s ->
     exists st,
       (get_user_stats sm u w).2 = Ret (Started st) /\
       st_total_fragments_visited st = length (fragments_visited s) /\
       st_total_decisions st = total_decisions_made s /\
       st_total_points_earned st = sum_points (decisions_of u w) /\
       (forall d, d ∈ decisions_of u w <-> d ∈ all_decisions w /\ dec_user_id d = u) /\
       (st_unique_items_found st
        <= length (mjoin (dec_items_gained <$> decisions_of u w)))%nat /\
       (forall item,
          item ∈ unique_items (decisions_of u w)
          <-> exists d, d ∈ decisions_of u w /\ item ∈ dec_items_gained d) /\
       st_unique_items_found st = length (unique_items (decisions_of u w)) /\
       NoDup (unique_items (decisions_of u w)) /\
       (length (st_endings_reached st) <= st_total_fragments_visited st)%nat /\
       (forall e, e ∈ st_endings_reached st ->
          end_title e <> "" /\
          exists fid f,
            fid ∈ fragments_visited s /\
            get_fragment sm (active_story s) (Some fid) = Some f /\
            frag_type f = "ending" /\
            end_chapter e = frag_chapter f) /\
       (forall fid f,
          fid ∈ fragments_visited s ->
          get_fragment sm (active_story s) (Some fid) = Some f ->
          frag_type f = "ending" ->
          exists e, e ∈ st_endings_reached st /\ end_chapter e = frag_chapter f)).
Proof.
  split; [|split].
  - unfold get_user_stats. run_with (get_user_state_run u w).
    now destruct (lookup_state w u).
  - intros Hn. unfold get_user_stats. run_with (get_user_state_run u w).
    now rewrite Hn.
  - intros s Hs. rewrite (get_user_stats_run u w s Hs). cbn [snd].
    eexists. split; [reflexivity|].
    cbn [st_total_fragments_visited st_total_decisions st_total_points_earned
         st_unique_items_found st_endings_reached].
    do 3 (split; [reflexivity|]).
    split. { intros d. unfold decisions_of. now rewrite list_elem_of_filter, (comm and). }
    split; [apply unique_items_bound|].
    split.
    { intros item. unfold unique_items. rewrite elem_of_remove_dups.
      rewrite list_elem_of_join. split.
      - intros (l & Hitem & Hl). apply list_elem_of_fmap in Hl as (d & -> & Hd). eauto.
      - intros (d & Hd & Hitem). exists (dec_items_gained d). split; [exact Hitem|].
        apply list_elem_of_fmap. eauto. }
    split; [reflexivity|].
    split; [apply NoDup_remove_dups|].
    split; [apply endings_reached_length|].
    split.
    + intros e He. unfold endings_reached in He.
      apply list_elem_of_omap in He as (fid & Hfid & Hx).
      destruct (get_fragment sm (active_story s) (Some fid)) as [f|] eqn:Hf; [|discriminate].
      destruct (String.eqb_spec (frag_type f) "ending") as [Ht|]; [|discriminate].
      injection Hx as <-. cbn [end_title end_chapter]. split.
      * unfold truthy_str. destruct (frag_title f) as [t|]; [|discriminate].
        destruct (String.eqb_spec t "") as [->|Hne]; cbn; [discriminate | exact Hne].
      * exists fid, f. auto.
    + intros fid f Hfid Hf Ht. eexists. split.
      * unfold endings_reached. apply list_elem_of_omap. exists fid. split; [exact Hfid|].
        rewrite Hf, Ht. reflexivity.
      * reflexivity.
Qed.

Lemma decisions_of_grow u w w' d :
  all_decisions w' = all_decisions w ++ [d] -> dec_user_id d = u ->
  decisions_of u w' = decisions_of u w ++ [d].
Proof.
  intros H Hd. unfold decisions_of. rewrite H, filter_app. f_equal.
  rewrite filter_cons_True by exact Hd. reflexivity.
Qed.

(** X18. Statistics before and after a successful [make_choice]: one more
    decision, the points of the effects of the choice more (and not the
    fixed grant nor the rewards of the target), no fewer items, the same or
    one more fragment visited, the same story, and the time of the choice as
    last played. *)
Theorem stats_after_choice u cid w w' m fr st :
  make_choice sm NARRATIVE_POINTS mark_discovered u cid w = (w', Ret (true, m, fr)) ->
  (get_user_stats sm u w).2 = Ret (Started st) ->
  exists s choice st',
    lookup_state w u = Some s /\
    validate_choice sm (active_story s) (current_fragment_id s) cid = Some choice /\
    (get_user_stats sm u w').2 = Ret (Started st') /\
    st_total_decisions st' = st_total_decisions st + 1 /\
    st_total_points_earned st'
    = st_total_points_earned st + default 0 (e ← ch_effects choice; eff_points e) /\
    (st_unique_items_found st <= st_unique_items_found st')%nat /\
    (st_total_fragments_visited st <= st_total_fragments_visited st'
     <= st_total_fragments_visited st + 1)%nat /\
    st_active_story st' = st_active_story st /\
    st_last_played st' = clock w.
Proof.
  intros H Hst.
  destruct (make_choice_outcome sm NARRATIVE_POINTS mark_discovered u cid w)
    as [(msg' & E)|(s & cur & ch & next & missing & w1 & Hs & Hcur & Hch & Hreq & Hnext & T & E)];
    rewrite E in H; [discriminate|].
  injection H as <- _ <-.
  rewrite (get_user_stats_run u w s Hs) in Hst. injection Hst as <-.
  destruct (touched_committed _ _ _ _ _ _ _
              [EvFragmentVisit (frag_id next);
               EvChoiceMetric (Some (frag_id next)) cid;
               EvGivePoints u (NARRATIVE_POINTS "decision_made")] T) as [_ Hlk].
  pose proof (touched_all_decisions _ _ _ _ _ _ _
              [EvFragmentVisit (frag_id next);
               EvChoiceMetric (Some (frag_id next)) cid;
               EvGivePoints u (NARRATIVE_POINTS "decision_made")] T) as Hall.
  assert (Hdu : dec_user_id (choice_record u cid s cur ch) = u).
  { unfold choice_record, effects_decision.
    destruct (ch_effects ch) as [e|]; [destruct (eff_items e), (eff_points e)|]; reflexivity. }
  pose proof (decisions_of_grow u _ _ _ Hall Hdu) as Hdec.
  rewrite (get_user_stats_run u _ _ Hlk). cbn [snd].
  exists s, ch. eexists. split; [exact Hs|]. split; [exact Hch|]. split; [reflexivity|].
  cbn [st_total_decisions st_total_points_earned st_unique_items_found
       st_total_fragments_visited st_active_story st_last_played].
  rewrite Hdec, sum_points_app.
  split; [|split; [|split; [apply unique_items_grow|]]].
  - unfold settled_state, rewards_state, counted_state, moved_state.
    destruct (effects_or_core ch s) as (fl & rs & ->).
    destruct (frag_rewards next) as [r|]; [destruct (rw_unlock_fragments r)|];
      cbn; destruct (bool_decide _); reflexivity.
  - f_equal. unfold sum_points, choice_record, effects_decision.
    destruct (ch_effects ch) as [e|]; cbn; [|reflexivity].
    destruct (eff_items e), (eff_points e); cbn; lia.
  - unfold settled_state, rewards_state, counted_state, moved_state.
    destruct (effects_or_core ch s) as (fl & rs & ->).
    destruct (frag_rewards next) as [r|]; [destruct (rw_unlock_fragments r)|];
      cbn; destruct (bool_decide _); cbn; rewrite ?length_app; cbn;
      (split; [lia|split; reflexivity]).
Qed.

Lemma granted_points_app u l1 l2 :
  granted_points u (l1 ++ l2) = granted_points u l1 + granted_points u l2.
Proof.
  induction l1 as [|e l1 IH]; cbn [granted_points app]; [lia|].
  destruct e; try exact IH. destruct (bool_decide _); lia.
Qed.

Lemma granted_points_award u v l : granted_points u (map (EvAward v) l) = 0.
Proof. induction l; cbn; auto. Qed.

Lemma granted_points_lore u v l : granted_points u (map (EvUnlockLore v) l) = 0.
Proof. induction l; cbn; auto. Qed.

Lemma granted_points_rewards u next :
  granted_points u (match frag_rewards next with
                    | Some r => rewards_calls u r
                    | None => []
                    end) = reward_points next.
Proof.
  unfold reward_points, rewards_calls.
  destruct (frag_rewards next) as [r|]; [|reflexivity].
  rewrite !granted_points_app.
  assert (Ha : granted_points u match rw_achievements r with
                                | Some l => map (EvAward u) l
                                | None => []
                                end = 0)
    by (destruct (rw_achievements r); [apply granted_points_award | reflexivity]).
  assert (Hl : granted_points u match rw_lore_pieces r with
                                | Some l => map (EvUnlockLore u) l
                                | None => []
                                end = 0)
    by (destruct (rw_lore_pieces r); [apply granted_points_lore | reflexivity]).
  rewrite Ha, Hl.
  destruct (rw_points r) as [p|]; [destruct (0 <? p)%Z|]; cbn;
    rewrite ?bool_decide_eq_true_2 by reflexivity; lia.
Qed.

Lemma new_calls_prepared u w :
  granted_points u (new_calls w (prepared u w)) = 0.
Proof.
  unfold prepared, new_calls. destruct (lookup_state w u).
  - now rewrite drop_all.
  - wsimpl. now rewrite drop_app_length.
Qed.

Lemma new_calls_trans w w1 w2 x y :
  calls w1 = calls w ++ x -> calls w2 = calls w1 ++ y ->
  new_calls w w2 = new_calls w w1 ++ new_calls w1 w2.
Proof.
  intros H1 H2. unfold new_calls.
  rewrite H2, drop_app_length, H1, <- app_assoc, !drop_app_length. reflexivity.
Qed.

Lemma calls_prepared u w : exists x, calls (prepared u w) = calls w ++ x.
Proof.
  unfold prepared. destruct (lookup_state w u).
  - exists []. now rewrite app_nil_r.
  - eexists. reflexivity.
Qed.

(** X19. The points a successful operation asks the points collaborator
    to grant to its user: [start_story] the fixed amount for a fragment read
    (the rewards of the starting fragment are not processed);
    [navigate_next] the reward points of the target, when positive, and the
    fixed amount for a fragment read; [make_choice] the points of the
    effects of the choice, the reward points of the target, when positive,
    and the fixed amount for a decision. *)
Theorem points_granted u w w' m fr :
  (forall sid,
     start_story sm NARRATIVE_POINTS u sid w = (w', Ret (true, m, fr)) ->
     granted_points u (new_calls w w') = NARRATIVE_POINTS "fragment_read") /\
  (forall next,
     navigate_next sm NARRATIVE_POINTS mark_discovered u w = (w', Ret (true, m, Some next)) ->
     granted_points u (new_calls w w')
     = reward_points next + NARRATIVE_POINTS "fragment_read") /\
  (forall cid next,
     make_choice sm NARRATIVE_POINTS mark_discovered u cid w = (w', Ret (true, m, Some next)) ->
     exists s choice,
       lookup_state w u = Some s /\
       validate_choice sm (active_story s) (current_fragment_id s) cid = Some choice /\
       granted_points u (new_calls w w')
       = default 0 (e ← ch_effects choice; eff_points e) + reward_points next +
         NARRATIVE_POINTS "decision_made").
Proof.
  split; [|split].
  - intros sid H.
    destruct (start_story_outcome sm NARRATIVE_POINTS u sid w)
      as [(w1 & E)|[(w1 & msg & E)|(story & f & w1 & Hst & Hf & Hv & T & E)]];
      rewrite E in H; try discriminate.
    injection H as <- _ _.
    destruct (calls_prepared u w) as (x & Hx).
    erewrite (new_calls_trans w (prepared u w)); [|exact Hx|].
    2:{ wsimpl. rewrite (t_calls _ _ _ _ _ _ _ T), <- app_assoc. reflexivity. }
    rewrite granted_points_app, new_calls_prepared.
    rewrite (touched_new_calls _ _ _ _ _ _ _ _ T). cbn.
    rewrite bool_decide_eq_true_2 by reflexivity. lia.
  - intros next H.
    destruct (navigate_next_outcome sm NARRATIVE_POINTS mark_discovered u w)
      as [(msg' & E)|(s & cur & next' & missing & w1 & Hs & Hcur & Htr & Hnext & Hreq & T & E)];
      rewrite E in H; [discriminate|].
    injection H as <- _ <-.
    rewrite (touched_new_calls _ _ _ _ _ _ _ _ T), granted_points_app.
    rewrite granted_points_rewards. cbn.
    rewrite bool_decide_eq_true_2 by reflexivity. lia.
  - intros cid next H.
    destruct (make_choice_outcome sm NARRATIVE_POINTS mark_discovered u cid w)
      as [(msg' & E)|(s & cur & ch & next' & missing & w1 & Hs & Hcur & Hch & Hreq & Hnext & T & E)];
      rewrite E in H; [discriminate|].
    injection H as <- _ <-.
    exists s, ch. split; [exact Hs|]. split; [exact Hch|].
    rewrite (touched_new_calls _ _ _ _ _ _ _ _ T), granted_points_app.
    unfold choice_calls. rewrite !granted_points_app, granted_points_rewards.
    assert (Hc : granted_points u
                   (if String.eqb (frag_type next') "checkpoint"
                    then [EvCheckpoint u (counted_state ch next' (clock w) s)]
                    else []) = 0) by (destruct (String.eqb _ _); reflexivity).
    rewrite Hc.
    assert (He : granted_points u match ch_effects ch with
                                  | Some e => effects_calls u e
                                  | None => []
                                  end = default 0 (e ← ch_effects ch; eff_points e)).
    { unfold effects_calls. destruct (ch_effects ch) as [e|]; [|reflexivity].
      cbn. destruct (eff_points e); cbn; [|reflexivity].
      rewrite bool_decide_eq_true_2 by reflexivity. lia. }
    rewrite He. cbn. rewrite bool_decide_eq_true_2 by reflexivity. lia.
Qed.

End StatisticsFacts.

(** ** Keyboards and notifications *)

Section KeyboardFacts.

Import NarrativeKeyboards.

Variable MAX_CHOICES_PER_FRAGMENT : nat.
Variable BACK_BUTTON_ENABLED : bool.

(** The row of the choice at position [i]. *)
Lemma choice_rows_lookup (l : list Choice) i :
  imap (fun i choice =>
          [ {| text := pretty (i + 1)%nat +:+ ". " +:+ ch_text choice;
               callback_data := "narrative_choice_" +:+ ch_id choice |} ]) l !! i
  = (fun choice =>
       [ {| text := pretty (i + 1)%nat +:+ ". " +:+ ch_text choice;
            callback_data := "narrative_choice_" +:+ ch_id choice |} ]) <$> l !! i.
Proof. apply list_lookup_imap. Qed.

Lemma in_rows {A} (b : A) (rows : list (list A)) :
  b ∈ mjoin rows <-> exists i row, rows !! i = Some row /\ b ∈ row.
Proof.
  rewrite list_elem_of_join. split.
  - intros (row & Hb & Hrow). apply list_elem_of_lookup in Hrow as (i & Hi). eauto.
  - intros (i & row & Hi & Hb). exists row. split; [exact Hb|].
    eapply list_elem_of_lookup_2, Hi.
Qed.

(** The navigation row: never empty, with the menu button. *)
Lemma story_fragment_shape fragment choices can_go_back chapter_info :
  exists rows nav,
    story_fragment MAX_CHOICES_PER_FRAGMENT BACK_BUTTON_ENABLED
      fragment choices can_go_back chapter_info = rows ++ [nav] /\
    rows = (if String.eqb (frag_type fragment) "decision" &&
               negb (bool_decide (choices = []))
            then
              imap (fun i choice =>
                      [ {| text := pretty (i + 1)%nat +:+ ". " +:+ ch_text choice;
                           callback_data := "narrative_choice_" +:+ ch_id choice |} ])
                   (take MAX_CHOICES_PER_FRAGMENT choices)
            else if truthy_str (frag_next_fragment fragment) then
              [ [ {| text := "➡️ Continuar";
                     callback_data := "narrative_next_" +:+
                                      default "" (frag_next_fragment fragment) |} ] ]
            else []) /\
    nav = (if BACK_BUTTON_ENABLED && can_go_back
           then [ {| text := "◀️ Atrás"; callback_data := "narrative_back" |} ] else []) ++
          [ {| text := "📑 Menú"; callback_data := "narrative_menu" |} ] ++
          match chapter_info with
          | Some info => [ {| text := "📍 Cap. " +:+ default "?" info;
                              callback_data := "narrative_chapter_info" |} ]
          | None => []
          end.
Proof.
  eexists _, _. split; [|split; reflexivity].
  unfold story_fragment.
  destruct (BACK_BUTTON_ENABLED && can_go_back), chapter_info; reflexivity.
Qed.

(** X20. The keyboard of a fragment ends with the navigation row, which
    always holds the menu button and holds the back button exactly when
    back buttons are enabled and the user can go back; before it come at
    most as many rows as choices are allowed (one, if none is).  A button
    whose callback is a choice belongs to a decision fragment and carries
    the id of the choice at its position, numbered from 1, among the first
    allowed ones; each of these choices has its row, at its position; and a
    button for the next fragment carries the non-empty id of the next
    fragment and is shown only when no choice is. *)
Theorem story_fragment_buttons fragment choices can_go_back chapter_info :
  let kb := story_fragment MAX_CHOICES_PER_FRAGMENT BACK_BUTTON_ENABLED
              fragment choices can_go_back chapter_info in
  (exists rows nav,
     kb = rows ++ [nav] /\
     (length rows <= Nat.max MAX_CHOICES_PER_FRAGMENT 1)%nat /\
     {| text := "📑 Menú"; callback_data := "narrative_menu" |} ∈ nav /\
     ({| text := "◀️ Atrás"; callback_data := "narrative_back" |} ∈ nav
      <-> BACK_BUTTON_ENABLED = true /\ can_go_back = true)) /\
  (forall b x,
     b ∈ mjoin kb -> callback_data b = "narrative_choice_" +:+ x ->
     frag_type fragment = "decision" /\
     exists i choice,
       (i < MAX_CHOICES_PER_FRAGMENT)%nat /\
       choices !! i = Some choice /\ ch_id choice = x /\
       text b = pretty (i + 1)%nat +:+ ". " +:+ ch_text choice /\
       kb !! i = Some [b]) /\
  (forall i choice,
     frag_type fragment = "decision" ->
     (i < MAX_CHOICES_PER_FRAGMENT)%nat ->
     choices !! i = Some choice ->
     kb !! i = Some [ {| text := pretty (i + 1)%nat +:+ ". " +:+ ch_text choice;
                         callback_data := "narrative_choice_" +:+ ch_id choice |} ]) /\
  (forall b x,
     b ∈ mjoin kb -> callback_data b = "narrative_next_" +:+ x ->
     frag_next_fragment fragment = Some x /\ x <> "" /\
     (frag_type fragment <> "decision" \/ choices = [])).
Proof.
  intros kb.
  destruct (story_fragment_shape fragment choices can_go_back chapter_info)
    as (rows & nav & Hkb & Hrows & Hnav).
  subst kb. rewrite Hkb. clear Hkb. unfold InlineKeyboardMarkup in *.
  assert (Hnavcb : forall b, b ∈ nav ->
            callback_data b = "narrative_back" \/ callback_data b = "narrative_menu" \/
            callback_data b = "narrative_chapter_info").
  { intros b Hb. rewrite Hnav in Hb.
    rewrite !elem_of_app in Hb. destruct Hb as [Hb|[Hb|Hb]].
    - destruct (BACK_BUTTON_ENABLED && can_go_back);
        [apply list_elem_of_singleton in Hb as ->; auto | now apply elem_of_nil in Hb].
    - apply list_elem_of_singleton in Hb as ->. auto.
    - destruct chapter_info;
        [apply list_elem_of_singleton in Hb as ->; auto | now apply elem_of_nil in Hb]. }
  split; [|split; [|split]].
  - exists rows, nav. split; [reflexivity|]. split; [|split].
    + rewrite Hrows.
      destruct (String.eqb (frag_type fragment) "decision" && negb (bool_decide (choices = []))).
      * rewrite length_imap, length_take. lia.
      * destruct (truthy_str (frag_next_fragment fragment)); cbn; lia.
    + rewrite Hnav, !elem_of_app. right. left. apply list_elem_of_singleton. reflexivity.
    + rewrite Hnav, !elem_of_app. split.
      * intros [Hb|[Hb|Hb]].
        -- destruct BACK_BUTTON_ENABLED, can_go_back; cbn in Hb;
             try (now apply elem_of_nil in Hb). auto.
        -- apply list_elem_of_singleton in Hb. discriminate Hb.
        -- destruct chapter_info; [|now apply elem_of_nil in Hb].
           apply list_elem_of_singleton in Hb. discriminate Hb.
      * intros [-> ->]. left. cbn. apply list_elem_of_singleton. reflexivity.
  - intros b x Hb Hcb. rewrite join_app, elem_of_app in Hb.
    destruct Hb as [Hb|Hb].
    2:{ cbn in Hb. rewrite ?app_nil_r in Hb.
        destruct (Hnavcb b Hb) as [H|[H|H]]; rewrite H in Hcb; cbn in Hcb; discriminate Hcb. }
    rewrite Hrows in Hb.
    destruct (String.eqb_spec (frag_type fragment) "decision") as [Ht|Ht]; cbn [andb] in Hb.
    + destruct (negb (bool_decide (choices = []))).
      * apply in_rows in Hb as (i & row & Hi & Hb).
        rewrite choice_rows_lookup in Hi.
        destruct (take MAX_CHOICES_PER_FRAGMENT choices !! i) as [choice|] eqn:Hch;
          [|discriminate Hi].
        injection Hi as <-. apply list_elem_of_singleton in Hb. subst b.
        cbn [callback_data text] in Hcb |- *.
        apply (inj (String.append "narrative_choice_")) in Hcb.
        apply lookup_take_Some in Hch as [Hch Hlt].
        split; [exact Ht|]. exists i, choice.
        split; [exact Hlt|]. split; [exact Hch|]. split; [exact Hcb|]. split; [reflexivity|].
        cbn [andb] in Hrows. subst rows.
        rewrite lookup_app_l.
        -- rewrite choice_rows_lookup, lookup_take_lt by exact Hlt. now rewrite Hch.
        -- rewrite length_imap, length_take. apply lookup_lt_Some in Hch. lia.
      * destruct (truthy_str (frag_next_fragment fragment)); cbn in Hb.
        -- rewrite ?app_nil_r in Hb. apply list_elem_of_singleton in Hb. subst b.
           cbn in Hcb. discriminate Hcb.
        -- now apply elem_of_nil in Hb.
    + destruct (truthy_str (frag_next_fragment fragment)); cbn in Hb.
      * rewrite ?app_nil_r in Hb. apply list_elem_of_singleton in Hb. subst b.
        cbn in Hcb. discriminate Hcb.
      * now apply elem_of_nil in Hb.
  - intros i choice Ht Hlt Hch.
    rewrite Hrows, Ht.
    replace (String.eqb "decision" "decision") with true by reflexivity.
    destruct (bool_decide (choices = [])) eqn:Hc.
    { apply bool_decide_eq_true in Hc. subst choices. discriminate Hch. }
    cbn [negb andb]. rewrite lookup_app_l.
    + rewrite choice_rows_lookup, lookup_take_lt by exact Hlt. now rewrite Hch.
    + rewrite length_imap, length_take. apply lookup_lt_Some in Hch. lia.
  - intros b x Hb Hcb. rewrite join_app, elem_of_app in Hb.
    destruct Hb as [Hb|Hb].
    2:{ cbn in Hb. rewrite ?app_nil_r in Hb.
        destruct (Hnavcb b Hb) as [H|[H|H]]; rewrite H in Hcb; cbn in Hcb; discriminate Hcb. }
    rewrite Hrows in Hb.
    assert (Hnext : truthy_str (frag_next_fragment fragment) = true ->
              b ∈ [ {| text := "➡️ Continuar";
                        callback_data := "narrative_next_" +:+
                                         default "" (frag_next_fragment fragment) |} ] ->
              frag_next_fragment fragment = Some x /\ x <> "").
    { intros Htr Hin. apply list_elem_of_singleton in Hin. subst b.
      cbn [callback_data] in Hcb.
      apply (inj (String.append "narrative_next_")) in Hcb.
      unfold truthy_str in Htr. destruct (frag_next_fragment fragment) as [n|]; [|discriminate].
      cbn in Hcb. subst n. split; [reflexivity|].
      intros ->. discriminate Htr. }
    destruct (String.eqb_spec (frag_type fragment) "decision") as [Ht|Ht]; cbn [andb] in Hb.
    + destruct (bool_decide (choices = [])) eqn:Hc; cbn [negb] in Hb.
      * apply bool_decide_eq_true in Hc.
        destruct (truthy_str (frag_next_fragment fragment)) eqn:Htr; cbn in Hb.
        -- rewrite ?app_nil_r in Hb. destruct (Hnext eq_refl Hb). auto.
        -- now apply elem_of_nil in Hb.
      * apply in_rows in Hb as (i & row & Hi & Hb).
        rewrite choice_rows_lookup in Hi.
        destruct (take MAX_CHOICES_PER_FRAGMENT choices !! i) as [choice|];
          [|discriminate Hi].
        injection Hi as <-. apply list_elem_of_singleton in Hb. subst b.
        cbn in Hcb. discriminate Hcb.
    + destruct (truthy_str (frag_next_fragment fragment)) eqn:Htr; cbn in Hb.
      * rewrite ?app_nil_r in Hb. destruct (Hnext eq_refl Hb). auto.
      * now apply elem_of_nil in Hb.
Qed.

(** X21. The keyboard of the history has three rows; the first shows the
    page and the number of pages, the arrow back when the page is after the
    first and the arrow forward when it is before the last.  The only pages
    its buttons lead to are the one before and the one after, so that from
    a page within [1, total_pages] no button leads outside. *)
Theorem history_navigation_pages page total_pages story_id :
  let kb := history_navigation page total_pages story_id in
  length kb = 3%nat /\
  (exists nav,
     kb !! 0%nat = Some nav /\
     {| text := pretty page +:+ "/" +:+ pretty total_pages;
        callback_data := "narrative_history_info" |} ∈ nav /\
     (1 < page ->
      {| text := "⬅️";
         callback_data := "narrative_history_page_" +:+ story_id +:+ "_" +:+
                          pretty (page - 1) |} ∈ nav) /\
     (page < total_pages ->
      {| text := "➡️";
         callback_data := "narrative_history_page_" +:+ story_id +:+ "_" +:+
                          pretty (page + 1) |} ∈ nav)) /\
  (forall b p,
     b ∈ mjoin kb ->
     callback_data b = "narrative_history_page_" +:+ story_id +:+ "_" +:+ pretty p ->
     (p = page - 1 /\ 1 < page) \/ (p = page + 1 /\ page < total_pages)) /\
  (1 <= page <= total_pages ->
   forall b p,
     b ∈ mjoin kb ->
     callback_data b = "narrative_history_page_" +:+ story_id +:+ "_" +:+ pretty p ->
     1 <= p <= total_pages).
Proof.
  intros kb.
  assert (Hkb : kb =
    [ (if (1 <? page)%Z
       then [ {| text := "⬅️";
                 callback_data := "narrative_history_page_" +:+ story_id +:+ "_" +:+
                                  pretty (page - 1) |} ]
       else []) ++
      [ {| text := pretty page +:+ "/" +:+ pretty total_pages;
           callback_data := "narrative_history_info" |} ] ++
      (if (page <? total_pages)%Z
       then [ {| text := "➡️";
                 callback_data := "narrative_history_page_" +:+ story_id +:+ "_" +:+
                                  pretty (page + 1) |} ]
       else []);
      [ {| text := "📊 Estadísticas Completas";
           callback_data := "narrative_story_stats_" +:+ story_id |} ];
      [ {| text := "🔙 Atrás"; callback_data := "narrative_menu" |} ] ]).
  { subst kb. unfold history_navigation.
    destruct (1 <? page)%Z, (page <? total_pages)%Z; reflexivity. }
  assert (Htargets : forall b p,
     b ∈ mjoin kb ->
     callback_data b = "narrative_history_page_" +:+ story_id +:+ "_" +:+ pretty p ->
     (p = page - 1 /\ 1 < page) \/ (p = page + 1 /\ page < total_pages)).
  { intros b p Hb Hcb. rewrite Hkb in Hb. cbn [mjoin list_join] in Hb.
    rewrite !elem_of_app in Hb.
    assert (Hinj : forall q,
      "narrative_history_page_" +:+ story_id +:+ "_" +:+ pretty q
      = "narrative_history_page_" +:+ story_id +:+ "_" +:+ pretty p -> p = q).
    { intros q H.
      apply (inj (String.append "narrative_history_page_")) in H.
      apply (inj (String.append story_id)) in H.
      apply (inj (String.append "_")) in H.
      now apply (inj pretty) in H. }
    destruct Hb as [[Hb|[Hb|Hb]]|[Hb|[Hb|Hb]]].
    - destruct (Z.ltb_spec 1 page); [|now apply elem_of_nil in Hb].
      apply list_elem_of_singleton in Hb. subst b. cbn [callback_data] in Hcb.
      left. split; [now apply Hinj | assumption].
    - apply list_elem_of_singleton in Hb. subst b. cbn in Hcb. discriminate Hcb.
    - destruct (Z.ltb_spec page total_pages); [|now apply elem_of_nil in Hb].
      apply list_elem_of_singleton in Hb. subst b. cbn [callback_data] in Hcb.
      right. split; [now apply Hinj | assumption].
    - apply list_elem_of_singleton in Hb. subst b. cbn in Hcb. discriminate Hcb.
    - apply list_elem_of_singleton in Hb. subst b. cbn in Hcb. discriminate Hcb.
    - now apply elem_of_nil in Hb. }
  split; [now rewrite Hkb|]. split; [|split; [exact Htargets|]].
  - eexists. split; [rewrite Hkb; reflexivity|].
    rewrite !elem_of_app. split; [|split].
    + right. left. apply list_elem_of_singleton. reflexivity.
    + intros H. left. apply Z.ltb_lt in H. rewrite H. apply list_elem_of_singleton. reflexivity.
    + intros H. right. right. apply Z.ltb_lt in H. rewrite H.
      apply list_elem_of_singleton. reflexivity.
  - intros Hrange b p Hb Hcb. destruct (Htargets b p Hb Hcb) as [[-> H]|[-> H]]; lia.
Qed.

End KeyboardFacts.

Section NotificationFacts.

Import Notificaciones.

Variable rand : nat -> nat.

Lemma choice_in n l : l <> [] -> choice rand n l ∈ l.
Proof.
  intros Hl. unfold choice. apply list_elem_of_In, nth_In.
  apply Nat.mod_upper_bound. destruct l; [congruence | cbn; lia].
Qed.

Lemma redraw_result fuel last : forall mensaje n m n',
  redraw rand fuel last mensaje n = Some (m, n') ->
  last <> Some m /\ (n <= n')%nat /\
  (m = mensaje /\ n' = n \/
   m = choice rand (n' - 1) lucien_mensajes /\ (n < n')%nat) /\
  (forall k, (n <= k < n' - 1)%nat -> last = Some (choice rand k lucien_mensajes)) /\
  (n < n' -> last = Some mensaje)%nat.
Proof.
  induction fuel as [|fuel IH]; intros mensaje n m n' H; cbn [redraw] in H.
  - destruct (bool_decide (last = Some mensaje)) eqn:Hd; cbn [andb] in H.
    + change (1 <? length lucien_mensajes)%nat with true in H. discriminate H.
    + injection H as <- <-. apply bool_decide_eq_false in Hd.
      split; [exact Hd|]. split; [lia|]. split; [auto|]. split; intros; lia.
  - destruct (bool_decide (last = Some mensaje)) eqn:Hd; cbn [andb] in H.
    + change (1 <? length lucien_mensajes)%nat with true in H. cbv iota in H.
      apply bool_decide_eq_true in Hd.
      destruct (IH _ _ _ _ H) as (Hne & Hle & Hm & Hk & Hfirst).
      split; [exact Hne|]. split; [lia|]. split; [|split; [|auto]].
      * right. destruct Hm as [[-> ->]|[-> Hlt]].
        -- split; [|lia]. f_equal. lia.
        -- split; [reflexivity | lia].
      * intros k Hkr. destruct (decide (k = n)) as [->|Hkn].
        -- apply Hfirst. lia.
        -- apply Hk. lia.
    + injection H as <- <-. apply bool_decide_eq_false in Hd.
      split; [exact Hd|]. split; [lia|]. split; [auto|]. split; intros; lia.
Qed.

(** X22. When [enviar_notificacion_gamificada] returns, it has sent the
    user one of the messages of Lucien, the one of the last draw, marked
    with the speech balloon; the message is not the one last sent to that
    user, every draw before the last gave that one, and it is now the last
    message of the user, the entries of others being left alone.  Hence two
    notifications in a row to one user never carry the same message. *)
Theorem notification_fresh fuel user_id e e' :
  enviar_notificacion_gamificada rand fuel user_id e = Some e' ->
  (exists m,
     m ∈ lucien_mensajes /\
     user_last_message e !! user_id <> Some m /\
     user_last_message e' = <[user_id := m]> (user_last_message e) /\
     sent e' = sent e ++ [(user_id, "💬 " +:+ m)] /\
     (draws e < draws e')%nat /\
     m = choice rand (draws e' - 1) lucien_mensajes /\
     (forall k, (draws e <= k < draws e' - 1)%nat ->
        user_last_message e !! user_id = Some (choice rand k lucien_mensajes))) /\
  (forall v, v <> user_id -> user_last_message e' !! v = user_last_message e !! v) /\
  (forall fuel' e'',
     enviar_notificacion_gamificada rand fuel' user_id e' = Some e'' ->
     exists m1 m2,
       sent e'' = sent e ++ [(user_id, "💬 " +:+ m1); (user_id, "💬 " +:+ m2)] /\
       m1 <> m2).
Proof.
  intros H. unfold enviar_notificacion_gamificada in H.
  destruct (redraw rand fuel (user_last_message e !! user_id)
              (choice rand (draws e) lucien_mensajes) (S (draws e)))
    as [[m n']|] eqn:Hr; [|discriminate H].
  injection H as <-.
  destruct (redraw_result _ _ _ _ _ _ Hr) as (Hne & Hle & Hm & Hk & Hfirst).
  cbn [user_last_message sent draws].
  assert (Hmc : m = choice rand (n' - 1) lucien_mensajes).
  { destruct Hm as [[-> ->]|[-> _]]; [|reflexivity]. f_equal. lia. }
  split; [|split].
  - exists m. split.
    { rewrite Hmc. apply choice_in. discriminate. }
    split; [exact Hne|]. split; [reflexivity|]. split; [reflexivity|].
    split; [lia|]. split; [exact Hmc|].
    intros k Hkr. destruct (decide (k = draws e)) as [->|Hkn].
    + apply Hfirst. lia.
    + apply Hk. lia.
  - intros v Hv. now rewrite lookup_insert_ne by congruence.
  - intros fuel' e'' H2. unfold enviar_notificacion_gamificada in H2.
    cbn [user_last_message sent draws] in H2.
    rewrite lookup_insert_eq in H2.
    destruct (redraw rand fuel' (Some m) (choice rand n' lucien_mensajes) (S n'))
      as [[m2 n2]|] eqn:Hr2; [|discriminate H2].
    injection H2 as <-. cbn [sent].
    destruct (redraw_result _ _ _ _ _ _ Hr2) as (Hne2 & _).
    exists m, m2. split; [now rewrite <- app_assoc|]. congruence.
Qed.

Lemma redraw_returns last : forall k fuel mensaje n,
  (k <= fuel)%nat ->
  match k with
  | O => last <> Some mensaje
  | S k' => last <> Some (choice rand (n + k') lucien_mensajes)
  end ->
  exists r, redraw rand fuel last mensaje n = Some r.
Proof.
  induction k as [|k IH]; intros fuel mensaje n Hk Hne.
  - destruct fuel; cbn [redraw]; rewrite bool_decide_eq_false_2 by exact Hne; eauto.
  - destruct fuel as [|fuel]; [lia|]. cbn [redraw].
    destruct (bool_decide (last = Some mensaje) && (1 <? length lucien_mensajes)%nat);
      [|eauto].
    apply IH; [lia|]. destruct k as [|k'].
    + now rewrite Nat.add_0_r in Hne.
    + now replace (S n + k')%nat with (n + S k')%nat by lia.
Qed.

Lemma redraw_more_fuel last : forall fuel fuel' mensaje n r,
  (fuel <= fuel')%nat ->
  redraw rand fuel last mensaje n = Some r ->
  redraw rand fuel' last mensaje n = Some r.
Proof.
  induction fuel as [|fuel IH]; intros fuel' mensaje n r Hle H.
  - cbn [redraw] in H.
    destruct (bool_decide (last = Some mensaje) && (1 <? length lucien_mensajes)%nat) eqn:Hc;
      [discriminate H|].
    destruct fuel'; cbn [redraw]; now rewrite Hc.
  - destruct fuel' as [|fuel']; [lia|]. cbn [redraw] in *.
    destruct (bool_decide (last = Some mensaje) && (1 <? length lucien_mensajes)%nat);
      [|exact H].
    apply (IH fuel'); [lia | exact H].
Qed.

(** X23. [enviar_notificacion_gamificada] returns at its first draw for a
    user without last message; it returns within [k] further draws as soon
    as the draw [k] places ahead gives a message other than the last one;
    and a larger bound on the iterations does not change what a run within
    a smaller one returned. *)
Theorem notification_returns user_id e :
  (user_last_message e !! user_id = None ->
   forall fuel, exists e',
     enviar_notificacion_gamificada rand fuel user_id e = Some e' /\
     draws e' = S (draws e)) /\
  (forall k,
     user_last_message e !! user_id
     <> Some (choice rand (draws e + k) lucien_mensajes) ->
     forall fuel, (k <= fuel)%nat ->
     exists e', enviar_notificacion_gamificada rand fuel user_id e = Some e') /\
  (forall fuel fuel' e',
     (fuel <= fuel')%nat ->
     enviar_notificacion_gamificada rand fuel user_id e = Some e' ->
     enviar_notificacion_gamificada rand fuel' user_id e = Some e').
Proof.
  split; [|split].
  - intros Hn fuel. unfold enviar_notificacion_gamificada. rewrite Hn.
    destruct fuel; cbn [redraw bool_decide andb];
      rewrite bool_decide_eq_false_2 by discriminate; cbn [andb]; eauto.
  - intros k Hne fuel Hk. unfold enviar_notificacion_gamificada.
    destruct (redraw_returns (user_last_message e !! user_id) k fuel
                (choice rand (draws e) lucien_mensajes) (S (draws e)) Hk) as ([m n'] & ->).
    + destruct k as [|k']; [now rewrite Nat.add_0_r in Hne|].
      now replace (S (draws e) + k')%nat with (draws e + S k')%nat by lia.
    + eauto.
  - intros fuel fuel' e' Hle H. unfold enviar_notificacion_gamificada in *.
    destruct (redraw rand fuel (user_last_message e !! user_id)
                (choice rand (draws e) lucien_mensajes) (S (draws e)))
      as [r|] eqn:Hr; [|discriminate H].
    now rewrite (redraw_more_fuel _ _ _ _ _ _ Hle Hr).
Qed.

(** X24. [send_narrative_notification_legacy] does what
    [send_narrative_notification] does for ["new_hint"] with the hint code
    and the source in the context, the defaults of the latter being
    ["Desconocida"] and ["Sistema"].  Every narrative notification sends one
    message to its user with one draw and leaves the last gamified messages
    alone; for a type that is neither ["new_hint"] nor ["achievement"] the
    message is one of the first two the legacy function has for the type
    taken as hint code. *)
Theorem narrative_notification_legacy user_id e :
  (forall pista_code origen,
     send_narrative_notification_legacy rand user_id pista_code origen e
     = send_narrative_notification rand user_id "new_hint"
         {| hint_code := Some pista_code; source := Some origen;
            achievement_name := None |} e) /\
  send_narrative_notification_legacy rand user_id "Desconocida" "Sistema" e
  = send_narrative_notification rand user_id "new_hint"
      {| hint_code := None; source := None; achievement_name := None |} e /\
  (forall notification_type context,
     let e' := send_narrative_notification rand user_id notification_type context e in
     user_last_message e' = user_last_message e /\
     draws e' = S (draws e) /\
     exists mensaje, sent e' = sent e ++ [(user_id, mensaje)]) /\
  (forall notification_type context,
     notification_type <> "new_hint" -> notification_type <> "achievement" ->
     exists mensaje,
       sent (send_narrative_notification rand user_id notification_type context e)
       = sent e ++ [(user_id, mensaje)] /\
       exists n,
         (n < 2)%nat /\
         sent (send_narrative_notification_legacy (fun _ => n) user_id
                 notification_type "Sistema"
                 {| user_last_message := ∅; sent := []; draws := 0 |})
         = [(user_id, mensaje)]).
Proof.
  split; [|split; [|split]].
  - reflexivity.
  - reflexivity.
  - intros t c e'. subst e'. unfold send_narrative_notification.
    cbn [user_last_message draws sent]. eauto.
  - intros t c Hh Ha. unfold send_narrative_notification.
    apply String.eqb_neq in Hh, Ha. rewrite Hh, Ha.
    cbn [sent]. eexists. split; [reflexivity|].
    unfold choice. cbn [length].
    exists (rand (draws e) mod 2)%nat.
    assert (Hlt : (rand (draws e) mod 2 < 2)%nat) by (apply Nat.mod_upper_bound; lia).
    split; [exact Hlt|].
    destruct (rand (draws e) mod 2)%nat as [|[|n]]; [reflexivity | reflexivity | lia].
Qed.

End NotificationFacts.

(** ** What the operations never undo *)

Section MonotoneFacts.

Variable sm : StoryManager.
Variable NARRATIVE_POINTS : string -> Z.
Variable mark_discovered : list string -> gmap string FlagVal -> gmap string FlagVal.






End MonotoneFacts.

(** ** Concrete runs for the further properties *)

Import Samples.


(** X2 on user 1 at [f1], which has no next fragment, and with a history of
    one fragment. *)
Lemma failures_leave_world_witness :
  navigate_next' 1 w_started = (w_started, Ret (false, "No hay siguiente fragmento", None)) /\
  (go_back' 1 w_started).1 = w_started.
Proof.
  pose proof (failures_leave_world sm NARRATIVE_POINTS mark_discovered 1 w_started)
    as (_ & Hn & Hb & _).
  split.
  - eapply Hn; [vm_compute; reflexivity | vm_compute; reflexivity | reflexivity].
  - assert (H : go_back sm 1 w_started
                = ((go_back' 1 w_started).1,
                   Ret (false, "No puedes retroceder más", None)))
      by (vm_compute; reflexivity).
    exact (proj1 (Hb _ _ _ H)).
Defined.

(** X3 on the first choice of user 1. *)
Lemma make_choice_counts_once_witness :
  exists s s' d next,
    lookup_state w_started 1 = Some s /\
    Some f2 = Some next /\
    lookup_state w_chosen 1 = Some s' /\
    db_states w_chosen !! 1 = Some s' /\
    total_decisions_made s' = total_decisions_made s + 1 /\
    current_fragment_id s' = Some (frag_id next) /\
    fragments_visited s' = visit (frag_id next) (fragments_visited s) /\
    all_decisions w_chosen = all_decisions w_started ++ [d] /\
    pending w_chosen = [] /\
    dec_user_id d = 1 /\
    dec_fragment_id d = current_fragment_id s /\
    dec_choice_id d = "c1".
Proof.
  assert (H : make_choice sm NARRATIVE_POINTS mark_discovered 1 "c1" w_started
              = (w_chosen, Ret (true, "Decisión registrada", Some f2)))
    by (vm_compute; reflexivity).
  exact (make_choice_counts_once sm NARRATIVE_POINTS mark_discovered
           1 "c1" w_started w_chosen _ _ H).
Defined.

(** X5 on user 1: start, choice [c1], back to [f1]. *)
Lemma back_after_first_choice_witness :
  exists w3 s3,
    go_back sm 1 w_chosen = (w3, Ret (true, "Has retrocedido", Some f1)) /\
    db_states w3 !! 1 = Some s3 /\
    current_fragment_id s3 = Some "f1" /\
    current_chapter s3 = 1 /\
    fragments_visited s3 = ["f1"; "f2"].
Proof.
  assert (H1 : start_story sm NARRATIVE_POINTS 1 "free" w0
               = (w_started, Ret (true, "Historia 'Libre' iniciada", Some f1)))
    by (vm_compute; reflexivity).
  assert (H2 : make_choice sm NARRATIVE_POINTS mark_discovered 1 "c1" w_started
               = (w_chosen, Ret (true, "Decisión registrada", Some f2)))
    by (vm_compute; reflexivity).
  assert (H3 : frag_id f2 <> frag_id f1) by discriminate.
  exact (back_after_first_choice sm NARRATIVE_POINTS mark_discovered
           1 "free" "c1" w0 w_started _ f1 w_chosen _ f2 H1 H2 H3).
Defined.

(** X6 on user 1 right after the start, and on user 2, who has no state. *)
Lemma get_current_fragment_reads_witness :
  (get_current_fragment sm 1 w_started).2 = Ret (Some f1) /\
  (get_current_fragment sm 2 w_started).2 = Ret None.
Proof.
  assert (H1 : start_story sm NARRATIVE_POINTS 1 "free" w0
               = (w_started, Ret (true, "Historia 'Libre' iniciada", Some f1)))
    by (vm_compute; reflexivity).
  assert (H2 : lookup_state w_started 2 = None) by (vm_compute; reflexivity).
  split.
  - exact (proj1 (proj2 (proj2 (get_current_fragment_reads sm NARRATIVE_POINTS
                                  mark_discovered 1 w_started))) "free" w0 _ f1 H1).
  - exact (proj1 (proj2 (get_current_fragment_reads sm NARRATIVE_POINTS
                           mark_discovered 2 w_started)) H2).
Defined.

(** X7 on an id without [User] row and without state. *)
Lemma user_data_for_requirements_witness :
  exists ud,
    _get_user_data_for_requirements 9 w_started = (w_started, Ret ud) /\
    ud_level ud = 1 /\ ud_points ud = 0 /\ ud_story_flags ud = ∅.
Proof.
  assert (H1 : users w_started !! 9 = None) by (vm_compute; reflexivity).
  assert (H2 : lookup_state w_started 9 = None) by (vm_compute; reflexivity).
  destruct (user_data_for_requirements 9 w_started)
    as (ud & E & _ & _ & Hu & _ & Hf & _).
  exists ud. split; [exact E|].
  split; [exact (proj1 (Hu H1))|]. split; [exact (proj2 (Hu H1)) | exact (Hf H2)].
Defined.

(** X8 on user 1 right after the start: lucien is listed twice (2 and 3),
    diana once, a third character not at all. *)
Lemma choice_effects_relationships_witness :
  exists w' s',
    _apply_choice_effects 1 e_trust d_blank w_started
    = (w', Ret (effects_decision e_trust d_blank)) /\
    lookup_state w' 1 = Some s' /\
    relationship_scores s' !! "lucien" = Some 5 /\
    relationship_scores s' !! "diana" = Some (-1) /\
    relationship_scores s' !! "kinky" = None.
Proof.
  assert (Hs : lookup_state w_started 1
               = Some (default (new_state 1 0) (lookup_state w_started 1)))
    by (vm_compute; reflexivity).
  assert (Hr : eff_relationships e_trust
               = Some [("lucien", 2); ("diana", -1); ("lucien", 3)]) by reflexivity.
  destruct (choice_effects_relationships 1 e_trust d_blank w_started _ _ Hs Hr)
    as (w' & s' & E & L & H).
  exists w', s'. split; [exact E|]. split; [exact L|].
  split; [|split]; rewrite H; vm_compute; reflexivity.
Defined.

(** X9 on the same call: the flag is listed twice, the last value stays. *)
Lemma choice_effects_story_flags_witness :
  exists w' s',
    _apply_choice_effects 1 e_trust d_blank w_started
    = (w', Ret (effects_decision e_trust d_blank)) /\
    lookup_state w' 1 = Some s' /\
    story_flags s' !! "met_lucien" = Some (FBool true) /\
    story_flags s' !! "other" = None.
Proof.
  assert (Hs : lookup_state w_started 1
               = Some (default (new_state 1 0) (lookup_state w_started 1)))
    by (vm_compute; reflexivity).
  assert (Hf : eff_story_flags e_trust
               = Some [("met_lucien", FBool false); ("met_lucien", FBool true)])
    by reflexivity.
  destruct (choice_effects_story_flags 1 e_trust d_blank w_started _ _ Hs Hf)
    as (w' & s' & E & L & H).
  exists w', s'. split; [exact E|]. split; [exact L|].
  split; rewrite H; vm_compute; reflexivity.
Defined.

(** X10 on a user without state, and on user 1 with effects whose points
    are 0: the grant of 0 points is still forwarded. *)
Lemma choice_effects_frame_witness :
  _apply_choice_effects 2 e_trust d_blank w_started = (w_started, Ret d_blank) /\
  new_calls w_started (_apply_choice_effects 1 e_trust d_blank w_started).1
  = [EvGivePoints 1 0].
Proof.
  assert (Hn : lookup_state w_started 2 = None) by (vm_compute; reflexivity).
  assert (Hs : lookup_state w_started 1
               = Some (default (new_state 1 0) (lookup_state w_started 1)))
    by (vm_compute; reflexivity).
  split.
  - exact (proj1 (choice_effects_frame 2 e_trust d_blank w_started) Hn).
  - destruct (proj2 (choice_effects_frame 1 e_trust d_blank w_started) _ Hs)
      as (w' & s' & d' & E & _ & _ & _ & _ & C & _).
    rewrite E. exact C.
Defined.

(** X11 on a fragment with every kind of reward, for user 1 right after
    the start. *)
Lemma fragment_rewards_calls_witness :
  new_calls w_started (_process_fragment_rewards mark_discovered 1 f_reward w_started).1
  = [EvGivePoints 1 4; EvAward 1 "first_step"; EvAward 1 "curious"; EvUnlockLore 1 "carta"] /\
  exists s s',
    lookup_state w_started 1 = Some s /\
    lookup_state (_process_fragment_rewards mark_discovered 1 f_reward w_started).1 1
    = Some s' /\
    same_core s s' /\ relationship_scores s' = relationship_scores s.
Proof.
  assert (Hs : lookup_state w_started 1
               = Some (default (new_state 1 0) (lookup_state w_started 1)))
    by (vm_compute; reflexivity).
  destruct (fragment_rewards_calls mark_discovered 1 f_reward w_started)
    as (w' & E & C & _ & _ & _ & _ & _ & H).
  rewrite E. split; [exact C|].
  destruct (H _ Hs) as (s' & L & K & R).
  exists (default (new_state 1 0) (lookup_state w_started 1)), s'. auto.
Defined.

(** X12 on the restart of user 1: the counter stays at 1, the history is
    reset. *)
Lemma start_story_success_state_witness :
  exists s',
    db_states w_restarted !! 1 = Some s' /\
    total_decisions_made s' = 1 /\
    fragments_visited s' = ["f1"] /\
    story_completion_percent s' = 0%Q /\
    vip_story_unlocked s' = false.
Proof.
  assert (H : start_story sm NARRATIVE_POINTS 1 "free" w_chosen
              = (w_restarted, Ret (true, "Historia 'Libre' iniciada", Some f1)))
    by (vm_compute; reflexivity).
  destruct (start_story_success_state sm NARRATIVE_POINTS 1 "free" w_chosen w_restarted _ _ H)
    as (story & f & s0 & s' & _ & Hf & _ & _ & _ & Hs0 & Hdb & _ & _ & _ & _ & Hv & Hp & Ht
        & _ & _ & _ & _ & Hvip & _).
  exists s'. split; [exact Hdb|].
  split; [rewrite Ht, Hs0; vm_compute; reflexivity|].
  split; [rewrite Hv; injection Hf as <-; reflexivity|].
  split; [exact Hp|].
  rewrite Hvip, Hs0. vm_compute. reflexivity.
Defined.

(** X13 on choice [c2] of user 1: the score of lucien, the chapter of
    [f3] and the time of the call are committed. *)
Lemma make_choice_success_state_witness :
  exists s',
    db_states (make_choice' 1 "c2" w_started).1 !! 1 = Some s' /\
    current_chapter s' = 2 /\
    last_interaction_at s' = 100.
Proof.
  assert (H : make_choice sm NARRATIVE_POINTS mark_discovered 1 "c2" w_started
              = ((make_choice' 1 "c2" w_started).1,
                 Ret (true, "Decisión registrada", Some f3)))
    by (vm_compute; reflexivity).
  destruct (make_choice_success_state sm NARRATIVE_POINTS mark_discovered
              1 "c2" w_started _ _ _ H)
    as (s & cur & ch & next & missing & s1 & s' & _ & _ & _ & _ & _ & Hfr & _ & Hdb & _
        & _ & Hc & _ & _ & _ & _ & Hl & _).
  exists s'. split; [exact Hdb|].
  injection Hfr as <-.
  split; [rewrite Hc; reflexivity | rewrite Hl; reflexivity].
Defined.

(** X14 on the same choice: 5 points, no items, chapter 1. *)
Lemma make_choice_success_record_witness :
  exists d,
    last (db_decisions (make_choice' 1 "c2" w_started).1) = Some d /\
    dec_choice_id d = "c2" /\
    dec_chapter d = 1 /\
    dec_points_gained d = 5 /\
    dec_items_gained d = [].
Proof.
  assert (H : make_choice sm NARRATIVE_POINTS mark_discovered 1 "c2" w_started
              = ((make_choice' 1 "c2" w_started).1,
                 Ret (true, "Decisión registrada", Some f3)))
    by (vm_compute; reflexivity).
  destruct (make_choice_success_record sm NARRATIVE_POINTS mark_discovered
              1 "c2" w_started _ _ _ H)
    as (s & cur & ch & d & Hs & Hcur & Hch & Hdb & _ & _ & Hid & _ & Hchap & Hp & Hi).
  assert (Hs' : Some s = lookup_state w_started 1) by (now rewrite Hs).
  vm_compute in Hs'. injection Hs' as ->.
  vm_compute in Hcur. injection Hcur as <-.
  vm_compute in Hch. injection Hch as <-.
  exists d. split; [rewrite Hdb; apply last_snoc|].
  split; [exact Hid|]. split; [exact Hchap|]. split; [exact Hp | exact Hi].
Defined.

(** X15 on user 1 at [f2]: on to [f3], without a decision. *)
Lemma navigate_next_success_state_witness :
  exists s',
    db_states (navigate_next' 1 w_chosen).1 !! 1 = Some s' /\
    current_fragment_id s' = Some "f3" /\
    current_chapter s' = 2 /\
    last_interaction_at s' = 100.
Proof.
  assert (H : navigate_next sm NARRATIVE_POINTS mark_discovered 1 w_chosen
              = ((navigate_next' 1 w_chosen).1,
                 Ret (true, "Continuando historia", Some f3)))
    by (vm_compute; reflexivity).
  destruct (navigate_next_success_state sm NARRATIVE_POINTS mark_discovered
              1 w_chosen _ _ _ H)
    as (s & cur & next & missing & s' & _ & _ & _ & _ & _ & Hfr & _ & Hdb & _ & _ & Hc
        & Hch & _ & _ & _ & _ & _ & _ & Hl & _).
  exists s'. split; [exact Hdb|].
  injection Hfr as <-.
  split; [exact Hc|]. split; [exact Hch|]. rewrite Hl. reflexivity.
Defined.

(** X16 on the veteran: four achievements are due, three are awarded. *)
Lemma check_achievements_spec_witness :
  exists l,
    check_achievements string award_all_but_lucien 1 w_veteran
    = (logged [EvAward 1 "narrative_10_decisions"; EvAward 1 "narrative_25_percent";
               EvAward 1 "narrative_complete_free"; EvAward 1 "lucien_trusted"] w_veteran,
       Ret l) /\
    (length l <= 4)%nat.
Proof.
  assert (Hs : lookup_state w_veteran 1 = Some s_veteran) by (vm_compute; reflexivity).
  destruct (proj2 (check_achievements_spec string award_all_but_lucien 1 w_veteran) _ Hs)
    as (l & E & Hlen & _).
  exists l. split; [exact E | exact (proj1 Hlen)].
Defined.

(** X17 on the veteran and on user 2, who has no state. *)
Lemma get_user_stats_spec_witness :
  (get_user_stats sm 2 w_veteran).2
  = Ret (NotStarted "Aún no has comenzado ninguna historia") /\
  exists st,
    (get_user_stats sm 1 w_veteran).2 = Ret (Started st) /\
    st_total_points_earned st = 7 /\
    st_unique_items_found st = 2%nat /\
    (length (st_endings_reached st) <= 3)%nat.
Proof.
  assert (Hn : lookup_state w_veteran 2 = None) by (vm_compute; reflexivity).
  assert (Hs : lookup_state w_veteran 1 = Some s_veteran) by (vm_compute; reflexivity).
  destruct (get_user_stats_spec sm 1 w_veteran) as (_ & _ & H1).
  destruct (get_user_stats_spec sm 2 w_veteran) as (_ & H2 & _).
  split; [exact (H2 Hn)|].
  destruct (H1 _ Hs) as (st & E & Hv & _ & Hp & _ & _ & _ & Hi & _ & He & _).
  exists st. split; [exact E|].
  split; [rewrite Hp; vm_compute; reflexivity|].
  split; [rewrite Hi; vm_compute; reflexivity|].
  rewrite Hv in He. exact He.
Defined.

(** X18 on choice [c2] of user 1, whose effects give 5 points. *)
Lemma stats_after_choice_witness :
  exists st st',
    (get_user_stats sm 1 w_started).2 = Ret (Started st) /\
    (get_user_stats sm 1 (make_choice' 1 "c2" w_started).1).2 = Ret (Started st') /\
    st_total_decisions st' = st_total_decisions st + 1 /\
    st_total_points_earned st' = st_total_points_earned st + 5.
Proof.
  assert (H : make_choice sm NARRATIVE_POINTS mark_discovered 1 "c2" w_started
              = ((make_choice' 1 "c2" w_started).1,
                 Ret (true, "Decisión registrada", Some f3)))
    by (vm_compute; reflexivity).
  assert (Hs : lookup_state w_started 1
               = Some (default (new_state 1 0) (lookup_state w_started 1)))
    by (vm_compute; reflexivity).
  destruct (proj2 (proj2 (get_user_stats_spec sm 1 w_started)) _ Hs) as (st & Est & _).
  destruct (stats_after_choice sm NARRATIVE_POINTS mark_discovered
              1 "c2" w_started _ _ _ st H Est)
    as (s & ch & st' & Hs' & Hch & E' & Hd & Hp & _).
  exists st, st'. split; [exact Est|]. split; [exact E'|]. split; [exact Hd|].
  rewrite Hp. f_equal.
  rewrite Hs in Hs'. injection Hs' as <-.
  vm_compute in Hch. injection Hch as <-. reflexivity.
Defined.

(** X19 on the same choice: 5 points of the effects and 3 for the
    decision. *)
Lemma points_granted_witness :
  granted_points 1 (new_calls w_started (make_choice' 1 "c2" w_started).1) = 5 + 0 + 3.
Proof.
  assert (H : make_choice sm NARRATIVE_POINTS mark_discovered 1 "c2" w_started
              = ((make_choice' 1 "c2" w_started).1,
                 Ret (true, "Decisión registrada", Some f3)))
    by (vm_compute; reflexivity).
  destruct (proj2 (proj2 (points_granted sm NARRATIVE_POINTS mark_discovered
                            1 w_started _ _ (Some f3))) "c2" f3 H)
    as (s & ch & Hs & Hch & E).
  rewrite E.
  assert (Hs' : Some s = lookup_state w_started 1) by (now rewrite Hs).
  vm_compute in Hs'. injection Hs' as ->.
  vm_compute in Hch. injection Hch as <-. reflexivity.
Defined.

(** X20 on [f1] with its four choices, three of them allowed: the second
    row is the button of [c2]. *)
Lemma story_fragment_buttons_witness :
  NarrativeKeyboards.story_fragment 3 true f1 [c1; c2; c3; c4] true None !! 1%nat
  = Some [ {| NarrativeKeyboards.text := "2. Confiar";
              NarrativeKeyboards.callback_data := "narrative_choice_c2" |} ].
Proof.
  assert (Ht : frag_type f1 = "decision") by reflexivity.
  assert (Hlt : (1 < 3)%nat) by lia.
  assert (Hch : [c1; c2; c3; c4] !! 1%nat = Some c2) by reflexivity.
  exact (proj1 (proj2 (proj2 (story_fragment_buttons 3 true f1 [c1; c2; c3; c4] true None)))
           1%nat c2 Ht Hlt Hch).
Defined.

(** X21 on page 2 of 5: the arrow back leads to page 1. *)
Lemma history_navigation_pages_witness :
  exists nav,
    NarrativeKeyboards.history_navigation 2 5 "free" !! 0%nat = Some nav /\
    {| NarrativeKeyboards.text := "⬅️";
       NarrativeKeyboards.callback_data := "narrative_history_page_free_1" |} ∈ nav.
Proof.
  assert (H : 1 < 2) by lia.
  destruct (proj1 (proj2 (history_navigation_pages 2 5 "free")))
    as (nav & Hnav & _ & Hprev & _).
  exists nav. split; [exact Hnav | exact (Hprev H)].
Defined.

(** X22 on user 7: the first draw gives the message sent last, the second
    draw another one. *)
Lemma notification_fresh_witness :
  exists e' m,
    Notificaciones.enviar_notificacion_gamificada draw_in_turn 3 7 e_repeat = Some e' /\
    Notificaciones.user_last_message e_repeat !! 7 <> Some m /\
    Notificaciones.sent e' = [(7, "💬 " +:+ m)] /\
    Notificaciones.draws e' = 2%nat.
Proof.
  assert (H : Notificaciones.enviar_notificacion_gamificada draw_in_turn 3 7 e_repeat
              = Some (default e_repeat
                        (Notificaciones.enviar_notificacion_gamificada
                           draw_in_turn 3 7 e_repeat)))
    by (vm_compute; reflexivity).
  destruct (proj1 (notification_fresh draw_in_turn 3 7 e_repeat _ H))
    as (m & _ & Hne & _ & Hs & _).
  eexists _, m. split; [exact H|]. split; [exact Hne|]. split; [exact Hs|].
  vm_compute. reflexivity.
Defined.

(** X23 on the same user: one further draw is enough. *)
Lemma notification_returns_witness :
  exists e', Notificaciones.enviar_notificacion_gamificada draw_in_turn 1 7 e_repeat = Some e'.
Proof.
  assert (Hne : Notificaciones.user_last_message e_repeat !! 7
                <> Some (Notificaciones.choice draw_in_turn
                           (Notificaciones.draws e_repeat + 1)
                           Notificaciones.lucien_mensajes))
    by (vm_compute; discriminate).
  assert (Hk : (1 <= 1)%nat) by lia.
  exact (proj1 (proj2 (notification_returns draw_in_turn 7 e_repeat)) 1%nat Hne 1%nat Hk).
Defined.

(** X24 on a type that is the code of a hint. *)
Lemma narrative_notification_legacy_witness :
  exists mensaje n,
    Notificaciones.sent
      (Notificaciones.send_narrative_notification draw_in_turn 7 "pista_7"
         {| Notificaciones.hint_code := None; Notificaciones.source := None;
            Notificaciones.achievement_name := None |} e_repeat)
    = [(7, mensaje)] /\
    (n < 2)%nat /\
    Notificaciones.sent
      (Notificaciones.send_narrative_notification_legacy (fun _ => n) 7 "pista_7" "Sistema"
         {| Notificaciones.user_last_message := ∅; Notificaciones.sent := [];
            Notificaciones.draws := 0 |})
    = [(7, mensaje)].
Proof.
  assert (H1 : "pista_7" <> "new_hint") by discriminate.
  assert (H2 : "pista_7" <> "achievement") by discriminate.
  destruct (proj2 (proj2 (proj2 (narrative_notification_legacy draw_in_turn 7 e_repeat)))
              "pista_7"
              {| Notificaciones.hint_code := None; Notificaciones.source := None;
                 Notificaciones.achievement_name := None |} H1 H2)
    as (mensaje & Hs & n & Hn & Hl).
  exists mensaje, n. split; [exact Hs|]. split; [exact Hn | exact Hl].
Defined.

